(** * cookiecutter.context: the version 2 context resolution engine

    A shallow embedding of [cookiecutter/context.py]: the requirement
    checker, the deserializer table, the [Variable] constructor, the prompt
    strategies and the [load_context] walk, followed by the properties
    established about them.

    Python strings are modelled as [string] (one [ascii] per character),
    integers as [Z], floats as IEEE binary64 values ([spec_float]), ordered
    dictionaries as association lists with unique keys.  Exceptions are
    values of [error]; code that can raise returns [result]. *)

From Stdlib Require Import ZArith List String Ascii Bool Lia.
From Stdlib Require Import DecimalString DecimalPos DecimalZ Floats.SpecFloat.
From Stdlib Require Import Permutation.
Import ListNotations.
Local Open Scope string_scope.
Local Open Scope Z_scope.

Set Implicit Arguments.
Set Warnings "-register-all".

(* ================================================================== *)
(** ** Exceptions *)
(* ================================================================== *)

Inductive error : Type :=
| ValueError (msg : string)
| KeyError (key : string)
| TypeError
| OverflowError
| AttributeError
| AssertionError
| InvalidVersion
| TemplateError
| BadParameter
| ReError
| Abort.

Inductive result (A : Type) : Type :=
| Ok (a : A)
| Raise (e : error).
Arguments Ok {A} a.
Arguments Raise {A} e.

Definition rbind {A B} (r : result A) (k : A -> result B) : result B :=
  match r with
  | Ok a => k a
  | Raise e => Raise e
  end.

Declare Scope result_scope.
Delimit Scope result_scope with result.
Notation "'try' x <- r ; k" := (rbind r (fun x => k))
  (at level 10, x name, r at level 100, k at level 200) : result_scope.

Definition of_option {A} (e : error) (o : option A) : result A :=
  match o with
  | Some a => Ok a
  | None => Raise e
  end.

(* ================================================================== *)
(** ** Strings *)
(* ================================================================== *)

(** [s[:n]] *)
Fixpoint str_take (n : nat) (s : string) : string :=
  match n, s with
  | S n', String c s' => String c (str_take n' s')
  | _, _ => EmptyString
  end.

(** [s[n:]] *)
Fixpoint str_drop (n : nat) (s : string) : string :=
  match n, s with
  | S n', String _ s' => str_drop n' s'
  | _, _ => s
  end.

(** [s.startswith(p)] *)
Fixpoint startswith (p s : string) : bool :=
  match p, s with
  | EmptyString, _ => true
  | String a p', String b s' => Ascii.eqb a b && startswith p' s'
  | String _ _, EmptyString => false
  end.

(** [s.split(sep)] for a one-character separator: never an empty list. *)
Fixpoint split_on (sep : ascii) (s : string) : list string :=
  match s with
  | EmptyString => [EmptyString]
  | String c s' =>
      if Ascii.eqb c sep then EmptyString :: split_on sep s'
      else match split_on sep s' with
           | [] => [String c EmptyString]
           | w :: ws => String c w :: ws
           end
  end.

(** A character of a string is a code point below 256.  [is_space] holds
    of those that [str.isspace] accepts and [str.strip] removes: the
    controls 9 to 13 and 28 to 31, the space, U+0085 and U+00A0. *)
Definition is_space (c : ascii) : bool :=
  let n := nat_of_ascii c in
  ((9 <=? n) && (n <=? 13) || (28 <=? n) && (n <=? 32)
   || (n =? 133) || (n =? 160))%nat.

Fixpoint lstrip (s : string) : string :=
  match s with
  | String c s' => if is_space c then lstrip s' else s
  | EmptyString => EmptyString
  end.

Fixpoint rstrip (s : string) : string :=
  match s with
  | EmptyString => EmptyString
  | String c s' =>
      match rstrip s' with
      | EmptyString => if is_space c then EmptyString else String c EmptyString
      | r => String c r
      end
  end.

(** [str.strip] *)
Definition strip (s : string) : string := rstrip (lstrip s).

Definition comma : ascii := ","%char.

(* ================================================================== *)
(** ** Requirement checker: [validate_requirement] *)
(* ================================================================== *)

(** The comparison functions imported from [operator]. *)
Inductive operator : Type := eq_op | lt_op | le_op | gt_op | ge_op.

(** [op_mapping = {'==': eq, '<': lt, '<=': le, '>': gt, '>=': ge}];
    [None] stands for a key that is not in the dict. *)
Definition op_mapping (key : string) : option operator :=
  if String.eqb key "==" then Some eq_op
  else if String.eqb key "<" then Some lt_op
  else if String.eqb key "<=" then Some le_op
  else if String.eqb key ">" then Some gt_op
  else if String.eqb key ">=" then Some ge_op
  else None.

(** The local function [validate_single_req] up to the call of the
    operator: which comparison is selected and what is left as the
    reference version. *)
Definition parse_single_req (req_str : string) : operator * string :=
  match op_mapping (str_take 2 req_str) with
  | Some operator => (operator, str_drop 2 req_str)
  | None =>
      match op_mapping (str_take 1 req_str) with
      | Some operator => (operator, str_drop 1 req_str)
      | None => (eq_op, req_str)
      end
  end.

Section Requirement.

(** [packaging.version]: the parsed version objects, [version.parse]
    (which may raise) and the total order on versions. *)
Variable version : Type.
Variable version_parse : string -> option version.
Variable version_compare : version -> version -> comparison.

Definition apply_operator (o : operator) (a b : version) : bool :=
  match o, version_compare a b with
  | eq_op, Eq => true
  | lt_op, Lt => true
  | le_op, (Lt | Eq) => true
  | gt_op, Gt => true
  | ge_op, (Gt | Eq) => true
  | _, _ => false
  end.

Definition validate_single_req (pkg_version req_str : string) : result bool :=
  let '(operator, version_ref) := parse_single_req req_str in
  (try a <- of_option InvalidVersion (version_parse pkg_version);
   try b <- of_option InvalidVersion (version_parse version_ref);
   Ok (apply_operator operator a b))%result.

(** [all(map(f, xs))]: [map] is lazy, so [all] stops at the first
    clause that is false and later clauses are not even parsed. *)
Fixpoint all_map (f : string -> result bool) (xs : list string) : result bool :=
  match xs with
  | [] => Ok true
  | x :: xs' =>
      (try b <- f x;
       if b then all_map f xs' else Ok false)%result
  end.

Definition validate_requirement (req_long_str pkg_version : string) : result bool :=
  let req_list := map strip (split_on comma req_long_str) in
  all_map (validate_single_req pkg_version) req_list.

End Requirement.

(** *** A concrete instance of the version order: release versions

    Dotted sequences of decimal numbers ([1.0], [2.0.0]), ordered as
    [packaging] orders them: trailing zero segments are insignificant and
    the remaining segments compare lexicographically. *)
Module Release.

Definition digit_of (c : ascii) : option N :=
  let n := N_of_ascii c in
  if ((48 <=? n) && (n <=? 57))%N then Some (n - 48)%N else None.

Fixpoint number_acc (acc : N) (s : string) : option N :=
  match s with
  | EmptyString => Some acc
  | String c s' =>
      match digit_of c with
      | Some d => number_acc (10 * acc + d)%N s'
      | None => None
      end
  end.

Definition number (s : string) : option N :=
  match s with
  | EmptyString => None
  | _ => number_acc 0%N s
  end.

Fixpoint numbers (l : list string) : option (list N) :=
  match l with
  | [] => Some []
  | s :: l' =>
      match number s, numbers l' with
      | Some n, Some ns => Some (n :: ns)
      | _, _ => None
      end
  end.

Definition parse (s : string) : option (list N) :=
  numbers (split_on "."%char s).

(** Drop the trailing zero segments. *)
Fixpoint trim (l : list N) : list N :=
  match l with
  | [] => []
  | n :: l' =>
      match trim l', n with
      | [], 0%N => []
      | t, _ => n :: t
      end
  end.

Fixpoint lex (a b : list N) : comparison :=
  match a, b with
  | [], [] => Eq
  | [], _ :: _ => Lt
  | _ :: _, [] => Gt
  | x :: a', y :: b' =>
      match N.compare x y with
      | Eq => lex a' b'
      | c => c
      end
  end.

Definition compare (a b : list N) : comparison := lex (trim a) (trim b).

End Release.

(** [validate_requirement] over release versions. *)
Definition satisfies : string -> string -> result bool :=
  validate_requirement Release.parse Release.compare.

(* ================================================================== *)
(** ** Python values *)
(* ================================================================== *)

(** What a decoded JSON document, a default or a prompted answer can be.
    [VUuid] is a [uuid.UUID] object, given by its 128-bit integer. *)
Inductive value : Type :=
| VNone
| VBool (b : bool)
| VInt (z : Z)
| VFloat (f : spec_float)
| VStr (s : string)
| VList (l : list value)
| VDict (d : list (string * value))
| VUuid (n : Z).

Definition float_prec : Z := 53.
Definition float_emax : Z := 1024.

(** Parts of the Python runtime that are taken as given: the textual
    forms of floats and containers and the parsers behind [int(str)],
    [float(str)] and [int(str, 16)]. *)
Class Builtins : Type := {
  float_repr : spec_float -> string;
  container_repr : value -> string;
  int_of_str : string -> option Z;
  float_of_str : string -> option spec_float;
  int_base16 : string -> option Z
}.

(** *** Hexadecimal text *)

Definition hex_char (d : Z) : ascii :=
  if d <? 10 then ascii_of_N (Z.to_N (48 + d)) else ascii_of_N (Z.to_N (87 + d)).

(** ['%0kx' % n] for [0 <= n < 16^k]. *)
Fixpoint hex_fixed (k : nat) (n : Z) : string :=
  match k with
  | O => EmptyString
  | S k' => hex_fixed k' (n / 16) ++ String (hex_char (n mod 16)) EmptyString
  end.

Definition hex_digit_value (c : ascii) : option Z :=
  let n := Z.of_N (N_of_ascii c) in
  if (48 <=? n) && (n <=? 57) then Some (n - 48)
  else if (97 <=? n) && (n <=? 102) then Some (n - 87)
  else None.

Definition is_hex_lower (s : string) : bool :=
  forallb (fun c => match hex_digit_value c with Some _ => true | None => false end)
          (list_ascii_of_string s).

(** The number a string of lower-case hexadecimal digits denotes. *)
Definition hex_value (s : string) : Z :=
  fold_left (fun acc c => 16 * acc + match hex_digit_value c with Some d => d | None => 0 end)
            (list_ascii_of_string s) 0.

(** What is asked of [int(s, 16)]: on a non-empty string of lower-case
    hexadecimal digits it returns the number they denote. *)
Definition int_base16_reads_hex (B : Builtins) : Prop :=
  forall s, s <> EmptyString -> is_hex_lower s = true ->
            int_base16 s = Some (hex_value s).

(** *** [uuid.UUID(hex)] and [UUID.hex] *)

(** [s.replace(old, '')]; [skip] counts the characters of a match still to
    be dropped. *)
Fixpoint remove_all (old : string) (skip : nat) (s : string) : string :=
  match s with
  | EmptyString => EmptyString
  | String c s' =>
      match skip with
      | S k => remove_all old k s'
      | O => if startswith old s
             then remove_all old (Nat.pred (String.length old)) s'
             else String c (remove_all old O s')
      end
  end.

Definition is_brace (c : ascii) : bool :=
  Ascii.eqb c "{"%char || Ascii.eqb c "}"%char.

Fixpoint lstrip_braces (s : string) : string :=
  match s with
  | String c s' => if is_brace c then lstrip_braces s' else s
  | EmptyString => EmptyString
  end.

Fixpoint rstrip_braces (s : string) : string :=
  match s with
  | EmptyString => EmptyString
  | String c s' =>
      match rstrip_braces s' with
      | EmptyString => if is_brace c then EmptyString else String c EmptyString
      | r => String c r
      end
  end.

Definition uuid_hex (n : Z) : string := hex_fixed 32 n.

Section PythonBuiltins.

Context {B : Builtins}.

(** [uuid.UUID(hex)]: the 128-bit integer of the UUID, or [ValueError]. *)
Definition uuid_UUID (hex : string) : result Z :=
  let hex := remove_all "uuid:" O (remove_all "urn:" O hex) in
  let hex := remove_all "-" O (rstrip_braces (lstrip_braces hex)) in
  if negb (Nat.eqb (String.length hex) 32)
  then Raise (ValueError "badly formed hexadecimal UUID string")
  else
    match int_base16 hex with
    | None => Raise (ValueError "invalid literal for int() with base 16")
    | Some int =>
        if negb ((0 <=? int) && (int <? 2 ^ 128))
        then Raise (ValueError "int is out of range (need a 128-bit value)")
        else Ok int
    end.

(** [str(uuid)]: the 8-4-4-4-12 form. *)
Definition uuid_str (n : Z) : string :=
  let h := uuid_hex n in
  str_take 8 h ++ "-" ++ str_take 4 (str_drop 8 h) ++ "-" ++
  str_take 4 (str_drop 12 h) ++ "-" ++ str_take 4 (str_drop 16 h) ++ "-" ++
  str_drop 20 h.

(** *** [str], [bool], [int], [float] and [==] *)

Definition py_str (v : value) : string :=
  match v with
  | VStr s => s
  | VNone => "None"
  | VBool true => "True"
  | VBool false => "False"
  | VInt z => NilZero.string_of_int (Z.to_int z)
  | VFloat f => float_repr f
  | VUuid n => uuid_str n
  | VList _ | VDict _ => container_repr v
  end.

Definition float_is_zero (f : spec_float) : bool :=
  match f with
  | S754_zero _ => true
  | _ => false
  end.

Definition py_bool (v : value) : bool :=
  match v with
  | VNone => false
  | VBool b => b
  | VInt z => negb (z =? 0)
  | VFloat f => negb (float_is_zero f)
  | VStr s => negb (String.eqb s EmptyString)
  | VList l => match l with [] => false | _ => true end
  | VDict d => match d with [] => false | _ => true end
  | VUuid _ => true
  end.

Definition signed (s : bool) (m : positive) : Z :=
  if s then Z.neg m else Z.pos m.

(** [int(f)]: truncation towards zero. *)
Definition float_trunc (f : spec_float) : result Z :=
  match f with
  | S754_zero _ => Ok 0
  | S754_infinity _ => Raise OverflowError
  | S754_nan => Raise (ValueError "cannot convert float NaN to integer")
  | S754_finite s m e =>
      if 0 <=? e then Ok (signed s m * 2 ^ e)
      else Ok (Z.quot (signed s m) (2 ^ (- e)))
  end.

(** [float(z)]: round to nearest, ties to even; too large is an error. *)
Definition float_of_Z (z : Z) : result spec_float :=
  match binary_normalize float_prec float_emax z 0 false with
  | S754_infinity _ => Raise OverflowError
  | f => Ok f
  end.

Definition py_int (v : value) : result Z :=
  match v with
  | VInt z => Ok z
  | VBool b => Ok (if b then 1 else 0)
  | VFloat f => float_trunc f
  | VStr s => of_option (ValueError "invalid literal for int() with base 10")
                        (int_of_str s)
  | VUuid n => Ok n
  | VNone | VList _ | VDict _ => Raise TypeError
  end.

Definition py_float (v : value) : result spec_float :=
  match v with
  | VFloat f => Ok f
  | VInt z => float_of_Z z
  | VBool b => float_of_Z (if b then 1 else 0)
  | VStr s => of_option (ValueError "could not convert string to float")
                        (float_of_str s)
  | VNone | VList _ | VDict _ | VUuid _ => Raise TypeError
  end.

(** An exact comparison of a float with an integer. *)
Definition float_eq_Z (f : spec_float) (z : Z) : bool :=
  match f with
  | S754_zero _ => z =? 0
  | S754_finite s m e =>
      if 0 <=? e then z =? signed s m * 2 ^ e
      else z * 2 ^ (- e) =? signed s m
  | _ => false
  end.

Definition as_number (v : value) : option (Z + spec_float) :=
  match v with
  | VBool b => Some (inl (if b then 1 else 0))
  | VInt z => Some (inl z)
  | VFloat f => Some (inr f)
  | _ => None
  end.

Definition number_eq (a b : Z + spec_float) : bool :=
  match a, b with
  | inl x, inl y => x =? y
  | inl x, inr g => float_eq_Z g x
  | inr f, inl y => float_eq_Z f y
  | inr f, inr g => SFeqb f g
  end.

(** [a == b]; dictionaries are [OrderedDict]s, whose comparison is
    sensitive to the order of the items. *)
Fixpoint py_eq (a b : value) {struct a} : bool :=
  match a, b with
  | VNone, VNone => true
  | VStr s, VStr t => String.eqb s t
  | VUuid m, VUuid n => m =? n
  | VList l, VList l' =>
      (fix items (l l' : list value) {struct l} : bool :=
         match l, l' with
         | [], [] => true
         | x :: xs, y :: ys => py_eq x y && items xs ys
         | _, _ => false
         end) l l'
  | VDict d, VDict d' =>
      (fix items (d d' : list (string * value)) {struct d} : bool :=
         match d, d' with
         | [], [] => true
         | (k, x) :: xs, (k', y) :: ys =>
             String.eqb k k' && py_eq x y && items xs ys
         | _, _ => false
         end) d d'
  | _, _ =>
      match as_number a, as_number b with
      | Some x, Some y => number_eq x y
      | _, _ => false
      end
  end.

(** [x in xs] *)
Definition py_in (x : value) (xs : list value) : bool :=
  existsb (fun y => py_eq y x) xs.

(** [xs.index(x)] *)
Fixpoint py_index (x : value) (xs : list value) : result nat :=
  match xs with
  | [] => Raise (ValueError "is not in list")
  | y :: ys => if py_eq y x then Ok O
               else (try i <- py_index x ys; Ok (S i))%result
  end.

(* ================================================================ *)
(** ** Deserializers *)
(* ================================================================ *)

Definition deserialize_string (v : value) : result value :=
  Ok (VStr (py_str v)).

Definition deserialize_boolean (v : value) : result value :=
  Ok (VBool (py_bool v)).

Definition deserialize_yes_no (v : value) : result value :=
  Ok (VBool (py_bool v)).

Definition deserialize_int (v : value) : result value :=
  (try z <- py_int v; Ok (VInt z))%result.

Definition deserialize_float (v : value) : result value :=
  (try f <- py_float v; Ok (VFloat f))%result.

(** [click.UUID(value)]: [None] is passed through, everything else goes
    to [uuid.UUID], whose [ValueError] is turned into a click error; a
    value without [replace] is an [AttributeError]. *)
Definition click_UUID (v : value) : result (option Z) :=
  match v with
  | VNone => Ok None
  | VStr s =>
      match uuid_UUID s with
      | Ok n => Ok (Some n)
      | Raise (ValueError _) => Raise BadParameter
      | Raise e => Raise e
      end
  | _ => Raise AttributeError
  end.

Definition deserialize_uuid (v : value) : result value :=
  (try u <- click_UUID v;
   match u with
   | Some n => Ok (VStr (uuid_hex n))
   | None => Raise AttributeError
   end)%result.

Definition deserialize_json (v : value) : result value := Ok v.

(** The dict [DESERIALIZERS]; [None] is a missing key. *)
Definition DESERIALIZERS (var_type : string)
  : option (value -> result value) :=
  if String.eqb var_type "string" then Some deserialize_string
  else if String.eqb var_type "boolean" then Some deserialize_boolean
  else if String.eqb var_type "int" then Some deserialize_int
  else if String.eqb var_type "float" then Some deserialize_float
  else if String.eqb var_type "uuid" then Some deserialize_uuid
  else if String.eqb var_type "json" then Some deserialize_json
  else if String.eqb var_type "yes_no" then Some deserialize_yes_no
  else None.

End PythonBuiltins.

Definition supported_types : list string :=
  ["string"; "boolean"; "int"; "float"; "uuid"; "json"; "yes_no"].

(* ================================================================== *)
(** ** The context *)
(* ================================================================== *)

(** [collections.OrderedDict]: keys are unique and keep the position of
    their first insertion. *)
Definition context : Type := list (string * value).

Fixpoint ctx_get (k : string) (c : context) : option value :=
  match c with
  | [] => None
  | (k', v) :: c' => if String.eqb k' k then Some v else ctx_get k c'
  end.

(** [c[k] = v] *)
Fixpoint ctx_set (k : string) (v : value) (c : context) : context :=
  match c with
  | [] => [(k, v)]
  | (k', v') :: c' =>
      if String.eqb k' k then (k, v) :: c' else (k', v') :: ctx_set k v c'
  end.

Definition keys (c : context) : list string := map fst c.

(* ================================================================== *)
(** ** The [Variable] class *)
(* ================================================================== *)

Definition DEFAULT_PROMPT (name : string) : string :=
  "Please enter a value for " ++ String (ascii_of_nat 34) name
  ++ String (ascii_of_nat 34) EmptyString.

(** The values of the [re] flags. *)
Definition re_IGNORECASE : Z := 2.
Definition re_LOCALE : Z := 4.
Definition re_MULTILINE : Z := 8.
Definition re_DOTALL : Z := 16.
Definition re_VERBOSE : Z := 64.
Definition re_DEBUG : Z := 128.
Definition re_ASCII : Z := 256.

(** The dict [REGEX_COMPILE_FLAGS], key for key. *)
Definition REGEX_COMPILE_FLAGS (key : string) : option Z :=
  if String.eqb key "ascii" then Some re_ASCII
  else if String.eqb key "debug" then Some re_DEBUG
  else if String.eqb key "ignorecase" then Some re_IGNORECASE
  else if String.eqb key "locale" then Some re_LOCALE
  else if String.eqb key "mulitline" then Some re_MULTILINE
  else if String.eqb key "dotall" then Some re_DOTALL
  else if String.eqb key "verbose" then Some re_VERBOSE
  else None.

(** The keyword arguments [**info] of [Variable.__init__]; [None] is a
    key that was not passed. *)
Record info : Type := {
  info_description : option string;
  info_prompt : option string;
  info_prompt_user : option bool;
  info_hide_input : option bool;
  info_default : option value;
  info_skip_if : option string;
  info_do_if : option string;
  info_choices : option (list value);
  info_if_yes_skip_to : option string;
  info_if_no_skip_to : option string;
  info_validation : option string;
  info_validation_msg : option string;
  info_validation_flags : option (list string)
}.

Definition no_info : info :=
  {| info_description := None; info_prompt := None; info_prompt_user := None;
     info_hide_input := None; info_default := None; info_skip_if := None;
     info_do_if := None; info_choices := None; info_if_yes_skip_to := None;
     info_if_no_skip_to := None; info_validation := None;
     info_validation_msg := None; info_validation_flags := None |}.

(** The input document: [json_object['template']] with its variables, and
    the other top-level keys, which reach [CookiecutterTemplate] as
    [**options]. *)
Record variable_decl : Type := {
  decl_name : string;
  decl_type : string;
  decl_info : info
}.

Record template_doc : Type := {
  doc_name : string;
  doc_variables : list variable_decl;
  doc_authors : option value;
  doc_description : option value;
  doc_keywords : option value;
  doc_license : option value;
  doc_url : option value;
  doc_version : option value
}.

Record json_object : Type := {
  json_template : template_doc;
  json_requires : option (list (string * string));
  json_extensions : option value;
  json_jinja2_env_vars : option value
}.

(* ================================================================== *)
(** ** The external collaborators *)
(* ================================================================== *)

(** What the module imports and calls but does not define: the [re]
    module, the jinja2 environment, the terminal, the running versions,
    [packaging.version] and the schema check [validate] of
    [cookiecutter.schema] ([None]: the document is valid). *)
Class Collaborators : Type := {
  re_compile : string -> Z -> option error;  (* [None]: it compiles *)
  re_match : string -> Z -> string -> bool;
  template_render : string -> context -> result string;
  terminal_width : nat;
  cookiecutter_version : string;
  python_version : string;
  version : Type;
  version_parse : string -> option version;
  version_compare : version -> version -> comparison;
  schema_validate : json_object -> option error
}.

(** A compiled pattern: the pattern text and the flags it was compiled
    with. *)
Definition pattern : Type := (string * Z)%type.

(** The attributes of a [Variable] object. *)
Record variable : Type := {
  name : string;
  var_type : string;
  description : option string;
  prompt : string;
  hide_input : bool;
  default : value;
  skip_if : string;
  do_if : string;
  if_yes_skip_to : option string;
  if_no_skip_to : option string;
  prompt_user : bool;
  choices : list value;
  validation : option string;
  validate : option pattern;
  validation_msg : option string;
  validation_flag_names : list string;
  validation_flags : Z
}.

(** [d.get(key, fallback)] *)
Definition get {A} (o : option A) (fallback : A) : A :=
  match o with
  | Some a => a
  | None => fallback
  end.

(** Truth value of an optional string: [None] and [''] are false. *)
Definition truthy (o : option string) : bool :=
  match o with
  | Some s => negb (String.eqb s EmptyString)
  | None => false
  end.

(** The loop [for vflag in names: flags |= REGEX_COMPILE_FLAGS[vflag]]. *)
Fixpoint fold_flags (names : list string) (flags : Z) : result Z :=
  match names with
  | [] => Ok flags
  | vflag :: rest =>
      match REGEX_COMPILE_FLAGS vflag with
      | Some f => fold_flags rest (Z.lor flags f)
      | None => Raise (KeyError vflag)
      end
  end.

Definition choice_error : error :=
  ValueError "Variable has an invalid default value for choices".
Definition regex_error : error :=
  ValueError "Validation Setup Error: Invalid RegEx - does not compile".
Definition non_string_error : error :=
  ValueError "attempting regex validation on non-string input".

Section VariableModel.

Context {B : Builtins} {C : Collaborators}.

(** [re.compile(pattern, flags)] inside the [try]: [re.error] is turned
    into [ValueError], any other exception passes through. *)
Definition compile_validation (p : string) (flags : Z) : result pattern :=
  match re_compile p flags with
  | None => Ok (p, flags)
  | Some e =>
      match e with
      | ReError => Raise regex_error
      | _ => Raise e
      end
  end.

(** [Variable.__init__(self, name, type, **info)] *)
Definition Variable_init (name type : string) (i : info) : result variable :=
  let description := info_description i in
  let prompt := get (info_prompt i) (DEFAULT_PROMPT name) in
  let hide_input := get (info_hide_input i) false in
  let default := get (info_default i) VNone in
  let skip_if := get (info_skip_if i) EmptyString in
  let do_if := get (info_do_if i) EmptyString in
  let if_yes_skip_to := info_if_yes_skip_to i in
  let if_no_skip_to := info_if_no_skip_to i in
  let prompt_user :=
    if startswith "_" name then false
    else get (info_prompt_user i) true in
  let choices := get (info_choices i) [] in
  if match choices with [] => false | _ => true end
     && match info_default i with Some _ => true | None => false end
     && negb (py_in default choices)
  then Raise choice_error
  else
    let validation := info_validation i in
    let unvalidated :=
      {| name := name; var_type := type; description := description;
         prompt := prompt; hide_input := hide_input; default := default;
         skip_if := skip_if; do_if := do_if;
         if_yes_skip_to := if_yes_skip_to; if_no_skip_to := if_no_skip_to;
         prompt_user := prompt_user; choices := choices;
         validation := validation; validate := None;
         validation_msg := None; validation_flag_names := [];
         validation_flags := 0 |} in
    if truthy validation then
      let p := get validation EmptyString in
      let validation_msg := info_validation_msg i in
      let validation_flag_names := get (info_validation_flags i) [] in
      (try validation_flags <- fold_flags validation_flag_names 0;
       try compiled <- compile_validation p validation_flags;
       if negb (String.eqb type "string") then Raise non_string_error
       else
         Ok {| name := name; var_type := type; description := description;
               prompt := prompt; hide_input := hide_input; default := default;
               skip_if := skip_if; do_if := do_if;
               if_yes_skip_to := if_yes_skip_to;
               if_no_skip_to := if_no_skip_to;
               prompt_user := prompt_user; choices := choices;
               validation := validation; validate := Some compiled;
               validation_msg := validation_msg;
               validation_flag_names := validation_flag_names;
               validation_flags := validation_flags |})%result
    else Ok unvalidated.

End VariableModel.

(* ================================================================== *)
(** ** The terminal: prompts, echoes and the log *)
(* ================================================================== *)

(** One line the operator enters at a prompt: nothing, or text that
    click has converted to a value. *)
Inductive response : Type :=
| Enter
| Typed (v : value).

(** The [type] argument of [click.prompt]; [JSON] is [click.STRING] with
    [value_proc=process_json]. *)
Inductive click_type : Type :=
| STRING | BOOL | INT | FLOAT | UUID | JSON
| Choice (choices : list string).

(** What the module does to the outside, in order. *)
Inductive event : Type :=
| Prompted (text : string) (default : value) (hide_input : bool) (type : click_type)
| Echoed (text : string)
| Rendered (text : string)
| Warned (text : string).

Record world : Type := {
  inputs : list response;
  trace : list event
}.

(** Code that talks to the terminal: it reads and extends the world, or
    raises. *)
Definition M (A : Type) : Type := world -> result (A * world).

Definition ret {A} (a : A) : M A := fun w => Ok (a, w).

Definition bind {A B} (m : M A) (k : A -> M B) : M B :=
  fun w => match m w with
           | Ok (a, w') => k a w'
           | Raise e => Raise e
           end.

Definition raise {A} (e : error) : M A := fun _ => Raise e.

Definition lift {A} (r : result A) : M A :=
  fun w => match r with
           | Ok a => Ok (a, w)
           | Raise e => Raise e
           end.

Definition emit (e : event) : M unit :=
  fun w => Ok (tt, {| inputs := inputs w; trace := trace w ++ [e] |}).

Declare Scope io_scope.
Delimit Scope io_scope with io.
Notation "'do' x <- m ; k" := (bind m (fun x => k))
  (at level 10, x name, m at level 100, k at level 200) : io_scope.
Notation "m ;; k" := (bind m (fun _ => k))
  (at level 100, k at level 200, right associativity) : io_scope.

(** Whether click's converter for [t] yields [v]. *)
Definition converts (t : click_type) (v : value) : bool :=
  match t, v with
  | STRING, VStr _ => true
  | BOOL, VBool _ => true
  | INT, VInt _ => true
  | FLOAT, VFloat _ => true
  | UUID, VUuid _ => true
  | JSON, _ => true
  | Choice cs, VStr k => existsb (String.eqb k) cs
  | _, _ => false
  end.

(** The read loop of [click.prompt]: an empty line returns the default as
    it was passed, unless there is none; a line that does not convert is
    asked again; the end of the input aborts. *)
Fixpoint read_answer (t : click_type) (default : value) (ins : list response)
  : result (value * list response) :=
  match ins with
  | [] => Raise Abort
  | Enter :: rest =>
      match default with
      | VNone => read_answer t default rest
      | _ => Ok (default, rest)
      end
  | Typed v :: rest =>
      if converts t v then Ok (v, rest) else read_answer t default rest
  end.

(** [click.prompt(text, default=..., hide_input=..., type=...)] *)
Definition click_prompt (text : string) (default : value) (hide : bool)
           (t : click_type) : M value :=
  fun w =>
    match read_answer t default (inputs w) with
    | Ok (v, rest) =>
        Ok (v, {| inputs := rest;
                  trace := trace w ++ [Prompted text default hide t] |})
    | Raise e => Raise e
    end.

(** [click.echo(text)] *)
Definition click_echo (text : string) : M unit := emit (Echoed text).

(** [logger.warning(text)] *)
Definition logger_warning (text : string) : M unit := emit (Warned text).

(** [sep.join(items)] *)
Fixpoint join (sep : string) (items : list string) : string :=
  match items with
  | [] => EmptyString
  | [x] => x
  | x :: rest => x ++ sep ++ join sep rest
  end.

(** ['-' * n] *)
Fixpoint dashes (n : nat) : string :=
  match n with
  | O => EmptyString
  | S n' => String "-"%char (dashes n')
  end.

Definition decimal (n : nat) : string :=
  NilZero.string_of_int (Z.to_int (Z.of_nat n)).

(** [enumerate(xs, start)] with the index formatted by ['{}'.format]. *)
Fixpoint enumerate_from (start : nat) (xs : list value) : list (string * value) :=
  match xs with
  | [] => []
  | x :: rest => (decimal start, x) :: enumerate_from (S start) rest
  end.

Section Prompts.

Context {B : Builtins} {C : Collaborators}.

Definition prompt_string (variable : variable) (default : value) : M value :=
  click_prompt (prompt variable) default (hide_input variable) STRING.

Definition prompt_boolean (variable : variable) (default : value) : M value :=
  click_prompt (prompt variable) default (hide_input variable) BOOL.

Definition prompt_int (variable : variable) (default : value) : M value :=
  click_prompt (prompt variable) default (hide_input variable) INT.

Definition prompt_float (variable : variable) (default : value) : M value :=
  click_prompt (prompt variable) default (hide_input variable) FLOAT.

Definition prompt_uuid (variable : variable) (default : value) : M value :=
  click_prompt (prompt variable) default (hide_input variable) UUID.

Definition prompt_json (variable : variable) (default : value) : M value :=
  let default_json := "default" in
  (do dict_value <-
      click_prompt (prompt variable) (VStr default_json)
                   (hide_input variable) JSON;
   if py_eq dict_value (VStr default_json) then ret default
   else ret dict_value)%io.

Definition prompt_yes_no (variable : variable) (default : value) : M value :=
  let default_display :=
    match default with
    | VBool true => "y"
    | _ => "n"
    end in
  (do value <-
      click_prompt (prompt variable) (VStr default_display)
                   (hide_input variable) BOOL;
   if py_eq value (VStr default_display) then ret default
   else ret value)%io.

Definition prompt_choice (variable : variable) (default : value) : M value :=
  let choice_map := enumerate_from 1 (choices variable) in
  let choices_keys := map fst choice_map in
  let prompt_text :=
    join (String (ascii_of_nat 10) EmptyString)
         [ prompt variable;
           join (String (ascii_of_nat 10) EmptyString)
                (map (fun c => fst c ++ " - " ++ py_str (snd c)) choice_map);
           "Choose from " ++ join ", " choices_keys ] in
  (do i <- lift (py_index default (choices variable));
   let default := VStr (decimal (i + 1)) in
   do user_choice <-
      click_prompt prompt_text default (hide_input variable)
                   (Choice choices_keys);
   match ctx_get (py_str user_choice) choice_map with
   | Some v => ret v
   | None => raise (KeyError (py_str user_choice))
   end)%io.

(** The dict [PROMPTS]. *)
Definition PROMPTS (var_type : string)
  : option (variable -> value -> M value) :=
  if String.eqb var_type "string" then Some prompt_string
  else if String.eqb var_type "boolean" then Some prompt_boolean
  else if String.eqb var_type "int" then Some prompt_int
  else if String.eqb var_type "float" then Some prompt_float
  else if String.eqb var_type "uuid" then Some prompt_uuid
  else if String.eqb var_type "json" then Some prompt_json
  else if String.eqb var_type "yes_no" then Some prompt_yes_no
  else None.

(** [variable.validate.match(value)]: only text can be matched. *)
Definition validate_match (p : pattern) (v : value) : result bool :=
  match v with
  | VStr s => Ok (re_match (fst p) (snd p) s)
  | _ => Raise TypeError
  end.

(** The [while True] loop of [prompt_variable].  Every round reads at
    least one line, so [fuel] rounds are enough when [fuel] exceeds the
    number of lines left. *)
Fixpoint prompt_loop (fuel : nat) (ask : variable -> value -> M value)
         (variable : variable) : M value :=
  match fuel with
  | O => raise Abort
  | S fuel' =>
      (do value <- ask variable (default variable);
       match validate variable with
       | Some p =>
           do matched <- lift (validate_match p value);
           if matched then ret value
           else
             click_echo ("Input validation failure against regex: '"
                         ++ get (validation variable) EmptyString ++ "', try again!") ;;
             (if truthy (validation_msg variable)
              then click_echo (get (validation_msg variable) EmptyString)
              else ret tt) ;;
             prompt_loop fuel' ask variable
       | None => ret value
       end)%io
  end.

(** [prompt_variable(variable, verbose)] *)
Definition prompt_variable (variable : variable) (verbose : bool) : M value :=
  (do ask <-
      match choices variable with
      | _ :: _ => ret prompt_choice
      | [] =>
          match PROMPTS (var_type variable) with
          | Some p => ret p
          | None => raise (KeyError (var_type variable))
          end
      end;
   (if verbose && truthy (description variable)
    then click_echo (get (description variable) EmptyString)
    else ret tt) ;;
   fun w => prompt_loop (S (List.length (inputs w))) ask variable w)%io.

End Prompts.

(* ================================================================== *)
(** ** [CookiecutterTemplate] and [load_context] *)
(* ================================================================== *)

(** The attributes of a [CookiecutterTemplate] object. *)
Record CookiecutterTemplate : Type := {
  template_name : string;
  requirements : option (list (string * string));
  extensions : option value;
  variables : list variable;
  authors : value;
  template_description : value;
  keywords : value;
  license : value;
  url : value;
  template_version : value
}.

(** [d.get(key)] on a dict of strings. *)
Fixpoint assoc (k : string) (d : list (string * string)) : option string :=
  match d with
  | [] => None
  | (k', v) :: d' => if String.eqb k' k then Some v else assoc k d'
  end.

(** Which [continue], if any, ended the round of a variable. *)
Inductive outcome : Type :=
| skipped_to_target
| skipped_by_skip_if
| skipped_by_do_if
| processed.

(** The two locals the loop of [load_context] carries from one variable
    to the next. *)
Record loop_state : Type := {
  ctx : context;
  skip_to_variable_name : option string
}.

Section Resolution.

Context {B : Builtins} {C : Collaborators}.

(** [assert validate_requirement(req, running)] when [req] is given and
    not empty. *)
Definition assert_requirement (req : option string) (running : string)
  : result unit :=
  if truthy req then
    (try holds <- validate_requirement version_parse version_compare
                                       (get req EmptyString) running;
     if holds then Ok tt else Raise AssertionError)%result
  else Ok tt.

(** The list comprehension that constructs a [Variable] from every
    entry of [template['variables']], in order. *)
Fixpoint construct_variables (decls : list variable_decl)
  : result (list variable) :=
  match decls with
  | [] => Ok []
  | v :: rest =>
      (try x <- Variable_init (decl_name v) (decl_type v) (decl_info v);
       try xs <- construct_variables rest;
       Ok (x :: xs))%result
  end.

(** [CookiecutterTemplate.__init__(self, template, **options)] *)
Definition CookiecutterTemplate_init (j : json_object)
  : result CookiecutterTemplate :=
  let template := json_template j in
  let requirements := json_requires j in
  (try _ <-
     match requirements with
     | Some ((_ :: _) as reqs) =>
         try _ <- assert_requirement (assoc "cookiecutter" reqs)
                                     cookiecutter_version;
         assert_requirement (assoc "python" reqs) python_version
     | _ => Ok tt
     end;
   try vars <- construct_variables (doc_variables template);
   Ok {| template_name := doc_name template;
         requirements := requirements;
         extensions := json_extensions j;
         variables := vars;
         authors := get (doc_authors template) (VList []);
         template_description := get (doc_description template) VNone;
         keywords := get (doc_keywords template) (VList []);
         license := get (doc_license template) VNone;
         url := get (doc_url template) VNone;
         template_version := get (doc_version template) VNone |})%result.

(** The local function [jinja_render] of [load_context], rendering
    against the context as it is at the time of the call. *)
Definition jinja_render (context : context) (text : string) : M string :=
  (emit (Rendered text) ;; lift (template_render text context))%io.

(** [variable.default = jinja_render(variable.default)] *)
Definition set_default (v : variable) (d : value) : variable :=
  {| name := name v; var_type := var_type v; description := description v;
     prompt := prompt v; hide_input := hide_input v; default := d;
     skip_if := skip_if v; do_if := do_if v;
     if_yes_skip_to := if_yes_skip_to v; if_no_skip_to := if_no_skip_to v;
     prompt_user := prompt_user v; choices := choices v;
     validation := validation v; validate := validate v;
     validation_msg := validation_msg v;
     validation_flag_names := validation_flag_names v;
     validation_flags := validation_flags v |}.

(** [if isinstance(variable.default, str):
       variable.default = jinja_render(variable.default)] *)
Definition render_default (context : context) (v : variable)
  : M variable :=
  match default v with
  | VStr text =>
      (do rendered <- jinja_render context text;
       ret (set_default v (VStr rendered)))%io
  | _ => ret v
  end.

(** The value before deserialization: the default, or what the
    operator answers. *)
Definition raw_value (no_input verbose : bool) (variable : variable)
  : M value :=
  if no_input || negb (prompt_user variable)
  then ret (default variable)
  else prompt_variable variable verbose.

(** [DESERIALIZERS[variable.var_type]] *)
Definition lookup_deserializer (var_type : string)
  : M (value -> result value) :=
  match DESERIALIZERS var_type with
  | Some f => ret f
  | None => raise (KeyError var_type)
  end.

(** The two [if]s that end the loop body: the name to skip to after
    this variable, if any. *)
Definition next_target (variable : variable) (context : context)
  : option string :=
  let target := None in
  let target :=
    if truthy (if_yes_skip_to variable)
       && match ctx_get (name variable) context with
          | Some (VBool true) => true
          | _ => false
          end
    then if_yes_skip_to variable else target in
  let target :=
    if truthy (if_no_skip_to variable)
       && match ctx_get (name variable) context with
          | Some (VBool false) => true
          | _ => false
          end
    then if_no_skip_to variable else target in
  target.

(** The part of the loop body after the three [continue]s: render the
    default, get the value, deserialize and store it, update the
    target. *)
Definition process (no_input verbose : bool) (variable : variable)
           (context : context) : M loop_state :=
  (do variable <- render_default context variable;
   do value <- raw_value no_input verbose variable;
   do deserialize <- lookup_deserializer (var_type variable);
   do stored <- lift (deserialize value);
   let context := ctx_set (name variable) stored context in
   do _ <- (if verbose then click_echo (dashes terminal_width) else ret tt);
   ret {| ctx := context;
          skip_to_variable_name := next_target variable context |})%io.

(** [variable.skip_if and jinja_render(variable.skip_if) == 'True'] *)
Definition skip_if_holds (context : context) (variable : variable) : M bool :=
  if negb (String.eqb (skip_if variable) EmptyString)
  then (do r <- jinja_render context (skip_if variable);
        ret (String.eqb r "True"))%io
  else ret false.

(** [variable.do_if and jinja_render(variable.do_if) == 'False'] *)
Definition do_if_fails (context : context) (variable : variable) : M bool :=
  if negb (String.eqb (do_if variable) EmptyString)
  then (do r <- jinja_render context (do_if variable);
        ret (String.eqb r "False"))%io
  else ret false.

(** The test of the first [continue]: a target is pending and this is
    not it. *)
Definition awaits_other (variable : variable) (st : loop_state) : bool :=
  truthy (skip_to_variable_name st)
  && negb (String.eqb (name variable) (get (skip_to_variable_name st) EmptyString)).

(** [skip_to_variable_name = None] *)
Definition cleared (context : context) : loop_state :=
  {| ctx := context; skip_to_variable_name := None |}.

(** One round of the [for] loop. *)
Definition step (no_input verbose : bool) (variable : variable)
           (st : loop_state) : M (outcome * loop_state) :=
  if awaits_other variable st
  then ret (skipped_to_target, st)
  else
    let context := ctx st in
    (do skip <- skip_if_holds context variable;
     if skip then ret (skipped_by_skip_if, cleared context)
     else
       do skip <- do_if_fails context variable;
       if skip then ret (skipped_by_do_if, cleared context)
       else
         do st' <- process no_input verbose variable context;
         ret (processed, st'))%io.

(** The whole [for] loop. *)
Fixpoint walk (no_input verbose : bool) (vars : list variable)
         (st : loop_state) : M loop_state :=
  match vars with
  | [] => ret st
  | variable :: rest =>
      (do r <- step no_input verbose variable st;
       walk no_input verbose rest (snd r))%io
  end.

Definition never_found (target : string) : string :=
  "Processed all variables, but skip_to_variable_name '" ++ target
  ++ "' was never found.".

(** [d.get(key)] on the document: a missing key reads as [None]. *)
Definition get_value (o : option value) : value := get o VNone.

(** What follows the loop: the warning and the two copied keys. *)
Definition finish (j : json_object) (st : loop_state) : M context :=
  (do _ <- (if truthy (skip_to_variable_name st)
            then logger_warning
                   (never_found (get (skip_to_variable_name st) EmptyString))
            else ret tt);
   let context := ctx st in
   let context := ctx_set "_extensions" (get_value (json_extensions j)) context in
   let context :=
     ctx_set "_jinja2_env_vars" (get_value (json_jinja2_env_vars j)) context in
   ret context)%io.

Definition initial : loop_state :=
  {| ctx := []; skip_to_variable_name := None |}.

(** [load_context(json_object, no_input, verbose)] *)
Definition load_context (j : json_object) (no_input verbose : bool)
  : M context :=
  (do _ <- match schema_validate j with
           | None => ret tt
           | Some e => raise e
           end;
   do template <- lift (CookiecutterTemplate_init j);
   do st <- walk no_input verbose (variables template) initial;
   finish j st)%io.

End Resolution.

(* ================================================================== *)
(** ** The requirement clause as the specification words it *)
(* ================================================================== *)

(** A leading comparator token is read, a two-character one before a
    one-character one; without a token the clause means equality. *)
Definition clause_of_spec (clause : string) : operator * string :=
  if startswith "==" clause then (eq_op, str_drop 2 clause)
  else if startswith "<=" clause then (le_op, str_drop 2 clause)
  else if startswith ">=" clause then (ge_op, str_drop 2 clause)
  else if startswith "<" clause then (lt_op, str_drop 1 clause)
  else if startswith ">" clause then (gt_op, str_drop 1 clause)
  else (eq_op, clause).

(** [a and b] on results that may raise: [b] is not looked at when [a] is
    false or raises. *)
Definition and_then (a b : result bool) : result bool :=
  match a with
  | Ok true => b
  | _ => a
  end.

(* ================================================================== *)
(** ** Stand-ins for the collaborators, to run the model on examples *)
(* ================================================================== *)

Module Standin.

(** A strict reader of lower-case hexadecimal digits. *)
Definition read_hex (s : string) : option Z :=
  match s with
  | EmptyString => None
  | _ => if is_hex_lower s then Some (hex_value s) else None
  end.

(** A reader of unsigned decimal numbers. *)
Definition read_decimal (s : string) : option Z :=
  option_map Z.of_N (Release.number s).

Definition builtins : Builtins :=
  {| float_repr := fun _ => "float";
     container_repr := fun _ => "container";
     int_of_str := read_decimal;
     float_of_str := fun _ => None;
     int_base16 := read_hex |}.

Definition lookup_open : string := "{{ cookiecutter.".

(** Drop the last [n] characters. *)
Definition drop_last (n : nat) (s : string) : string :=
  str_take (String.length s - n) s.

(** A renderer for plain text and for a single lookup
    [{{ cookiecutter.key }}]. *)
Definition render (text : string) (c : context) : result string :=
  if startswith lookup_open text
  then match ctx_get (drop_last 3 (str_drop 16 text)) c with
       | Some v => Ok (@py_str builtins v)
       | None => Ok EmptyString
       end
  else Ok text.

(** A matcher that accepts exactly the pattern text. *)
Definition collaborators : Collaborators :=
  {| re_compile := fun _ _ => None;
     re_match := fun p _ s => String.eqb p s;
     template_render := render;
     terminal_width := 4%nat;
     cookiecutter_version := "2.0.0";
     python_version := "3.8.10";
     version := list N;
     version_parse := Release.parse;
     version_compare := Release.compare;
     schema_validate := fun _ => None |}.

Definition declare (n t : string) (i : info) : variable_decl :=
  {| decl_name := n; decl_type := t; decl_info := i |}.

Definition document (vs : list variable_decl) : json_object :=
  {| json_template :=
       {| doc_name := "demo"; doc_variables := vs; doc_authors := None;
          doc_description := None; doc_keywords := None;
          doc_license := None; doc_url := None; doc_version := None |};
     json_requires := Some [("cookiecutter", ">=1.0,<3")];
     json_extensions := Some (VList [VStr "jinja2_time.TimeExtension"]);
     json_jinja2_env_vars := None |}.

Definition quiet (ins : list response) : world :=
  {| inputs := ins; trace := [] |}.

(** The keyword arguments of a declaration with a default only. *)
Definition defaulting (d : value) : info :=
  {| info_description := None; info_prompt := None;
     info_prompt_user := None; info_hide_input := None;
     info_default := Some d; info_skip_if := None; info_do_if := None;
     info_choices := None; info_if_yes_skip_to := None;
     info_if_no_skip_to := None; info_validation := None;
     info_validation_msg := None; info_validation_flags := None |}.

(** A declaration with a default and a target for the answer yes. *)
Definition jumping (d : value) (target : string) : info :=
  {| info_description := None; info_prompt := None;
     info_prompt_user := None; info_hide_input := None;
     info_default := Some d; info_skip_if := None; info_do_if := None;
     info_choices := None; info_if_yes_skip_to := Some target;
     info_if_no_skip_to := None; info_validation := None;
     info_validation_msg := None; info_validation_flags := None |}.

(** A constructed variable, field by field. *)
Definition variable_of (nm ty : string) (d : value)
           (skip_text do_text : string) (yes : option string) : variable :=
  {| name := nm; var_type := ty; description := None;
     prompt := DEFAULT_PROMPT nm; hide_input := false; default := d;
     skip_if := skip_text; do_if := do_text; if_yes_skip_to := yes;
     if_no_skip_to := None; prompt_user := true; choices := [];
     validation := None; validate := None; validation_msg := None;
     validation_flag_names := []; validation_flags := 0 |}.

End Standin.

(* ================================================================== *)
(** ** Notions used in the statements *)
(* ================================================================== *)

(** The condition under which [__init__] raises for the choices. *)
Definition choice_mismatch (i : info) : bool :=
  match get (info_choices i) [] with [] => false | _ => true end
  && match info_default i with Some _ => true | None => false end
  && negb (py_in (get (info_default i) VNone) (get (info_choices i) [])).


Definition with_validation (p : string) (flags : list string) : info :=
  {| info_description := None; info_prompt := None; info_prompt_user := None;
     info_hide_input := None; info_default := None; info_skip_if := None;
     info_do_if := None; info_choices := None; info_if_yes_skip_to := None;
     info_if_no_skip_to := None; info_validation := Some p;
     info_validation_msg := None; info_validation_flags := Some flags |}.

(** The flag names the table accepts, as the code spells them. *)
Definition accepted_flag_names : list string :=
  ["ascii"; "debug"; "ignorecase"; "locale"; "mulitline"; "dotall"; "verbose"].

(** The default as [load_context] reads it: text is rendered against the
    context built so far, anything else is taken as it is. *)
Definition rendered_default {C : Collaborators} (v : variable) (c : context)
  : result value :=
  match default v with
  | VStr text => (try r <- template_render text c; Ok (VStr r))%result
  | d => Ok d
  end.

(** The world after one more event. *)
Definition logged (w : world) (evs : list event) : world :=
  {| inputs := inputs w; trace := (trace w ++ evs)%list |}.

(** The conditions under which the two conditional expressions omit a
    variable: the rendered text is exactly [True], respectively [False]. *)
Definition skip_if_fires {C : Collaborators} (v : variable) (c : context) : Prop :=
  skip_if v <> EmptyString /\ template_render (skip_if v) c = Ok "True".

Definition do_if_fires {C : Collaborators} (v : variable) (c : context) : Prop :=
  do_if v <> EmptyString /\ template_render (do_if v) c = Ok "False".

Definition is_prompt (e : event) : bool :=
  match e with
  | Prompted _ _ _ _ => true
  | _ => false
  end.

(** A computation that never asks: the input stays where it is and no
    prompt is logged. *)
Definition asks_nothing {A} (m : M A) : Prop :=
  forall w a w',
    m w = Ok (a, w') ->
    exists evs, w' = logged w evs /\ existsb is_prompt evs = false.



(** A declaration without [skip_if], [do_if] and skip-to targets (absent
    or empty). *)
Definition unconditional_decl (d : variable_decl) : Prop :=
  truthy (info_skip_if (decl_info d)) = false
  /\ truthy (info_do_if (decl_info d)) = false
  /\ truthy (info_if_yes_skip_to (decl_info d)) = false
  /\ truthy (info_if_no_skip_to (decl_info d)) = false.

Definition unconditional (v : variable) : Prop :=
  skip_if v = EmptyString /\ do_if v = EmptyString
  /\ truthy (if_yes_skip_to v) = false /\ truthy (if_no_skip_to v) = false.

Definition declared_names (j : json_object) : list string :=
  map decl_name (doc_variables (json_template j)).

Definition mem (k : string) (ks : list string) : bool :=
  existsb (String.eqb k) ks.

(** The copied keys that are not names of declared variables. *)
Definition appended_keys (names : list string) : list string :=
  filter (fun k => negb (mem k names)) ["_extensions"; "_jinja2_env_vars"].

(** A prompt strategy that reads at least one line whenever it
    returns. *)
Definition consuming (ask : variable -> value -> M value) : Prop :=
  forall v d w x w',
    ask v d w = Ok (x, w') ->
    (List.length (inputs w') < List.length (inputs w))%nat.

(** A pending name is never the empty text. *)
Definition well_pending (st : loop_state) : Prop :=
  forall t, skip_to_variable_name st = Some t -> t <> EmptyString.

(** Small templates on which the statements are tried. *)
Module Demo.

Import Standin.

Definition use_docker : variable :=
  variable_of "use_docker" "yes_no" (VBool true) EmptyString EmptyString (Some "license").
Definition database : variable :=
  variable_of "database" "string" (VStr "postgres") EmptyString EmptyString None.
Definition license_ : variable :=
  variable_of "license" "string" (VStr "MIT") EmptyString EmptyString None.
Definition guarded : variable :=
  variable_of "image" "string" (VStr "alpine")
              "{{ cookiecutter.use_docker }}" EmptyString None.

Definition use_docker_nowhere : variable :=
  variable_of "use_docker" "yes_no" (VBool true) EmptyString EmptyString (Some "nowhere").


Definition two_plain : json_object :=
  document [declare "project" "string" (defaulting (VStr "demo"));
            declare "count" "int" (defaulting (VStr "42"))].

Definition dangling : json_object :=
  document [declare "use_docker" "yes_no" (jumping (VBool true) "nowhere");
            declare "database" "string" (defaulting (VStr "postgres"))].

End Demo.

(* ================================================================== *)
(** ** Further notions used in the statements *)
(* ================================================================== *)

(** Text made only of characters that [str.strip] removes. *)
Definition all_space (s : string) : bool :=
  forallb is_space (list_ascii_of_string s).

(** The prompt of a plain text variable, as it is logged. *)
Definition asked (v : variable) : event :=
  Prompted (prompt v) (default v) (hide_input v) STRING.

(** What [prompt_variable] logs for one answer that fails validation. *)
Definition rejection (v : variable) : list event :=
  (asked v
   :: Echoed ("Input validation failure against regex: '"
              ++ get (validation v) EmptyString ++ "', try again!")
   :: (if truthy (validation_msg v)
       then [Echoed (get (validation_msg v) EmptyString)]
       else []))%list.

(** The answers of an operator who types the given texts. *)
Definition typed (answers : list string) : list response :=
  map (fun s => Typed (VStr s)) answers.


(** Whether a value neither is nor contains a float NaN. *)
Fixpoint nan_free (v : value) : bool :=
  match v with
  | VFloat S754_nan => false
  | VList l => forallb nan_free l
  | VDict d => forallb (fun kv => nan_free (snd kv)) d
  | _ => true
  end.

(** A value that is not a list or a dictionary. *)
Definition scalar (v : value) : bool :=
  match v with
  | VList _ | VDict _ => false
  | _ => true
  end.

(** [l] is [l'] with some elements left out. *)
Inductive subseq {A : Type} : list A -> list A -> Prop :=
| subseq_nil : subseq [] []
| subseq_skip : forall x l l', subseq l l' -> subseq l (x :: l')
| subseq_keep : forall x l l', subseq l l' -> subseq (x :: l) (x :: l').

(** The name pending after a variable has been stored, read off the
    stored value. *)
Definition target_after (v : variable) (c : context) : option string :=
  match ctx_get (name v) c with
  | Some (VBool true) =>
      if truthy (if_yes_skip_to v) then if_yes_skip_to v else None
  | Some (VBool false) =>
      if truthy (if_no_skip_to v) then if_no_skip_to v else None
  | _ => None
  end.

(** Variables and documents on which the further statements are tried. *)
Module Trial.

Import Standin.


(** A text variable whose answers must be the text [abc] (the stand-in
    matcher accepts exactly the pattern text). *)
Definition slug : variable :=
  {| name := "slug"; var_type := "string"; description := Some "The slug";
     prompt := DEFAULT_PROMPT "slug"; hide_input := false;
     default := VStr "abc"; skip_if := EmptyString; do_if := EmptyString;
     if_yes_skip_to := None; if_no_skip_to := None; prompt_user := true;
     choices := [];
     validation := Some "abc"; validate := Some ("abc", 0);
     validation_msg := Some "lower case only";
     validation_flag_names := []; validation_flags := 0 |}.

(** Keyword arguments that ask for a prompt explicitly. *)
Definition insisting : info :=
  {| info_description := None; info_prompt := None;
     info_prompt_user := Some true; info_hide_input := None;
     info_default := Some (VStr "2020"); info_skip_if := None;
     info_do_if := None; info_choices := None; info_if_yes_skip_to := None;
     info_if_no_skip_to := None; info_validation := None;
     info_validation_msg := None; info_validation_flags := None |}.

(** A yes/no variable that jumps to [license] on the answer no. *)
Definition no_docker : variable :=
  {| name := "use_docker"; var_type := "yes_no"; description := None;
     prompt := DEFAULT_PROMPT "use_docker"; hide_input := false;
     default := VBool false; skip_if := EmptyString; do_if := EmptyString;
     if_yes_skip_to := None; if_no_skip_to := Some "license";
     prompt_user := true; choices := [];
     validation := None; validate := None; validation_msg := None;
     validation_flag_names := []; validation_flags := 0 |}.

(** The loop on its way to [image], with docker in use. *)
Definition image_pending : loop_state :=
  {| ctx := [("use_docker", VBool true)];
     skip_to_variable_name := Some "image" |}.

(** A document whose first answer jumps over the second variable. *)
Definition jumpy : json_object :=
  document [declare "use_docker" "yes_no" (jumping (VBool true) "license");
            declare "database" "string" (defaulting (VStr "postgres"));
            declare "license" "string" (defaulting (VStr "MIT"))].

(** A document with the given requirements. *)
Definition requiring (reqs : option (list (string * string)))
           (vs : list variable_decl) : json_object :=
  {| json_template :=
       {| doc_name := "trial"; doc_variables := vs; doc_authors := None;
          doc_description := None; doc_keywords := None;
          doc_license := None; doc_url := None; doc_version := None |};
     json_requires := reqs;
     json_extensions := None;
     json_jinja2_env_vars := None |}.

(** Keyword arguments with a validation pattern only. *)
Definition validated (p : string) : info :=
  {| info_description := None; info_prompt := None;
     info_prompt_user := None; info_hide_input := None;
     info_default := None; info_skip_if := None;
     info_do_if := None; info_choices := None; info_if_yes_skip_to := None;
     info_if_no_skip_to := None; info_validation := Some p;
     info_validation_msg := None; info_validation_flags := None |}.

(** A document that gives both copied keys. *)
Definition carrying (vs : list variable_decl) : json_object :=
  {| json_template :=
       {| doc_name := "trial"; doc_variables := vs; doc_authors := None;
          doc_description := None; doc_keywords := None;
          doc_license := None; doc_url := None; doc_version := None |};
     json_requires := None;
     json_extensions := Some (VList [VStr "jinja2_time.TimeExtension"]);
     json_jinja2_env_vars := Some (VDict [("trim_blocks", VBool true)]) |}.

(** A document that declares a variable under the name of a copied
    key. *)
Definition shadowing : json_object :=
  carrying
    [declare "_extensions" "string" (defaulting (VStr "mine"));
     declare "project" "string" (defaulting (VStr "demo"))].

(** A document whose first answer asks for a name that is not
    declared. *)
Definition nowhere_to_go : json_object :=
  carrying
    [declare "use_docker" "yes_no" (jumping (VBool true) "nowhere");
     declare "database" "string" (defaulting (VStr "postgres"))].

(** A variable under an ordinary name that is declared not to be
    prompted for. *)
Definition silent : variable :=
  {| name := "region"; var_type := "string"; description := None;
     prompt := DEFAULT_PROMPT "region"; hide_input := false;
     default := VStr "eu"; skip_if := EmptyString; do_if := EmptyString;
     if_yes_skip_to := None; if_no_skip_to := None;
     prompt_user := false; choices := [];
     validation := None; validate := None; validation_msg := None;
     validation_flag_names := []; validation_flags := 0 |}.

(** The no-break space, U+00A0. *)
Definition nbsp : string := String (ascii_of_nat 160) EmptyString.

End Trial.

(** What a run shows when the echoed lines are left out: the renders,
    the prompts and the warnings. *)
Definition unechoed (t : list event) : list event :=
  filter (fun e => match e with Echoed _ => false | _ => true end) t.

(** Two worlds with the same input left and the same events but for
    the echoed lines. *)
Definition alike (w w' : world) : Prop :=
  inputs w = inputs w' /\ unechoed (trace w) = unechoed (trace w').

(** Two runs that end alike: the same error, or the same result in
    worlds that are alike. *)
Definition agree {A} (r r' : result (A * world)) : Prop :=
  match r, r' with
  | Ok (a, w), Ok (a', w') => a = a' /\ alike w w'
  | Raise e, Raise e' => e = e'
  | _, _ => False
  end.

(** Two computations that end alike from worlds that are alike. *)
Definition coupled {A} (m m' : M A) : Prop :=
  forall w w', alike w w' -> agree (m w) (m' w').

(** Two runs that end the same way: the same error, or the same result
    with the same input left. *)
Definition same_outcome {A} (r r' : result (A * world)) : Prop :=
  match r, r' with
  | Ok (a, w), Ok (a', w') => a = a' /\ inputs w = inputs w'
  | Raise e, Raise e' => e = e'
  | _, _ => False
  end.

(* ================================================================== *)
(** * Properties *)
(* ================================================================== *)

(** ** The requirement checker *)

Section RequirementFacts.

Variable version : Type.
Variable version_parse : string -> option version.
Variable version_compare : version -> version -> comparison.

Lemma split_on_nonempty sep s : split_on sep s <> [].
Proof.
  destruct s as [|c s]; simpl; [discriminate|].
  destruct (Ascii.eqb c sep); [discriminate|].
  destruct (split_on sep s); discriminate.
Qed.

Lemma split_on_app sep a b :
  split_on sep (a ++ String sep b) = (split_on sep a ++ split_on sep b)%list.
Proof.
  induction a as [|c a IH]; simpl.
  - rewrite Ascii.eqb_refl. reflexivity.
  - destruct (Ascii.eqb c sep); [now rewrite IH|].
    rewrite IH. pose proof (split_on_nonempty sep a) as Hne.
    destruct (split_on sep a); [congruence|reflexivity].
Qed.

Lemma all_map_app f xs ys :
  all_map f (xs ++ ys)%list = and_then (all_map f xs) (all_map f ys).
Proof.
  induction xs as [|x xs IH]; simpl; [reflexivity|].
  destruct (f x) as [[|]|e]; simpl; auto.
Qed.

Lemma all_map_true f xs :
  all_map f xs = Ok true <-> Forall (fun x => f x = Ok true) xs.
Proof.
  induction xs as [|x xs IH]; simpl.
  - split; auto.
  - destruct (f x) as [[|]|e] eqn:E; simpl.
    + rewrite IH. split; intros H; [constructor; auto|inversion H; auto].
    + split; [discriminate|]. intros H; inversion H; congruence.
    + split; [discriminate|]. intros H; inversion H; congruence.
Qed.

Lemma parse_single_req_spec s : parse_single_req s = clause_of_spec s.
Proof.
  unfold parse_single_req, clause_of_spec, op_mapping.
  destruct s as [|c1 [|c2 s]]; cbn -[Ascii.eqb]; try reflexivity;
    repeat match goal with
           | |- context [Ascii.eqb ?a ?b] =>
               destruct (Ascii.eqb_spec a b); subst; cbn -[Ascii.eqb];
               try discriminate; try congruence
           end; reflexivity.
Qed.

Lemma validate_requirement_all req pkg :
  validate_requirement version_parse version_compare req pkg = Ok true <->
  Forall (fun clause =>
            validate_single_req version_parse version_compare pkg
                                (strip clause) = Ok true)
         (split_on comma req).
Proof.
  unfold validate_requirement. rewrite all_map_true, Forall_map. reflexivity.
Qed.

Lemma validate_requirement_comma a b pkg :
  validate_requirement version_parse version_compare (a ++ "," ++ b) pkg =
  and_then (validate_requirement version_parse version_compare a pkg)
           (validate_requirement version_parse version_compare b pkg).
Proof.
  unfold validate_requirement.
  change (a ++ "," ++ b) with (a ++ String comma b).
  now rewrite split_on_app, map_app, all_map_app.
Qed.

Lemma validate_single_req_spec pkg clause :
  validate_single_req version_parse version_compare pkg clause =
  (let '(op, ref) := clause_of_spec clause in
   try a <- of_option InvalidVersion (version_parse pkg);
   try b <- of_option InvalidVersion (version_parse ref);
   Ok (apply_operator version_compare op a b))%result.
Proof.
  unfold validate_single_req. now rewrite parse_single_req_spec.
Qed.

End RequirementFacts.

(** C3: a requirement holds exactly when every comma-separated clause
    holds, a comma joins two requirements by a lazy conjunction, every
    clause is read as the specification words it (a two-character
    comparator before a one-character one, equality without a comparator)
    and decided by comparing the parsed versions; the three examples of the
    specification evaluate as stated. *)
Theorem requirement_checker_conjunction :
  (forall (version : Type) (parse : string -> option version)
          (cmp : version -> version -> comparison) (req pkg : string),
      validate_requirement parse cmp req pkg = Ok true <->
      Forall (fun clause =>
                validate_single_req parse cmp pkg (strip clause) = Ok true)
             (split_on comma req))
  /\ (forall (version : Type) (parse : string -> option version)
             (cmp : version -> version -> comparison) (a b pkg : string),
         validate_requirement parse cmp (a ++ "," ++ b) pkg =
         and_then (validate_requirement parse cmp a pkg)
                  (validate_requirement parse cmp b pkg))
  /\ (forall (version : Type) (parse : string -> option version)
             (cmp : version -> version -> comparison) (pkg clause : string),
         validate_single_req parse cmp pkg clause =
         (let '(op, ref) := clause_of_spec clause in
          try a <- of_option InvalidVersion (parse pkg);
          try b <- of_option InvalidVersion (parse ref);
          Ok (apply_operator cmp op a b))%result)
  /\ satisfies ">=1.0,<2.0" "1.5.0" = Ok true
  /\ satisfies ">=1.0,<2.0" "2.0.0" = Ok false
  /\ satisfies "==1.0.0" "1.0.0" = Ok true.
Proof.
  split; [intros; apply validate_requirement_all|].
  split; [intros; apply validate_requirement_comma|].
  split; [intros; apply validate_single_req_spec|].
  repeat split; vm_compute; reflexivity.
Qed.

(** ** The deserializers *)

Section HexText.

Lemma list_ascii_app a b :
  list_ascii_of_string (a ++ b) =
  (list_ascii_of_string a ++ list_ascii_of_string b)%list.
Proof. induction a as [|c a IH]; simpl; [reflexivity|now rewrite IH]. Qed.

Lemma length_app a b :
  String.length (a ++ b) = (String.length a + String.length b)%nat.
Proof. induction a as [|c a IH]; simpl; [reflexivity|now rewrite IH]. Qed.

Lemma hex_digit_char d :
  0 <= d < 16 -> hex_digit_value (hex_char d) = Some d.
Proof.
  intros H.
  assert (d = 0 \/ d = 1 \/ d = 2 \/ d = 3 \/ d = 4 \/ d = 5 \/ d = 6 \/
          d = 7 \/ d = 8 \/ d = 9 \/ d = 10 \/ d = 11 \/ d = 12 \/
          d = 13 \/ d = 14 \/ d = 15) as Hd by lia.
  repeat destruct Hd as [Hd|Hd]; subst; reflexivity.
Qed.

Lemma hex_fixed_length k n : String.length (hex_fixed k n) = k.
Proof.
  revert n; induction k as [|k IH]; intros n; simpl; [reflexivity|].
  rewrite length_app, IH. simpl. lia.
Qed.

Lemma hex_fixed_lower k n : is_hex_lower (hex_fixed k n) = true.
Proof.
  unfold is_hex_lower.
  revert n; induction k as [|k IH]; intros n; simpl; [reflexivity|].
  rewrite list_ascii_app, forallb_app, IH. simpl.
  rewrite hex_digit_char; [reflexivity|]. apply Z.mod_pos_bound. lia.
Qed.

Lemma hex_fixed_value k n :
  hex_value (hex_fixed k n) = n mod 16 ^ Z.of_nat k.
Proof.
  unfold hex_value.
  revert n; induction k as [|k IH]; intros n.
  - simpl. now rewrite Z.mod_1_r.
  - cbn [hex_fixed]. rewrite list_ascii_app, fold_left_app, IH.
    cbn [list_ascii_of_string fold_left].
    rewrite hex_digit_char by (apply Z.mod_pos_bound; lia).
    rewrite Nat2Z.inj_succ, Z.pow_succ_r by lia.
    assert (0 < 16 ^ Z.of_nat k) by (apply Z.pow_pos_nonneg; lia).
    rewrite Z.rem_mul_r by lia. lia.
Qed.

(** A string of hexadecimal digits holds none of the characters that
    [uuid.UUID] removes. *)
Lemma remove_all_absent a old s :
  (forall c, In c (list_ascii_of_string s) -> Ascii.eqb a c = false) ->
  remove_all (String a old) O s = s.
Proof.
  induction s as [|c s IH]; intros H; [reflexivity|].
  cbn -[Ascii.eqb]. rewrite (H c) by (left; reflexivity).
  cbn -[Ascii.eqb]. rewrite IH; [reflexivity|].
  intros c' Hc'. apply H. right. exact Hc'.
Qed.

Lemma hex_lower_char s c :
  is_hex_lower s = true -> In c (list_ascii_of_string s) ->
  hex_digit_value c <> None.
Proof.
  unfold is_hex_lower. rewrite forallb_forall. intros H Hc.
  specialize (H c Hc). destruct (hex_digit_value c); congruence.
Qed.

Lemma hex_lower_not a s :
  hex_digit_value a = None -> is_hex_lower s = true ->
  forall c, In c (list_ascii_of_string s) -> Ascii.eqb a c = false.
Proof.
  intros Ha Hs c Hc. destruct (Ascii.eqb_spec a c) as [->|]; [|reflexivity].
  exfalso. exact (hex_lower_char s c Hs Hc Ha).
Qed.

Lemma lstrip_braces_hex s : is_hex_lower s = true -> lstrip_braces s = s.
Proof.
  destruct s as [|c s]; intros H; [reflexivity|].
  cbn -[Ascii.eqb]. unfold is_brace.
  rewrite (Ascii.eqb_sym c "{"), (Ascii.eqb_sym c "}").
  rewrite (hex_lower_not "{" _ eq_refl H c) by (left; reflexivity).
  rewrite (hex_lower_not "}" _ eq_refl H c) by (left; reflexivity).
  reflexivity.
Qed.

Lemma rstrip_braces_hex s : is_hex_lower s = true -> rstrip_braces s = s.
Proof.
  induction s as [|c s IH]; intros H; [reflexivity|].
  assert (is_hex_lower s = true) as Hs.
  { unfold is_hex_lower in *. simpl in H.
    apply andb_true_iff in H. apply H. }
  cbn -[Ascii.eqb]. rewrite (IH Hs). unfold is_brace.
  rewrite (Ascii.eqb_sym c "{"), (Ascii.eqb_sym c "}").
  rewrite (hex_lower_not "{" _ eq_refl H c) by (left; reflexivity).
  rewrite (hex_lower_not "}" _ eq_refl H c) by (left; reflexivity).
  destruct s; reflexivity.
Qed.

End HexText.

Section DeserializerFacts.

Context {B : Builtins}.
Hypothesis reads_hex : int_base16_reads_hex B.

Lemma uuid_UUID_range s n : uuid_UUID s = Ok n -> 0 <= n < 2 ^ 128.
Proof.
  unfold uuid_UUID.
  destruct (negb (Nat.eqb _ 32)); [discriminate|].
  destruct (int_base16 _) as [i|]; [|discriminate].
  destruct ((0 <=? i) && (i <? 2 ^ 128)) eqn:E; simpl; [|discriminate].
  intros H; inversion H; subst. apply andb_true_iff in E. lia.
Qed.

(** [uuid.UUID(u.hex) == u] *)
Lemma uuid_UUID_hex n : 0 <= n < 2 ^ 128 -> uuid_UUID (uuid_hex n) = Ok n.
Proof.
  intros Hn. unfold uuid_UUID, uuid_hex.
  pose proof (hex_fixed_lower 32 n) as Hl.
  rewrite (remove_all_absent "u" "rn:") by (apply (hex_lower_not "u" _ eq_refl Hl)).
  rewrite (remove_all_absent "u" "uid:") by (apply (hex_lower_not "u" _ eq_refl Hl)).
  rewrite lstrip_braces_hex, rstrip_braces_hex by exact Hl.
  rewrite (remove_all_absent "-" EmptyString) by (apply (hex_lower_not "-" _ eq_refl Hl)).
  rewrite hex_fixed_length. cbn [Nat.eqb negb].
  rewrite reads_hex; [|intros E; apply (f_equal String.length) in E;
                       rewrite hex_fixed_length in E; discriminate|exact Hl].
  rewrite hex_fixed_value.
  change (16 ^ Z.of_nat 32) with (2 ^ 128).
  rewrite Z.mod_small by exact Hn.
  destruct (Z.leb_spec 0 n); [|lia]. destruct (Z.ltb_spec n (2 ^ 128)); [|lia].
  reflexivity.
Qed.

Lemma deserialize_string_idem v w :
  deserialize_string v = Ok w -> deserialize_string w = Ok w.
Proof. unfold deserialize_string. intros H; inversion H; reflexivity. Qed.

Lemma deserialize_boolean_idem v w :
  deserialize_boolean v = Ok w -> deserialize_boolean w = Ok w.
Proof. unfold deserialize_boolean. intros H; inversion H; reflexivity. Qed.

Lemma deserialize_yes_no_idem v w :
  deserialize_yes_no v = Ok w -> deserialize_yes_no w = Ok w.
Proof. unfold deserialize_yes_no. intros H; inversion H; reflexivity. Qed.

Lemma deserialize_int_idem v w :
  deserialize_int v = Ok w -> deserialize_int w = Ok w.
Proof.
  unfold deserialize_int. destruct (py_int v); simpl; [|discriminate].
  intros H; inversion H; reflexivity.
Qed.

Lemma deserialize_float_idem v w :
  deserialize_float v = Ok w -> deserialize_float w = Ok w.
Proof.
  unfold deserialize_float. destruct (py_float v); simpl; [|discriminate].
  intros H; inversion H; reflexivity.
Qed.

Lemma deserialize_uuid_idem v w :
  deserialize_uuid v = Ok w -> deserialize_uuid w = Ok w.
Proof.
  unfold deserialize_uuid.
  destruct (click_UUID v) as [[n|]|e] eqn:E; simpl; try discriminate.
  intros H; inversion H; subst; clear H.
  assert (0 <= n < 2 ^ 128) as Hn.
  { destruct v; simpl in E; try discriminate.
    destruct (uuid_UUID s) as [m|[]] eqn:Es; try discriminate.
    inversion E; subst. exact (uuid_UUID_range _ Es). }
  unfold click_UUID. rewrite (uuid_UUID_hex Hn). reflexivity.
Qed.

Lemma deserialize_json_idem v w :
  deserialize_json v = Ok w -> deserialize_json w = Ok w.
Proof. reflexivity. Qed.

End DeserializerFacts.

Lemma standin_reads_hex : int_base16_reads_hex Standin.builtins.
Proof.
  intros s Hs Hl. simpl. unfold Standin.read_hex. rewrite Hl.
  destruct s; [congruence|reflexivity].
Qed.

(** *** [==] on the results *)

Lemma SFeqb_refl f : f <> S754_nan -> SFeqb f f = true.
Proof.
  intros Hf. unfold SFeqb, SFcompare.
  destruct f as [s|s| |s m e]; try congruence; try (destruct s; reflexivity).
  destruct s; rewrite Z.compare_refl, Pos.compare_cont_refl; reflexivity.
Qed.

(** [v == v] holds of a value without NaN. *)
Lemma py_eq_refl : forall v, nan_free v = true -> py_eq v v = true.
Proof.
  fix IH 1. intros [|b|z|f|s|l|d|u]; simpl; intros H.
  - reflexivity.
  - destruct b; reflexivity.
  - apply Z.eqb_refl.
  - apply SFeqb_refl. intros ->. discriminate.
  - apply String.eqb_refl.
  - induction l as [|x xs IHl]; [reflexivity|].
    simpl in H. apply andb_true_iff in H. destruct H as [Hx Hxs].
    rewrite (IH x Hx). simpl. exact (IHl Hxs).
  - induction d as [|[k x] xs IHd]; [reflexivity|].
    simpl in H. apply andb_true_iff in H. destruct H as [Hx Hxs].
    rewrite String.eqb_refl, (IH x Hx). simpl. exact (IHd Hxs).
  - apply Z.eqb_refl.
Qed.

(** On a value that is no container, [v == v] fails only for NaN. *)
Lemma py_eq_refl_scalar v :
  scalar v = true -> (py_eq v v = true <-> nan_free v = true).
Proof.
  intros Hs. split; [|apply py_eq_refl].
  destruct v as [|b|z|f|s|l|d|u]; try reflexivity; try discriminate.
  destruct f; try reflexivity. discriminate.
Qed.

Lemma deserialized_scalar {B : Builtins} t f v w :
  DESERIALIZERS t = Some f -> t <> "json" -> f v = Ok w -> scalar w = true.
Proof.
  unfold DESERIALIZERS. intros Hf Hj.
  repeat match type of Hf with
         | context [String.eqb t ?s] =>
             destruct (String.eqb_spec t s);
             [inversion Hf; subst f; clear Hf|]
         end; try discriminate; try contradiction.
  - intros H; inversion H; reflexivity.
  - intros H; inversion H; reflexivity.
  - unfold deserialize_int. destruct (py_int v); simpl; [|discriminate].
    intros H; inversion H; reflexivity.
  - unfold deserialize_float. destruct (py_float v); simpl; [|discriminate].
    intros H; inversion H; reflexivity.
  - unfold deserialize_uuid.
    destruct (click_UUID v) as [[uu|]|]; simpl; try discriminate.
    intros H; inversion H; reflexivity.
  - intros H; inversion H; reflexivity.
Qed.

(** C5, as the code has it: for each of the seven type tags the
    deserializer of the table, applied to a result of its own, returns
    that result unchanged, so that [d(d(v)) == d(v)] holds whenever the
    result holds no float NaN; for the six types other than json the
    result is equal to itself exactly when it is not NaN.  String is [str]
    and leaves text as it is, boolean and yes_no are [bool], int and float
    are the numeric coercions, uuid gives the 32 hexadecimal digits of the
    parsed UUID, json is the identity. *)
Theorem deserializers_idempotent :
  forall (B : Builtins), int_base16_reads_hex B ->
  forall t, In t supported_types ->
  exists f, DESERIALIZERS t = Some f
    /\ (forall v w, f v = Ok w -> f w = Ok w)
    /\ (forall v w, f v = Ok w -> nan_free w = true ->
          exists w2, f w = Ok w2 /\ py_eq w2 w = true)
    /\ (t <> "json" -> forall v w w2, f v = Ok w -> f w = Ok w2 ->
          (py_eq w2 w = true <-> nan_free w = true))
    /\ (t = "string" -> forall v, f v = Ok (VStr (py_str v)) /\ f (VStr (py_str v)) = f v)
    /\ (t = "boolean" \/ t = "yes_no" -> forall v, f v = Ok (VBool (py_bool v)))
    /\ (t = "int" -> forall v z, py_int v = Ok z -> f v = Ok (VInt z))
    /\ (t = "float" -> forall v x, py_float v = Ok x -> f v = Ok (VFloat x))
    /\ (t = "uuid" -> forall s n, uuid_UUID s = Ok n -> f (VStr s) = Ok (VStr (uuid_hex n)))
    /\ (t = "json" -> forall v, f v = Ok v).
Proof.
  intros B HB t Ht.
  assert (exists f, DESERIALIZERS t = Some f
    /\ (forall v w, f v = Ok w -> f w = Ok w)
    /\ (t = "string" -> forall v, f v = Ok (VStr (py_str v)) /\ f (VStr (py_str v)) = f v)
    /\ (t = "boolean" \/ t = "yes_no" -> forall v, f v = Ok (VBool (py_bool v)))
    /\ (t = "int" -> forall v z, py_int v = Ok z -> f v = Ok (VInt z))
    /\ (t = "float" -> forall v x, py_float v = Ok x -> f v = Ok (VFloat x))
    /\ (t = "uuid" -> forall s n, uuid_UUID s = Ok n -> f (VStr s) = Ok (VStr (uuid_hex n)))
    /\ (t = "json" -> forall v, f v = Ok v)) as (f & Hf & Hidem & Hrest).
  { simpl in Ht.
    destruct Ht as [<-|[<-|[<-|[<-|[<-|[<-|[<-|[]]]]]]]];
      eexists; (split; [reflexivity|]);
      (split; [first [ apply deserialize_string_idem
                     | apply deserialize_boolean_idem
                     | apply deserialize_int_idem
                     | apply deserialize_float_idem
                     | apply (deserialize_uuid_idem HB)
                     | apply deserialize_json_idem
                     | apply deserialize_yes_no_idem ]|]);
      repeat split; try discriminate; try (intros [?|?]; discriminate);
      intros; try reflexivity.
    - unfold deserialize_int. now rewrite H0.
    - unfold deserialize_float. now rewrite H0.
    - unfold deserialize_uuid, click_UUID. now rewrite H0. }
  exists f. split; [exact Hf|]. split; [exact Hidem|].
  split; [|split; [|exact Hrest]].
  - intros v w Hv Hn. exists w. split; [exact (Hidem v w Hv)|].
    apply py_eq_refl. exact Hn.
  - intros Hj v w w2 Hv Hw. rewrite (Hidem v w Hv) in Hw.
    inversion Hw; subst w2.
    apply py_eq_refl_scalar. exact (deserialized_scalar v Hf Hj Hv).
Qed.

(** C5 as the specification words it fails: [float] returns a NaN as it
    is, and a NaN is not [==] to itself. *)
Lemma idempotence_under_eq_fails_at_nan :
  exists f v w w2,
    @DESERIALIZERS Standin.builtins "float" = Some f
    /\ f v = Ok w /\ f w = Ok w2 /\ py_eq w2 w = false.
Proof.
  exists (@deserialize_float Standin.builtins),
         (VFloat S754_nan), (VFloat S754_nan), (VFloat S754_nan).
  repeat split.
Qed.

Lemma deserializers_idempotent_witness :
  exists f, @DESERIALIZERS Standin.builtins "uuid" = Some f
    /\ f (VStr "{12345678-1234-5678-1234-567812abcdef}")
       = Ok (VStr "12345678123456781234567812abcdef")
    /\ f (VStr "12345678123456781234567812abcdef")
       = Ok (VStr "12345678123456781234567812abcdef")
    /\ (exists w2, f (VStr "12345678123456781234567812abcdef") = Ok w2
                   /\ py_eq w2 (VStr "12345678123456781234567812abcdef") = true).
Proof.
  destruct (@deserializers_idempotent Standin.builtins standin_reads_hex "uuid")
    as [f [Hf [Hidem [Heq _]]]].
  - simpl; tauto.
  - exists f. split; [exact Hf|].
    assert (f (VStr "{12345678-1234-5678-1234-567812abcdef}")
            = Ok (VStr "12345678123456781234567812abcdef")) as E.
    { simpl in Hf. inversion Hf. vm_compute. reflexivity. }
    split; [exact E|]. split; [exact (Hidem _ _ E)|].
    exact (Heq _ _ E eq_refl).
Defined.

(** ** Construction of a [Variable] *)

Section VariableFacts.

Context {C : Collaborators}.


(** Without a validation pattern only the choices can make the
    constructor raise. *)
Lemma Variable_init_unvalidated nm ty i :
  truthy (info_validation i) = false ->
  choice_mismatch i = false ->
  exists v, Variable_init nm ty i = Ok v
    /\ name v = nm /\ var_type v = ty
    /\ default v = get (info_default i) VNone
    /\ choices v = get (info_choices i) []
    /\ validate v = None.
Proof.
  unfold choice_mismatch, Variable_init. intros -> ->.
  eexists. split; [reflexivity|]. repeat split.
Qed.


End VariableFacts.





Lemma REGEX_COMPILE_FLAGS_accepted key :
  In key accepted_flag_names <-> REGEX_COMPILE_FLAGS key <> None.
Proof.
  unfold REGEX_COMPILE_FLAGS, accepted_flag_names. simpl.
  repeat match goal with
         | |- context [String.eqb key ?s] =>
             destruct (String.eqb_spec key s); [subst; split; [discriminate|tauto]|]
         end.
  split; [|congruence]. intros H.
  repeat destruct H as [H|H]; try congruence; try contradiction.
Qed.

Lemma fold_flags_accepted names :
  forall flags, Forall (fun n => In n accepted_flag_names) names ->
                exists z, fold_flags names flags = Ok z.
Proof.
  induction names as [|n names IH]; intros flags H; simpl; [eauto|].
  inversion H as [|? ? Hn Hrest]; subst.
  apply REGEX_COMPILE_FLAGS_accepted in Hn.
  destruct (REGEX_COMPILE_FLAGS n); [apply IH; assumption|congruence].
Qed.

(** C4: the flag name [multiline] is not a key of the table, which spells
    it [mulitline]: a variable declared with the flag [multiline] is
    refused with a [KeyError] when it is constructed, while the misspelled
    name is the one that enables [re.MULTILINE]. *)
Theorem multiline_flag_is_refused :
  forall (C : Collaborators) (nm : string),
    Variable_init nm "string" (with_validation "^[a-z]+$" ["multiline"])
    = Raise (KeyError "multiline")
    /\ REGEX_COMPILE_FLAGS "multiline" = None
    /\ fold_flags ["mulitline"] 0 = Ok re_MULTILINE.
Proof.
  intros C nm. repeat split.
Qed.

(** ** The resolution walk *)

Lemma bind_ok {A A'} (m : M A) (k : A -> M A') w b w' :
  bind m k w = Ok (b, w') ->
  exists a w1, m w = Ok (a, w1) /\ k a w1 = Ok (b, w').
Proof.
  unfold bind. destruct (m w) as [[a w1]|e]; [|discriminate].
  intros H. exists a, w1. split; [reflexivity|exact H].
Qed.

Lemma ret_ok {A} (a b : A) w w' : ret a w = Ok (b, w') -> a = b /\ w = w'.
Proof. unfold ret. intros H; inversion H; auto. Qed.

Lemma lift_ok {A} (r : result A) w b w' :
  lift r w = Ok (b, w') -> r = Ok b /\ w = w'.
Proof. unfold lift. destruct r; intros H; inversion H; auto. Qed.

Lemma logged_logged w a b : logged (logged w a) b = logged w (a ++ b)%list.
Proof. unfold logged. simpl. now rewrite app_assoc. Qed.

Lemma logged_nil w : logged w [] = w.
Proof. destruct w. unfold logged. simpl. now rewrite app_nil_r. Qed.

Tactic Notation "bind_inv" hyp(H) "as" ident(a) ident(w) ident(H1) :=
  apply bind_ok in H; destruct H as (a & w & H1 & H).

Lemma ctx_get_set_same k x c : ctx_get k (ctx_set k x c) = Some x.
Proof.
  induction c as [|[k' x'] c IH]; simpl.
  - now rewrite String.eqb_refl.
  - destruct (String.eqb k' k) eqn:E; simpl; [now rewrite String.eqb_refl|].
    now rewrite E.
Qed.

Lemma ctx_get_set_other k k' x c :
  k <> k' -> ctx_get k (ctx_set k' x c) = ctx_get k c.
Proof.
  intros Hne. induction c as [|[k0 x0] c IH]; simpl.
  - destruct (String.eqb_spec k' k); [congruence|reflexivity].
  - destruct (String.eqb_spec k0 k'); simpl.
    + subst. destruct (String.eqb_spec k' k); [congruence|reflexivity].
    + destruct (String.eqb k0 k); [reflexivity|exact IH].
Qed.

Section WalkFacts.

Context {B : Builtins} {C : Collaborators}.

Lemma jinja_render_ok c text w r w' :
  jinja_render c text w = Ok (r, w') ->
  template_render text c = Ok r /\ w' = logged w [Rendered text].
Proof.
  unfold jinja_render. intros H. bind_inv H as u w1 Hl.
  apply lift_ok in H. destruct H as [H <-].
  unfold emit in Hl. inversion Hl. auto.
Qed.

Lemma jinja_render_run c text w :
  jinja_render c text w =
  match template_render text c with
  | Ok r => Ok (r, logged w [Rendered text])
  | Raise e => Raise e
  end.
Proof.
  unfold jinja_render, bind, emit, lift. simpl.
  destruct (template_render text c); reflexivity.
Qed.

Lemma set_default_same v : set_default v (default v) = v.
Proof. destruct v; reflexivity. Qed.

Lemma render_default_ok c v w v' w' :
  render_default c v w = Ok (v', w') ->
  v' = set_default v (default v')
  /\ rendered_default v c = Ok (default v')
  /\ inputs w' = inputs w.
Proof.
  unfold render_default, rendered_default.
  destruct (default v) eqn:E;
    try (intros H; apply ret_ok in H; destruct H as [<- <-];
         rewrite set_default_same, E; auto).
  intros H. bind_inv H as r w1 Hl.
  apply jinja_render_ok in Hl. destruct Hl as [Hr ->].
  apply ret_ok in H. destruct H as [<- <-]. rewrite Hr. simpl. auto.
Qed.

(** What a processed variable leaves behind. *)
Lemma process_ok ni vb v c w st' w' :
  process ni vb v c w = Ok (st', w') ->
  exists d raw f stored,
    rendered_default v c = Ok d
    /\ (ni = true -> raw = d)
    /\ DESERIALIZERS (var_type v) = Some f
    /\ f raw = Ok stored
    /\ ctx st' = ctx_set (name v) stored c
    /\ skip_to_variable_name st' = next_target v (ctx st').
Proof.
  unfold process. intros H.
  bind_inv H as v1 w1 Hv. apply render_default_ok in Hv.
  destruct Hv as (Ea & Hd & _).
  bind_inv H as raw w2 Hraw. bind_inv H as f w3 Hf.
  unfold lookup_deserializer in Hf.
  destruct (DESERIALIZERS (var_type v1)) as [g|] eqn:Eg; [|discriminate].
  apply ret_ok in Hf. destruct Hf as [<- <-].
  bind_inv H as stored w4 Hs. apply lift_ok in Hs. destruct Hs as [Hs <-].
  bind_inv H as u w5 He. apply ret_ok in H. destruct H as [<- <-].
  exists (default v1), raw, g, stored.
  rewrite Ea in Eg |- *. simpl in *.
  repeat split; auto.
  intros ->. unfold raw_value in Hraw. simpl in Hraw.
  apply ret_ok in Hraw. destruct Hraw as [<- _]. rewrite Ea. reflexivity.
Qed.

Lemma step_awaiting ni vb v st w :
  awaits_other v st = true ->
  step ni vb v st w = Ok ((skipped_to_target, st), w).
Proof. unfold step. intros ->. reflexivity. Qed.

Lemma step_cleared ni vb v st w :
  awaits_other v st = false ->
  step ni vb v st w = step ni vb v (cleared (ctx st)) w.
Proof. unfold step. intros ->. reflexivity. Qed.

Lemma awaits_other_target v st t :
  skip_to_variable_name st = Some t -> t <> EmptyString ->
  awaits_other v st = negb (String.eqb (name v) t).
Proof.
  unfold awaits_other. intros -> Ht. simpl.
  destruct (String.eqb_spec t EmptyString); [contradiction|reflexivity].
Qed.

Lemma walk_cons ni vb v rest st w :
  walk ni vb (v :: rest) st w =
  match step ni vb v st w with
  | Ok (r, w1) => walk ni vb rest (snd r) w1
  | Raise e => Raise e
  end.
Proof. reflexivity. Qed.

Lemma walk_app ni vb pre rest st w :
  walk ni vb (pre ++ rest) st w =
  match walk ni vb pre st w with
  | Ok (st1, w1) => walk ni vb rest st1 w1
  | Raise e => Raise e
  end.
Proof.
  revert st w. induction pre as [|v pre IH]; intros st w; [reflexivity|].
  cbn [walk app]. unfold bind.
  destruct (step ni vb v st w) as [[r w1]|e]; [|reflexivity].
  apply IH.
Qed.

(** While the target is pending, variables of another name are passed
    over: the state and the world stay as they are. *)
Lemma walk_awaiting ni vb mid rest st w t :
  skip_to_variable_name st = Some t -> t <> EmptyString ->
  ~ In t (map name mid) ->
  walk ni vb (mid ++ rest) st w = walk ni vb rest st w.
Proof.
  intros Hst Ht. induction mid as [|m mid IH]; intros Hmid; [reflexivity|].
  cbn [walk app]. unfold bind.
  rewrite step_awaiting.
  - apply IH. intros Hin. apply Hmid. right. exact Hin.
  - rewrite (awaits_other_target m st Hst Ht).
    destruct (String.eqb_spec (name m) t) as [E|]; [|reflexivity].
    exfalso. apply Hmid. left. exact E.
Qed.

Lemma next_target_yes v c t :
  if_yes_skip_to v = Some t -> t <> EmptyString ->
  ctx_get (name v) c = Some (VBool true) ->
  next_target v c = Some t.
Proof.
  unfold next_target. intros -> Ht ->. simpl.
  destruct (String.eqb_spec t EmptyString); [contradiction|].
  simpl. rewrite andb_false_r. reflexivity.
Qed.

Lemma step_processed ni vb v st w st' w' :
  step ni vb v st w = Ok ((processed, st'), w') ->
  exists w0, process ni vb v (ctx st) w0 = Ok (st', w').
Proof.
  unfold step. destruct (awaits_other v st).
  - intros H. apply ret_ok in H. destruct H as [H _]. discriminate.
  - intros H. bind_inv H as s1 w1 H1. destruct s1.
    { apply ret_ok in H. destruct H as [H _]. discriminate. }
    bind_inv H as s2 w2 H2. destruct s2.
    { apply ret_ok in H. destruct H as [H _]. discriminate. }
    bind_inv H as st2 w3 H3. apply ret_ok in H. destruct H as [H <-].
    inversion H; subst. eauto.
Qed.

(** A round, and so a walk, touches no name but those of its
    variables. *)
Lemma step_ctx_other ni vb v st w o st' w' k :
  step ni vb v st w = Ok ((o, st'), w') -> k <> name v ->
  ctx_get k (ctx st') = ctx_get k (ctx st).
Proof.
  unfold step. intros H Hk. destruct (awaits_other v st).
  - apply ret_ok in H. destruct H as [H _]. inversion H; subst. reflexivity.
  - bind_inv H as s1 w1 H1. destruct s1.
    { apply ret_ok in H. destruct H as [H _]. inversion H; subst. reflexivity. }
    bind_inv H as s2 w2 H2. destruct s2.
    { apply ret_ok in H. destruct H as [H _]. inversion H; subst. reflexivity. }
    bind_inv H as st2 w3 H3. apply ret_ok in H. destruct H as [H _].
    inversion H; subst. apply process_ok in H3.
    destruct H3 as (d & raw & f & stored & _ & _ & _ & _ & Hctx & _).
    rewrite Hctx. apply ctx_get_set_other. exact Hk.
Qed.

(** A run of [load_context] that returns is a walk from the empty
    context followed by the two copies. *)
Lemma load_context_ok j ni vb w c w' :
  load_context j ni vb w = Ok (c, w') ->
  exists t st w1,
    CookiecutterTemplate_init j = Ok t
    /\ walk ni vb (variables t) initial w = Ok (st, w1)
    /\ c = ctx_set "_jinja2_env_vars"
              (match json_jinja2_env_vars j with Some x => x | None => VNone end)
              (ctx_set "_extensions"
                 (match json_extensions j with Some x => x | None => VNone end)
                 (ctx st)).
Proof.
  intros H. unfold load_context in H.
  bind_inv H as u w1 H1. bind_inv H as t w2 H2.
  apply lift_ok in H2. destruct H2 as [Ht <-].
  assert (w1 = w) as ->.
  { destruct (schema_validate j); [discriminate|].
    apply ret_ok in H1. destruct H1 as [_ <-]. reflexivity. }
  bind_inv H as st w3 H3.
  unfold finish in H. bind_inv H as u2 w4 H4.
  apply ret_ok in H. destruct H as [<- _].
  exists t, st, w3. split; [exact Ht|]. split; [exact H3|]. reflexivity.
Qed.

Lemma walk_ctx_other ni vb vars k :
  forall st w st' w',
    walk ni vb vars st w = Ok (st', w') -> ~ In k (map name vars) ->
    ctx_get k (ctx st') = ctx_get k (ctx st).
Proof.
  induction vars as [|v vars IH]; intros st w st' w' H Hk.
  - apply ret_ok in H. destruct H as [<- _]. reflexivity.
  - rewrite walk_cons in H.
    destruct (step ni vb v st w) as [[[o st1] w1]|e] eqn:Es; [|discriminate].
    simpl snd in H.
    rewrite (IH _ _ _ _ H) by (intros Hin; apply Hk; right; exact Hin).
    apply (step_ctx_other _ _ _ _ _ Es).
    intros E. apply Hk. left. symmetry. exact E.
Qed.

End WalkFacts.

(** C1: when a variable [V] with [if_yes_skip_to = X] has been processed
    and its stored value is [True], the name [X] is pending; every
    variable between [V] and the first variable named [X] is passed over
    without rendering, prompting or touching the context, so that the walk
    goes as if those variables were not declared; at [X] the pending name
    is cleared and [X] is handled as with no name pending.  The loop as a
    whole: the walk over the variables in between returns the state as
    it found it, the walk over the whole list is the round of [X] with
    nothing pending, run where [V] left off, followed by the rest; in
    the state it returns the names of the variables in between hold what
    they held before [V] (nothing, when they were not there), and when
    [X] is processed its value is there under its name.  For a run of
    [load_context] whose variables have distinct names, none of them a
    copied key: the returned context has no entry for a variable in
    between, and has the value of [X] when [X] is processed. *)
Theorem skip_to_jumps_over :
  forall (B : Builtins) (C : Collaborators) (no_input verbose : bool)
         (V X : variable) (mid post : list variable)
         (st st1 : loop_state) (w w1 : world) (target : string),
    if_yes_skip_to V = Some target -> target <> EmptyString ->
    step no_input verbose V st w = Ok ((processed, st1), w1) ->
    ctx_get (name V) (ctx st1) = Some (VBool true) ->
    name X = target -> ~ In target (map name mid) ->
    skip_to_variable_name st1 = Some target
    /\ (forall m w', In m mid ->
          step no_input verbose m st1 w' = Ok ((skipped_to_target, st1), w'))
    /\ walk no_input verbose (V :: mid ++ X :: post) st w
       = walk no_input verbose (V :: X :: post) st w
    /\ step no_input verbose X st1 w1
       = step no_input verbose X (cleared (ctx st1)) w1
    /\ (forall w', walk no_input verbose mid st1 w' = Ok (st1, w'))
    /\ walk no_input verbose (V :: mid ++ X :: post) st w
       = match step no_input verbose X (cleared (ctx st1)) w1 with
         | Ok (r, w2) => walk no_input verbose post (snd r) w2
         | Raise e => Raise e
         end
    /\ (forall st' w',
          walk no_input verbose (V :: mid ++ X :: post) st w = Ok (st', w') ->
          (forall k, In k (map name mid) -> k <> name V ->
                     ~ In k (map name post) ->
                     ctx_get k (ctx st') = ctx_get k (ctx st))
          /\ (forall st2 w2,
                step no_input verbose X (cleared (ctx st1)) w1
                = Ok ((processed, st2), w2) ->
                ~ In target (map name post) ->
                exists f raw stored,
                  DESERIALIZERS (var_type X) = Some f
                  /\ f raw = Ok stored
                  /\ ctx st2 = ctx_set target stored (ctx st1)
                  /\ ctx_get target (ctx st') = Some stored))
    /\ (forall (j : json_object) (template : CookiecutterTemplate)
               (pre : list variable) (w0 : world) (c : context) (w' : world),
          CookiecutterTemplate_init j = Ok template ->
          variables template = (pre ++ V :: mid ++ X :: post)%list ->
          walk no_input verbose pre initial w0 = Ok (st, w) ->
          load_context j no_input verbose w0 = Ok (c, w') ->
          (forall k, In k (map name mid) ->
                     ~ In k (map name pre) -> k <> name V ->
                     ~ In k (map name post) ->
                     k <> "_extensions" -> k <> "_jinja2_env_vars" ->
                     ctx_get k c = None)
          /\ (forall st2 w2,
                step no_input verbose X (cleared (ctx st1)) w1
                = Ok ((processed, st2), w2) ->
                ~ In target (map name post) ->
                target <> "_extensions" -> target <> "_jinja2_env_vars" ->
                exists stored,
                  ctx st2 = ctx_set target stored (ctx st1)
                  /\ ctx_get target c = Some stored)).
Proof.
  intros B C ni vb V X mid post st st1 w w1 target Hyes Ht Hstep Htrue HX Hmid.
  assert (skip_to_variable_name st1 = Some target) as Hpending.
  { destruct (step_processed _ _ _ _ _ Hstep) as [w0 Hp].
    apply process_ok in Hp. destruct Hp as (d & raw & f & stored & _ & _ & _ & _ & _ & Hn).
    rewrite Hn. apply next_target_yes; assumption. }
  assert (awaits_other X st1 = false) as HX0.
  { rewrite (awaits_other_target X st1 Hpending Ht), HX, String.eqb_refl.
    reflexivity. }
  assert (walk ni vb (V :: mid ++ X :: post) st w
          = match step ni vb X (cleared (ctx st1)) w1 with
            | Ok (r, w2) => walk ni vb post (snd r) w2
            | Raise e => Raise e
            end) as Hreach.
  { rewrite walk_cons, Hstep. simpl snd.
    rewrite (walk_awaiting ni vb mid (X :: post) st1 w1 Hpending Ht Hmid).
    rewrite walk_cons, (step_cleared ni vb X st1 w1 HX0). reflexivity. }
  assert (forall st' w',
             walk ni vb (V :: mid ++ X :: post) st w = Ok (st', w') ->
             (forall k, In k (map name mid) -> k <> name V ->
                        ~ In k (map name post) ->
                        ctx_get k (ctx st') = ctx_get k (ctx st))
             /\ (forall st2 w2,
                   step ni vb X (cleared (ctx st1)) w1
                   = Ok ((processed, st2), w2) ->
                   ~ In target (map name post) ->
                   exists f raw stored,
                     DESERIALIZERS (var_type X) = Some f
                     /\ f raw = Ok stored
                     /\ ctx st2 = ctx_set target stored (ctx st1)
                     /\ ctx_get target (ctx st') = Some stored)) as Hend.
  { intros st' w' Hw. rewrite Hreach in Hw.
    destruct (step ni vb X (cleared (ctx st1)) w1) as [[[o st2] w2]|e] eqn:EX;
      [|discriminate].
    simpl snd in Hw. split.
    + intros k Hk HkV Hkpost.
      rewrite (walk_ctx_other _ _ _ _ _ _ Hw Hkpost).
      rewrite (step_ctx_other _ _ _ _ _ EX)
        by (intros E; apply Hmid; rewrite <- HX, <- E; exact Hk).
      simpl ctx. apply (step_ctx_other _ _ _ _ _ Hstep HkV).
    + intros st2' w2' Hp Hpost. inversion Hp; subst o st2' w2'.
      destruct (step_processed _ _ _ _ _ EX) as [w0 Hpr].
      apply process_ok in Hpr.
      destruct Hpr as (d & raw & f & stored & _ & _ & Hf & Hs & Hctx & _).
      simpl ctx in Hctx. rewrite HX in Hctx.
      exists f, raw, stored. split; [exact Hf|]. split; [exact Hs|].
      split; [exact Hctx|].
      rewrite (walk_ctx_other _ _ _ _ _ _ Hw Hpost), Hctx.
      apply ctx_get_set_same. }
  split; [exact Hpending|].
  split; [|split; [|split; [|split; [|split; [exact Hreach|
                                       split; [exact Hend|]]]]]].
  - intros m w' Hm. apply step_awaiting.
    rewrite (awaits_other_target m st1 Hpending Ht).
    destruct (String.eqb_spec (name m) target) as [E|]; [|reflexivity].
    exfalso. apply Hmid. rewrite <- E. apply in_map. exact Hm.
  - rewrite !(walk_cons _ _ V). rewrite Hstep. simpl snd.
    apply (walk_awaiting _ _ _ _ _ _ Hpending Ht Hmid).
  - apply step_cleared. exact HX0.
  - intros w'. rewrite <- (app_nil_r mid) at 1.
    rewrite (walk_awaiting ni vb mid [] st1 w' Hpending Ht Hmid). reflexivity.
  - intros j t pre w0 c w' Hinit Hvars Hpre Hload.
    apply load_context_ok in Hload.
    destruct Hload as (t' & stf & w3 & Ht' & Hwalk & ->).
    rewrite Hinit in Ht'. inversion Ht'; subst t'. clear Ht'.
    rewrite Hvars, walk_app, Hpre in Hwalk.
    destruct (Hend _ _ Hwalk) as [Hlack Hhas]. split.
    + intros k Hk Hkpre HkV Hkpost He Hj.
      rewrite !ctx_get_set_other by assumption.
      rewrite (Hlack k Hk HkV Hkpost).
      rewrite (walk_ctx_other _ _ _ _ _ _ Hpre Hkpre). reflexivity.
    + intros st2 w2 HsX Hpost He Hj.
      destruct (Hhas _ _ HsX Hpost) as (f & raw & stored & _ & _ & Hc & Hg).
      exists stored. split; [exact Hc|].
      rewrite !ctx_get_set_other by assumption. exact Hg.
Qed.

Section ConditionFacts.

Context {B : Builtins} {C : Collaborators}.

Lemma skip_if_holds_ok c v w b w' :
  skip_if_holds c v w = Ok (b, w') ->
  (b = true <-> skip_if_fires v c)
  /\ inputs w' = inputs w
  /\ (b = true -> w' = logged w [Rendered (skip_if v)]).
Proof.
  unfold skip_if_holds, skip_if_fires.
  destruct (String.eqb_spec (skip_if v) EmptyString) as [E|E]; simpl.
  - intros H. apply ret_ok in H. destruct H as [<- <-].
    repeat split; try discriminate; tauto.
  - intros H. bind_inv H as r w1 Hr.
    apply jinja_render_ok in Hr. destruct Hr as [Hr ->].
    apply ret_ok in H. destruct H as [<- <-]. rewrite Hr.
    destruct (String.eqb_spec r "True") as [->|Hn]; repeat split; auto;
      try discriminate.
    intros [_ H]. inversion H. contradiction.
Qed.

Lemma do_if_fails_ok c v w b w' :
  do_if_fails c v w = Ok (b, w') ->
  (b = true <-> do_if_fires v c) /\ inputs w' = inputs w.
Proof.
  unfold do_if_fails, do_if_fires.
  destruct (String.eqb_spec (do_if v) EmptyString) as [E|E]; simpl.
  - intros H. apply ret_ok in H. destruct H as [<- <-].
    repeat split; try discriminate; tauto.
  - intros H. bind_inv H as r w1 Hr.
    apply jinja_render_ok in Hr. destruct Hr as [Hr ->].
    apply ret_ok in H. destruct H as [<- <-]. rewrite Hr.
    destruct (String.eqb_spec r "False") as [->|Hn]; repeat split; auto;
      try discriminate.
    intros [_ H]. inversion H. contradiction.
Qed.

Lemma skip_if_holds_fires c v w :
  skip_if_fires v c ->
  skip_if_holds c v w = Ok (true, logged w [Rendered (skip_if v)]).
Proof.
  unfold skip_if_holds, skip_if_fires. intros [Hne Hr].
  destruct (String.eqb_spec (skip_if v) EmptyString); [contradiction|].
  simpl. unfold bind. rewrite jinja_render_run, Hr. reflexivity.
Qed.



(** Which way a round that is not passed over ends. *)
Lemma step_outcome ni vb v st w o st' w' :
  awaits_other v st = false ->
  step ni vb v st w = Ok ((o, st'), w') ->
  (o = skipped_by_skip_if <-> skip_if_fires v (ctx st))
  /\ (o = skipped_by_do_if <->
      ~ skip_if_fires v (ctx st) /\ do_if_fires v (ctx st))
  /\ (o = processed <->
      ~ skip_if_fires v (ctx st) /\ ~ do_if_fires v (ctx st))
  /\ (o <> processed -> st' = cleared (ctx st) /\ inputs w' = inputs w).
Proof.
  intros Hgate. unfold step. rewrite Hgate. intros H.
  bind_inv H as s1 w1 H1. apply skip_if_holds_ok in H1.
  destruct H1 as (Hs & Hi1 & _). destruct s1.
  - apply ret_ok in H. destruct H as [H <-]. inversion H; subst.
    assert (skip_if_fires v (ctx st)) by (apply Hs; reflexivity).
    intuition (try discriminate; try congruence).
  - assert (~ skip_if_fires v (ctx st)) as Hns
        by (intros F; apply Hs in F; discriminate).
    bind_inv H as s2 w2 H2. apply do_if_fails_ok in H2.
    destruct H2 as (Hd & Hi2). destruct s2.
    + apply ret_ok in H. destruct H as [H <-]. inversion H; subst.
      assert (do_if_fires v (ctx st)) by (apply Hd; reflexivity).
      intuition (try discriminate; try congruence).
    + assert (~ do_if_fires v (ctx st)) as Hnd
          by (intros F; apply Hd in F; discriminate).
      bind_inv H as st2 w3 H3. apply ret_ok in H. destruct H as [H <-].
      inversion H; subst.
      intuition (try discriminate; try congruence).
Qed.

End ConditionFacts.


(** ** Runs without input *)

Create HintDb quiet.

Section SilentFacts.

Context {B : Builtins} {C : Collaborators}.

Lemma asks_nothing_ret {A} (a : A) : asks_nothing (ret a).
Proof.
  intros w x w' H. apply ret_ok in H. destruct H as [_ <-].
  exists []. now rewrite logged_nil.
Qed.

Lemma asks_nothing_raise {A} e : asks_nothing (@raise A e).
Proof. intros w x w' H. discriminate. Qed.

Lemma asks_nothing_lift {A} (r : result A) : asks_nothing (lift r).
Proof.
  intros w x w' H. apply lift_ok in H. destruct H as [_ <-].
  exists []. now rewrite logged_nil.
Qed.

Lemma asks_nothing_emit e : is_prompt e = false -> asks_nothing (emit e).
Proof.
  intros He w x w' H. unfold emit in H. inversion H; subst.
  exists [e]. split; [reflexivity|]. simpl. now rewrite He.
Qed.

Lemma asks_nothing_bind {A A'} (m : M A) (k : A -> M A') :
  asks_nothing m -> (forall a, asks_nothing (k a)) -> asks_nothing (bind m k).
Proof.
  intros Hm Hk w b w' H. bind_inv H as a w1 H1.
  destruct (Hm _ _ _ H1) as [e1 [-> N1]].
  destruct (Hk a _ _ _ H) as [e2 [-> N2]].
  exists (e1 ++ e2)%list. rewrite logged_logged. split; [reflexivity|].
  rewrite existsb_app, N1, N2. reflexivity.
Qed.

Hint Resolve asks_nothing_ret asks_nothing_raise asks_nothing_lift
     asks_nothing_bind : quiet.

Lemma asks_nothing_render c text : asks_nothing (jinja_render c text).
Proof.
  unfold jinja_render. apply asks_nothing_bind; auto with quiet.
  apply asks_nothing_emit. reflexivity.
Qed.

Lemma asks_nothing_echo text : asks_nothing (click_echo text).
Proof. apply asks_nothing_emit. reflexivity. Qed.

Lemma asks_nothing_warning text : asks_nothing (logger_warning text).
Proof. apply asks_nothing_emit. reflexivity. Qed.

Hint Resolve asks_nothing_render asks_nothing_echo asks_nothing_warning
  : quiet.






(** *** Stored values *)


(** What any round of the loop does to the state. *)
Lemma step_ok ni vb v st w o st' w' :
  step ni vb v st w = Ok ((o, st'), w') ->
  (o = skipped_to_target /\ st' = st /\ w' = w /\ awaits_other v st = true)
  \/ ((o = skipped_by_skip_if \/ o = skipped_by_do_if)
      /\ st' = cleared (ctx st) /\ awaits_other v st = false)
  \/ (o = processed /\ awaits_other v st = false
      /\ exists w0, process ni vb v (ctx st) w0 = Ok (st', w')).
Proof.
  unfold step. destruct (awaits_other v st).
  - intros H. apply ret_ok in H. destruct H as [H <-]. inversion H; subst.
    left. auto.
  - intros H. right. bind_inv H as s1 w1 H1. destruct s1.
    { apply ret_ok in H. destruct H as [H _]. inversion H; subst. left; auto. }
    bind_inv H as s2 w2 H2. destruct s2.
    { apply ret_ok in H. destruct H as [H _]. inversion H; subst. left; auto. }
    bind_inv H as st2 w3 H3. apply ret_ok in H. destruct H as [H <-].
    inversion H; subst. right. eauto.
Qed.


End SilentFacts.


(** ** Key order and the end of the walk *)

Lemma mem_In k ks : mem k ks = true <-> In k ks.
Proof.
  unfold mem. rewrite existsb_exists. split.
  - intros [x [Hx E]]. apply String.eqb_eq in E. now subst.
  - intros H. exists k. split; [exact H|apply String.eqb_refl].
Qed.

Lemma truthy_false_get o : truthy o = false -> get o EmptyString = EmptyString.
Proof.
  destruct o as [s|]; simpl; [|reflexivity].
  destruct (String.eqb_spec s EmptyString); [auto|discriminate].
Qed.

Lemma keys_ctx_set k x c :
  keys (ctx_set k x c) = (keys c ++ if mem k (keys c) then [] else [k])%list.
Proof.
  unfold keys, mem. induction c as [|[k' x'] c IH]; simpl; [reflexivity|].
  rewrite (String.eqb_sym k k').
  destruct (String.eqb_spec k' k); simpl.
  - subst. now rewrite app_nil_r.
  - now rewrite IH.
Qed.

Section OrderFacts.

Context {B : Builtins} {C : Collaborators}.

Lemma Variable_init_fields nm ty i v :
  Variable_init nm ty i = Ok v ->
  name v = nm /\ var_type v = ty
  /\ skip_if v = get (info_skip_if i) EmptyString
  /\ do_if v = get (info_do_if i) EmptyString
  /\ if_yes_skip_to v = info_if_yes_skip_to i
  /\ if_no_skip_to v = info_if_no_skip_to i.
Proof.
  unfold Variable_init.
  destruct (_ && _ && negb _); [discriminate|].
  destruct (truthy (info_validation i)).
  - destruct (fold_flags _ 0) as [z|]; simpl; [|discriminate].
    destruct (compile_validation _ z) as [p|]; simpl; [|discriminate].
    destruct (negb _); [discriminate|].
    intros H; inversion H; subst; simpl. repeat split.
  - intros H; inversion H; subst; simpl. repeat split.
Qed.

Lemma construct_variables_fields decls :
  forall vars,
    construct_variables decls = Ok vars ->
    map name vars = map decl_name decls
    /\ (Forall unconditional_decl decls -> Forall unconditional vars).
Proof.
  induction decls as [|d decls IH]; intros vars H; simpl in H.
  - inversion H; subst. split; [reflexivity|constructor].
  - destruct (Variable_init _ _ _) as [v|] eqn:Ev; simpl in H; [|discriminate].
    destruct (construct_variables decls) as [vs|]; simpl in H; [|discriminate].
    inversion H; subst. destruct (IH vs eq_refl) as [Hn Hu].
    apply Variable_init_fields in Ev.
    destruct Ev as (E1 & _ & E3 & E4 & E5 & E6).
    split; [simpl; congruence|].
    intros Hd. inversion Hd as [|? ? (U1 & U2 & U3 & U4) Hrest]; subst.
    constructor; [|auto].
    unfold unconditional. rewrite E3, E4, E5, E6.
    rewrite (truthy_false_get _ U1), (truthy_false_get _ U2). auto.
Qed.

Lemma next_target_none v c : unconditional v -> next_target v c = None.
Proof.
  unfold unconditional, next_target. intros (_ & _ & -> & ->). reflexivity.
Qed.

Lemma next_target_truthy v c t : next_target v c = Some t -> t <> EmptyString.
Proof.
  unfold next_target.
  destruct (truthy (if_no_skip_to v)) eqn:En; simpl.
  - destruct (match ctx_get (name v) c with Some (VBool false) => true | _ => false end).
    + intros E. rewrite E in En. simpl in En. intros ->. discriminate.
    + destruct (truthy (if_yes_skip_to v) && _) eqn:Ey; [|discriminate].
      apply andb_true_iff in Ey. destruct Ey as [Ey _].
      intros E. rewrite E in Ey. simpl in Ey. intros ->. discriminate.
  - destruct (truthy (if_yes_skip_to v) && _) eqn:Ey; [|discriminate].
    apply andb_true_iff in Ey. destruct Ey as [Ey _].
    intros E. rewrite E in Ey. simpl in Ey. intros ->. discriminate.
Qed.

Lemma step_well_pending ni vb v st w o st' w' :
  well_pending st -> step ni vb v st w = Ok ((o, st'), w') -> well_pending st'.
Proof.
  intros Hst H. apply step_ok in H.
  destruct H as [(_ & -> & _)|[(_ & -> & _)|(_ & _ & w0 & Hp)]]; auto.
  - intros t Ht. discriminate.
  - apply process_ok in Hp.
    destruct Hp as (d & raw & f & stored & _ & _ & _ & _ & _ & Hn).
    intros t Ht. rewrite Hn in Ht. exact (next_target_truthy _ _ Ht).
Qed.

Lemma walk_well_pending ni vb vars :
  forall st w st' w',
    well_pending st -> walk ni vb vars st w = Ok (st', w') -> well_pending st'.
Proof.
  induction vars as [|v vars IH]; intros st w st' w' Hst H.
  - apply ret_ok in H. destruct H as [<- _]. exact Hst.
  - rewrite walk_cons in H.
    destruct (step ni vb v st w) as [[[o st1] w1]|e] eqn:Es; [|discriminate].
    eapply IH; [|exact H]. simpl. eapply step_well_pending; eauto.
Qed.

Lemma walk_unconditional_keys ni vb vars :
  forall st w st' w',
    Forall unconditional vars ->
    skip_to_variable_name st = None ->
    NoDup (keys (ctx st) ++ map name vars) ->
    walk ni vb vars st w = Ok (st', w') ->
    keys (ctx st') = (keys (ctx st) ++ map name vars)%list
    /\ skip_to_variable_name st' = None.
Proof.
  induction vars as [|v vars IH]; intros st w st' w' Hu Hnone Hnd H.
  - apply ret_ok in H. destruct H as [<- _]. simpl. now rewrite app_nil_r.
  - rewrite walk_cons in H.
    destruct (step ni vb v st w) as [[[o st1] w1]|e] eqn:Es; [|discriminate].
    simpl in H. inversion Hu as [|? ? Hv Hrest]; subst.
    assert (awaits_other v st = false) as Hgate
        by (unfold awaits_other; rewrite Hnone; reflexivity).
    assert (keys (ctx st1) = (keys (ctx st) ++ [name v])%list
            /\ skip_to_variable_name st1 = None) as [Hk Hn1].
    { destruct (step_outcome _ _ _ _ _ Hgate Es) as (_ & _ & Hproc & _).
      assert (o = processed) as ->.
      { apply Hproc. destruct Hv as (S1 & S2 & _).
        split; intros [Hne _]; contradiction. }
      destruct (step_processed _ _ _ _ _ Es) as [w0 Hp].
      apply process_ok in Hp.
      destruct Hp as (d & raw & f & stored & _ & _ & _ & _ & Hctx & Hn).
      split; [|rewrite Hn; apply next_target_none; exact Hv].
      rewrite Hctx, keys_ctx_set.
      destruct (mem (name v) (keys (ctx st))) eqn:Em; [|reflexivity].
      exfalso. apply mem_In in Em.
      apply NoDup_remove_2 in Hnd. apply Hnd.
      apply in_or_app. left. exact Em. }
    destruct (IH st1 w1 st' w' Hrest Hn1) as [Hk' Hn']; [|exact H|].
    + rewrite Hk, <- app_assoc. exact Hnd.
    + split; [|exact Hn']. rewrite Hk', Hk, <- app_assoc. reflexivity.
Qed.

End OrderFacts.

(** C7: when no declared variable has a [skip_if], a [do_if] or a skip-to
    target and the declared names are distinct, the keys of the resulting
    context are the declared names in their declared order, followed by
    those of the two copied keys that are not declared names. *)
Theorem context_keys_follow_declaration_order :
  forall (B : Builtins) (C : Collaborators) (j : json_object)
         (no_input verbose : bool) (w : world) (c : context) (w' : world),
    NoDup (declared_names j) ->
    Forall unconditional_decl (doc_variables (json_template j)) ->
    load_context j no_input verbose w = Ok (c, w') ->
    keys c = (declared_names j ++ appended_keys (declared_names j))%list.
Proof.
  intros B C j ni vb w c w' Hnd Hu H.
  unfold load_context in H.
  bind_inv H as u w1 H1. bind_inv H as t w2 H2.
  apply lift_ok in H2. destruct H2 as [Ht _].
  bind_inv H as st w3 H3.
  unfold CookiecutterTemplate_init in Ht.
  destruct (match json_requires j with Some (_ :: _ as reqs) => _ | _ => Ok tt end);
    simpl in Ht; [|discriminate].
  destruct (construct_variables _) as [vars|] eqn:Ev; simpl in Ht; [|discriminate].
  inversion Ht; subst t; clear Ht. simpl in H3.
  apply construct_variables_fields in Ev. destruct Ev as [Hnames Hvars].
  apply walk_unconditional_keys in H3; auto;
    [|simpl; rewrite Hnames; exact Hnd].
  destruct H3 as [Hk _]. simpl in Hk. rewrite Hnames in Hk.
  unfold finish in H. bind_inv H as u2 w4 H4.
  apply ret_ok in H. destruct H as [<- _].
  rewrite !keys_ctx_set. fold (declared_names j) in Hk. rewrite !Hk.
  unfold appended_keys. simpl.
  destruct (mem "_extensions" (declared_names j)) eqn:E1; simpl.
  - rewrite app_nil_r.
    destruct (mem "_jinja2_env_vars" (declared_names j)); reflexivity.
  - assert (mem "_jinja2_env_vars" (declared_names j ++ ["_extensions"])
            = mem "_jinja2_env_vars" (declared_names j)) as ->.
    { unfold mem. rewrite existsb_app. simpl. now rewrite !orb_false_r. }
    destruct (mem "_jinja2_env_vars" (declared_names j)); simpl;
      [now rewrite app_nil_r|now rewrite <- app_assoc].
Qed.

(** C8: when, after some variables, a name is pending and none of the
    remaining variables has it, the walk ends without failing;
    [load_context] logs the warning and returns the context as it was when
    the name became pending, with the two copied keys.  In every run that
    returns, each of the two copied keys holds the value the document
    gives under [extensions], respectively [jinja2_env_vars], and [None]
    when the document has no such key. *)
Theorem unmatched_target_only_warns :
  (forall (B : Builtins) (C : Collaborators) (j : json_object)
          (no_input verbose : bool) (w : world) (template : CookiecutterTemplate)
          (pre rest : list variable) (st : loop_state) (w1 : world)
          (target : string),
      schema_validate j = None ->
      CookiecutterTemplate_init j = Ok template ->
      variables template = (pre ++ rest)%list ->
      walk no_input verbose pre initial w = Ok (st, w1) ->
      skip_to_variable_name st = Some target ->
      ~ In target (map name rest) ->
      load_context j no_input verbose w
      = Ok (ctx_set "_jinja2_env_vars"
              (match json_jinja2_env_vars j with Some x => x | None => VNone end)
              (ctx_set "_extensions"
                 (match json_extensions j with Some x => x | None => VNone end)
                 (ctx st)),
            logged w1 [Warned (never_found target)]))
  /\ (forall (B : Builtins) (C : Collaborators) (j : json_object)
             (no_input verbose : bool) (w : world) (c : context) (w' : world),
         load_context j no_input verbose w = Ok (c, w') ->
         (forall x, json_extensions j = Some x ->
                    ctx_get "_extensions" c = Some x)
         /\ (json_extensions j = None -> ctx_get "_extensions" c = Some VNone)
         /\ (forall x, json_jinja2_env_vars j = Some x ->
                       ctx_get "_jinja2_env_vars" c = Some x)
         /\ (json_jinja2_env_vars j = None ->
             ctx_get "_jinja2_env_vars" c = Some VNone)).
Proof.
  split.
  - intros B C j ni vb w t pre rest st w1 target Hs Ht Hvars Hw Hp Hrest.
    assert (target <> EmptyString) as Hne.
    { eapply (walk_well_pending ni vb pre); [|exact Hw|exact Hp].
      intros x Hx. discriminate. }
    unfold load_context. rewrite Hs, Ht. unfold bind at 1. simpl.
    unfold bind at 1. simpl. unfold bind at 1.
    rewrite Hvars, walk_app, Hw.
    rewrite <- (app_nil_r rest).
    rewrite (walk_awaiting ni vb rest [] st w1 Hp Hne Hrest).
    simpl. unfold finish, bind. rewrite Hp. simpl.
    destruct (String.eqb_spec target EmptyString); [contradiction|].
    reflexivity.
  - intros B C j ni vb w c w' H.
    unfold load_context in H.
    bind_inv H as u w1 H1. bind_inv H as t w2 H2. bind_inv H as st w3 H3.
    unfold finish in H. bind_inv H as u2 w4 H4.
    apply ret_ok in H. destruct H as [<- _].
    rewrite ctx_get_set_other by discriminate. rewrite !ctx_get_set_same.
    unfold get_value, get.
    repeat split; intros; subst;
      repeat match goal with
             | E : ?a = _ |- context [?a] => rewrite E
             end; reflexivity.
Qed.

(** ** The prompt loop never runs out of fuel before the input does *)

Lemma read_answer_shorter t d ins v rest :
  read_answer t d ins = Ok (v, rest) ->
  (List.length rest < List.length ins)%nat.
Proof.
  induction ins as [|r ins IH]; simpl; [discriminate|].
  destruct r as [|x].
  - destruct d; try (intros H; inversion H; subst; simpl; lia).
    intros H. apply IH in H. lia.
  - destruct (converts t x).
    + intros H; inversion H; subst; simpl; lia.
    + intros H. apply IH in H. lia.
Qed.

Lemma click_prompt_consumes text d hide t w v w' :
  click_prompt text d hide t w = Ok (v, w') ->
  (List.length (inputs w') < List.length (inputs w))%nat.
Proof.
  unfold click_prompt.
  destruct (read_answer t d (inputs w)) as [[x rest]|e] eqn:E; [|discriminate].
  intros H; inversion H; subst; simpl. exact (read_answer_shorter _ _ _ E).
Qed.

Lemma bind_ext {A A'} (m : M A) (k k' : A -> M A') w :
  (forall a w1, m w = Ok (a, w1) -> k a w1 = k' a w1) ->
  bind m k w = bind m k' w.
Proof.
  intros H. unfold bind. destruct (m w) as [[a w1]|e]; [|reflexivity].
  apply H. reflexivity.
Qed.

Section FuelFacts.

Context {B : Builtins} {C : Collaborators}.

Lemma PROMPTS_consuming ty ask : PROMPTS ty = Some ask -> consuming ask.
Proof.
  unfold PROMPTS.
  repeat match goal with
         | |- context [String.eqb ty ?s] => destruct (String.eqb ty s)
         end; intros H; inversion H; subst; intros v d w x w' Hr;
    try exact (click_prompt_consumes _ _ _ _ _ Hr).
  - unfold prompt_json in Hr. bind_inv Hr as y w1 H1.
    apply click_prompt_consumes in H1.
    destruct (py_eq y _); apply ret_ok in Hr; destruct Hr as [_ <-]; exact H1.
  - unfold prompt_yes_no in Hr. bind_inv Hr as y w1 H1.
    apply click_prompt_consumes in H1.
    destruct (py_eq y _); apply ret_ok in Hr; destruct Hr as [_ <-]; exact H1.
Qed.

Lemma prompt_choice_consuming : consuming prompt_choice.
Proof.
  intros v d w x w' Hr. unfold prompt_choice in Hr.
  bind_inv Hr as i w1 H1. apply lift_ok in H1. destruct H1 as [_ <-].
  bind_inv Hr as y w2 H2. apply click_prompt_consumes in H2.
  destruct (ctx_get _ _); [|discriminate].
  apply ret_ok in Hr. destruct Hr as [_ <-]. exact H2.
Qed.

(** With a strategy that reads at least one line per call, any two
    amounts of fuel above the number of lines left give the same run. *)
Lemma prompt_loop_enough ask v :
  consuming ask ->
  forall fuel fuel' w,
    (List.length (inputs w) < fuel)%nat ->
    (List.length (inputs w) < fuel')%nat ->
    prompt_loop fuel ask v w = prompt_loop fuel' ask v w.
Proof.
  intros Hask. induction fuel as [|fuel IH]; intros fuel' w Hf Hf'; [lia|].
  destruct fuel' as [|fuel']; [lia|].
  cbn [prompt_loop]. apply bind_ext. intros x w1 E. apply Hask in E.
  destruct (validate v) as [p|]; [|reflexivity].
  apply bind_ext. intros m w2 El. apply lift_ok in El. destruct El as [_ <-].
  destruct m; [reflexivity|].
  apply bind_ext. intros u w3 E3. unfold click_echo, emit in E3.
  inversion E3; subst; clear E3.
  apply bind_ext. intros u2 w4 E4.
  assert (inputs w4 = inputs w1) as Hin.
  { destruct (truthy (validation_msg v)).
    - unfold click_echo, emit in E4. inversion E4; subst. reflexivity.
    - apply ret_ok in E4. destruct E4 as [_ <-]. reflexivity. }
  apply IH; rewrite Hin; lia.
Qed.

End FuelFacts.

(** ** The theorems at work on small templates *)

Lemma skip_to_jumps_over_witness :
  (exists st' w',
      @walk Standin.builtins Standin.collaborators true false
            [Demo.use_docker; Demo.database; Demo.license_] initial
            (Standin.quiet [])
      = Ok (st', w')
      /\ ctx st' = [("use_docker", VBool true); ("license", VStr "MIT")]
      /\ ctx_get "database" (ctx st') = None)
  /\ (exists c w',
        @load_context Standin.builtins Standin.collaborators Trial.jumpy
                      true false (Standin.quiet [])
        = Ok (c, w')
        /\ c = [("use_docker", VBool true); ("license", VStr "MIT");
                ("_extensions", VList [VStr "jinja2_time.TimeExtension"]);
                ("_jinja2_env_vars", VNone)]
        /\ ctx_get "database" c = None
        /\ exists stored, ctx_get "license" c = Some stored).
Proof.
  destruct (@skip_to_jumps_over Standin.builtins Standin.collaborators
              true false Demo.use_docker Demo.license_ [Demo.database] []
              initial
              {| ctx := [("use_docker", VBool true)];
                 skip_to_variable_name := Some "license" |}
              (Standin.quiet []) (Standin.quiet []) "license")
    as (_ & _ & _ & _ & _ & Hreach & Hctx & Hload).
  - reflexivity.
  - discriminate.
  - vm_compute. reflexivity.
  - reflexivity.
  - reflexivity.
  - simpl. intros [H|[]]. discriminate.
  - split.
    + eexists. eexists.
      split; [refine (eq_trans Hreach _); vm_compute; reflexivity|].
      split; [reflexivity|].
      refine (proj1 (Hctx _ _ (eq_trans Hreach eq_refl)) "database"
                    (or_introl eq_refl) _ (fun H : False => H)).
      discriminate.
    + eexists. eexists. split; [vm_compute; reflexivity|].
      split; [reflexivity|].
      destruct (Hload Trial.jumpy _ [] (Standin.quiet []) _ _
                      eq_refl eq_refl eq_refl eq_refl) as [Hlack Hhas].
      split.
      * apply (Hlack "database" (or_introl eq_refl) (fun H : False => H));
          try discriminate.
        exact (fun H : False => H).
      * destruct (Hhas _ _ eq_refl (fun H : False => H)) as [stored [_ Hg]];
          try discriminate.
        exists stored. exact Hg.
Defined.




Lemma context_keys_follow_declaration_order_witness :
  exists c w',
    @load_context Standin.builtins Standin.collaborators Demo.two_plain
                  false false (Standin.quiet [Typed (VStr "shop"); Enter])
    = Ok (c, w')
    /\ keys c = ["project"; "count"; "_extensions"; "_jinja2_env_vars"].
Proof.
  eexists. eexists. split; [vm_compute; reflexivity|].
  refine (@context_keys_follow_declaration_order Standin.builtins
            Standin.collaborators Demo.two_plain false false
            (Standin.quiet [Typed (VStr "shop"); Enter]) _ _ _ _ eq_refl).
  - repeat constructor; simpl; intuition discriminate.
  - repeat constructor.
Defined.

Lemma unmatched_target_only_warns_witness :
  @load_context Standin.builtins Standin.collaborators Trial.nowhere_to_go
                true false (Standin.quiet [])
  = Ok ([("use_docker", VBool true);
         ("_extensions", VList [VStr "jinja2_time.TimeExtension"]);
         ("_jinja2_env_vars", VDict [("trim_blocks", VBool true)])],
        logged (Standin.quiet []) [Warned (never_found "nowhere")]).
Proof.
  refine (proj1 unmatched_target_only_warns Standin.builtins
            Standin.collaborators Trial.nowhere_to_go true false
            (Standin.quiet [])
            _ [Demo.use_docker_nowhere] [Demo.database]
            {| ctx := [("use_docker", VBool true)];
               skip_to_variable_name := Some "nowhere" |}
            (Standin.quiet []) "nowhere"
            eq_refl eq_refl eq_refl eq_refl eq_refl _).
  simpl. intros [H|[]]. discriminate.
Defined.


(** ** The prompt strategies *)





(** X1: at a yes/no prompt an empty line gives back the declared default
    itself (not the displayed [y] or [n]), and a typed answer is returned
    as the boolean it was converted to; the default is displayed as [y]
    only when it is [True]. *)
Theorem prompt_yes_no_answers :
  forall (v : variable) (d : value) (rest : list response) (tr : list event),
    let shown := VStr (match d with VBool true => "y" | _ => "n" end) in
    prompt_yes_no v d {| inputs := Enter :: rest; trace := tr |}
    = Ok (d, {| inputs := rest;
                trace := (tr ++ [Prompted (prompt v) shown (hide_input v) BOOL])%list |})
    /\ forall b,
         prompt_yes_no v d {| inputs := Typed (VBool b) :: rest; trace := tr |}
         = Ok (VBool b,
               {| inputs := rest;
                  trace := (tr ++ [Prompted (prompt v) shown (hide_input v) BOOL])%list |}).
Proof.
  intros v d rest tr. split.
  - destruct d as [| [|] | | | | | |]; reflexivity.
  - intros b. destruct d as [| [|] | | | | | |]; destruct b; reflexivity.
Qed.

(** X2: at a JSON prompt an empty line gives back the declared default
    unprocessed; a decoded answer is returned as it is, except that an
    answer equal to the text [default] is taken for the empty line and
    also gives the declared default. *)
Theorem prompt_json_answers :
  forall (v : variable) (d : value) (rest : list response) (tr : list event),
    let after :=
      {| inputs := rest;
         trace := (tr ++ [Prompted (prompt v) (VStr "default")
                                   (hide_input v) JSON])%list |} in
    prompt_json v d {| inputs := Enter :: rest; trace := tr |} = Ok (d, after)
    /\ (forall x, py_eq x (VStr "default") = false ->
                  prompt_json v d {| inputs := Typed x :: rest; trace := tr |}
                  = Ok (x, after))
    /\ prompt_json v d {| inputs := Typed (VStr "default") :: rest; trace := tr |}
       = Ok (d, after).
Proof.
  intros v d rest tr. repeat split.
  intros x Hx. unfold prompt_json, bind, click_prompt. simpl.
  rewrite Hx. reflexivity.
Qed.

Lemma prompt_json_answers_witness :
  prompt_json (Standin.variable_of "settings" "json" VNone EmptyString EmptyString None)
              (VDict [("debug", VBool false)])
              {| inputs := [Typed (VDict [("debug", VBool true)])]; trace := [] |}
  = Ok (VDict [("debug", VBool true)],
        {| inputs := [];
           trace := [Prompted (DEFAULT_PROMPT "settings") (VStr "default")
                              false JSON] |}).
Proof.
  apply (proj1 (proj2 (prompt_json_answers
           (Standin.variable_of "settings" "json" VNone EmptyString EmptyString None)
           (VDict [("debug", VBool false)]) [] []))).
  reflexivity.
Defined.




(** ** The validation loop *)

Section ValidationLoop.

Context {B : Builtins} {C : Collaborators}.

Lemma prompt_loop_rejections v p good rest :
  validate v = Some p ->
  re_match (fst p) (snd p) good = true ->
  forall bad fuel tr,
    Forall (fun s => re_match (fst p) (snd p) s = false) bad ->
    (List.length bad < fuel)%nat ->
    prompt_loop fuel prompt_string v
                {| inputs := (typed bad ++ Typed (VStr good) :: rest)%list;
                   trace := tr |}
    = Ok (VStr good,
          {| inputs := rest;
             trace := (tr ++ flat_map (fun _ => rejection v) bad ++ [asked v])%list |}).
Proof.
  intros Hv Hgood. induction bad as [|s bad IH]; intros fuel tr Hbad Hfuel.
  - destruct fuel as [|fuel]; [simpl in Hfuel; lia|].
    cbn [prompt_loop typed map app flat_map].
    unfold bind, prompt_string, click_prompt. cbn [read_answer inputs converts].
    rewrite Hv. unfold lift, validate_match. rewrite Hgood. reflexivity.
  - destruct fuel as [|fuel]; [simpl in Hfuel; lia|].
    inversion Hbad as [|? ? Hs Hrest]; subst.
    cbn [prompt_loop typed map app flat_map].
    unfold bind at 1, prompt_string, click_prompt.
    cbn [read_answer inputs converts trace].
    rewrite Hv. unfold bind at 1, lift, validate_match. rewrite Hs.
    unfold bind at 1, click_echo, emit. cbn [inputs trace].
    unfold bind at 1.
    assert (forall tr0,
              (if truthy (validation_msg v)
               then emit (Echoed (get (validation_msg v) EmptyString))
               else ret tt)
                {| inputs := (typed bad ++ Typed (VStr good) :: rest)%list;
                   trace := tr0 |}
              = Ok (tt, {| inputs := (typed bad ++ Typed (VStr good) :: rest)%list;
                           trace := (tr0 ++ if truthy (validation_msg v)
                                            then [Echoed (get (validation_msg v) EmptyString)]
                                            else [])%list |})) as Hmsg.
    { intros tr0. destruct (truthy (validation_msg v)); unfold emit, ret; simpl;
        [reflexivity|now rewrite app_nil_r]. }
    fold (typed bad). rewrite Hmsg.
    rewrite IH by (auto; simpl in Hfuel; lia).
    unfold rejection, asked. repeat rewrite <- app_assoc. reflexivity.
Qed.

End ValidationLoop.

(** X4: for a text variable with a validation pattern and no choices,
    [prompt_variable] asks again after every answer that does not match,
    echoing the failure (and the validation message, if any) each time,
    and returns the first answer that matches; the description is echoed
    once, before the first prompt, in verbose mode only. *)
Theorem prompt_variable_repeats_until_valid :
  forall (B : Builtins) (C : Collaborators) (v : variable) (p : pattern)
         (verbose : bool) (bad : list string) (good : string)
         (rest : list response) (tr : list event),
    var_type v = "string" -> choices v = [] -> validate v = Some p ->
    Forall (fun s => re_match (fst p) (snd p) s = false) bad ->
    re_match (fst p) (snd p) good = true ->
    prompt_variable v verbose
                    {| inputs := (typed bad ++ Typed (VStr good) :: rest)%list;
                       trace := tr |}
    = Ok (VStr good,
          {| inputs := rest;
             trace := (tr
                       ++ (if verbose && truthy (description v)
                           then [Echoed (get (description v) EmptyString)]
                           else [])
                       ++ flat_map (fun _ => rejection v) bad
                       ++ [asked v])%list |}).
Proof.
  intros B C v p vb bad good rest tr Hty Hch Hv Hbad Hgood.
  unfold prompt_variable. rewrite Hch, Hty.
  change (PROMPTS "string") with (Some prompt_string).
  unfold bind at 1. unfold ret at 1.
  unfold bind at 1.
  destruct (vb && truthy (description v)).
  - unfold click_echo, emit. cbn [inputs trace].
    rewrite (prompt_loop_rejections v good rest Hv Hgood) by
        (auto; unfold typed; rewrite List.length_app, List.length_map; simpl; lia).
    repeat rewrite <- app_assoc. reflexivity.
  - cbn [ret inputs].
    rewrite (prompt_loop_rejections v good rest Hv Hgood) by
        (auto; unfold typed; rewrite List.length_app, List.length_map; simpl; lia).
    reflexivity.
Qed.

Lemma prompt_variable_repeats_until_valid_witness :
  @prompt_variable Standin.builtins Standin.collaborators Trial.slug true
                   {| inputs := typed ["ABC"; "a b"] ++ [Typed (VStr "abc")];
                      trace := [] |}
  = Ok (VStr "abc",
        {| inputs := [];
           trace := [Echoed "The slug"]
                    ++ flat_map (fun _ => rejection Trial.slug) ["ABC"; "a b"]
                    ++ [asked Trial.slug] |}).
Proof.
  apply (@prompt_variable_repeats_until_valid Standin.builtins
           Standin.collaborators Trial.slug ("abc", 0) true ["ABC"; "a b"] "abc"
           [] []); try reflexivity.
  repeat constructor.
Defined.


(** ** White space in requirements *)

Lemma space_not_comma c : is_space c = true -> Ascii.eqb c comma = false.
Proof.
  intros H. destruct (Ascii.eqb_spec c comma) as [->|]; [|reflexivity].
  discriminate.
Qed.

Lemma lstrip_space_app sp s : all_space sp = true -> lstrip (sp ++ s) = lstrip s.
Proof.
  unfold all_space. induction sp as [|c sp IH]; simpl; [reflexivity|].
  intros H. apply andb_true_iff in H. destruct H as [Hc Hsp].
  rewrite Hc. apply IH. exact Hsp.
Qed.

Lemma rstrip_space sp : all_space sp = true -> rstrip sp = EmptyString.
Proof.
  unfold all_space. induction sp as [|c sp IH]; simpl; [reflexivity|].
  intros H. apply andb_true_iff in H. destruct H as [Hc Hsp].
  rewrite (IH Hsp), Hc. reflexivity.
Qed.

Lemma rstrip_app_space s sp : all_space sp = true -> rstrip (s ++ sp) = rstrip s.
Proof.
  intros Hsp. induction s as [|c s IH]; simpl.
  - apply rstrip_space. exact Hsp.
  - rewrite IH. reflexivity.
Qed.

Lemma lstrip_suffix s : exists pre, all_space pre = true /\ s = pre ++ lstrip s.
Proof.
  induction s as [|c s [pre [Hp Hs]]]; simpl.
  - exists EmptyString. split; reflexivity.
  - destruct (is_space c) eqn:Ec.
    + exists (String c pre). split; [unfold all_space in *; simpl; now rewrite Ec|].
      simpl. now rewrite <- Hs.
    + exists EmptyString. split; reflexivity.
Qed.

Lemma lstrip_app_space s sp :
  all_space sp = true -> rstrip (lstrip (s ++ sp)) = rstrip (lstrip s).
Proof.
  intros Hsp. induction s as [|c s IH]; simpl.
  - destruct (lstrip_suffix sp) as [pre [Hpre E]].
    assert (all_space (lstrip sp) = true) as Hl.
    { unfold all_space in *. rewrite E in Hsp at 1.
      rewrite list_ascii_app, forallb_app in Hsp.
      apply andb_true_iff in Hsp. apply Hsp. }
    rewrite (rstrip_space _ Hl). reflexivity.
  - destruct (is_space c); [exact IH|].
    change (String c (s ++ sp)) with (String c s ++ sp).
    apply rstrip_app_space. exact Hsp.
Qed.

Lemma strip_padded sp1 s sp2 :
  all_space sp1 = true -> all_space sp2 = true ->
  strip (sp1 ++ s ++ sp2) = strip s.
Proof.
  intros H1 H2. unfold strip. rewrite (lstrip_space_app _ _ H1).
  apply lstrip_app_space. exact H2.
Qed.

Lemma split_on_space_prefix sp s :
  all_space sp = true ->
  exists w ws, split_on comma s = w :: ws
               /\ split_on comma (sp ++ s) = (sp ++ w) :: ws.
Proof.
  unfold all_space. induction sp as [|c sp IH]; simpl; intros H.
  - destruct (split_on comma s) as [|w ws] eqn:E.
    + exfalso. exact (split_on_nonempty _ _ E).
    + exists w, ws. auto.
  - apply andb_true_iff in H. destruct H as [Hc Hsp].
    destruct (IH Hsp) as (w & ws & E1 & E2).
    rewrite (space_not_comma _ Hc), E2. exists w, ws. auto.
Qed.

Lemma split_on_space_only sp :
  all_space sp = true -> split_on comma sp = [sp].
Proof.
  unfold all_space. induction sp as [|c sp IH]; simpl; intros H; [reflexivity|].
  apply andb_true_iff in H. destruct H as [Hc Hsp].
  now rewrite (space_not_comma _ Hc), (IH Hsp).
Qed.

Lemma split_on_space_suffix sp :
  all_space sp = true ->
  forall s, exists ws w, split_on comma s = (ws ++ [w])%list
                         /\ split_on comma (s ++ sp) = (ws ++ [(w ++ sp)%string])%list.
Proof.
  intros Hsp. induction s as [|c s (ws & w & E1 & E2)].
  - exists [], EmptyString. simpl. split; [reflexivity|].
    apply split_on_space_only. exact Hsp.
  - simpl. destruct (Ascii.eqb c comma).
    + exists (EmptyString :: ws), w. rewrite E1, E2. split; reflexivity.
    + rewrite E1, E2. destruct ws as [|w0 ws]; simpl.
      * exists [], (String c w). split; reflexivity.
      * exists (String c w0 :: ws), w. split; reflexivity.
Qed.

(** X5: white space before and after a comma of a requirement is
    ignored, as in the docstring's own example [">3, <4"]: any run of
    the characters [str.strip] removes, U+0085 and the no-break space
    U+00A0 among them. *)
Theorem requirement_ignores_space_around_commas :
  forall (version : Type) (parse : string -> option version)
         (cmp : version -> version -> comparison)
         (a b sp1 sp2 pkg : string),
    all_space sp1 = true -> all_space sp2 = true ->
    validate_requirement parse cmp (a ++ sp1 ++ "," ++ sp2 ++ b) pkg
    = validate_requirement parse cmp (a ++ "," ++ b) pkg.
Proof.
  intros version parse cmp a b sp1 sp2 pkg H1 H2.
  unfold validate_requirement.
  change (a ++ "," ++ b) with (a ++ String comma b).
  replace (a ++ sp1 ++ "," ++ sp2 ++ b) with ((a ++ sp1) ++ String comma (sp2 ++ b)).
  2:{ clear. induction a as [|c a IH]; simpl; [|now rewrite IH].
      induction sp1 as [|c sp1 IH]; simpl; [reflexivity|now rewrite IH]. }
  rewrite !split_on_app, !map_app.
  destruct (split_on_space_suffix sp1 H1 a) as (ws & w & E1 & E2).
  destruct (split_on_space_prefix sp2 b H2) as (w' & ws' & E3 & E4).
  rewrite E1, E2, E3, E4, !map_app. simpl.
  assert (strip (w ++ sp1) = strip w) as ->
      by (exact (strip_padded EmptyString w sp1 eq_refl H1)).
  assert (strip (sp2 ++ w') = strip w') as ->.
  { rewrite <- (strip_padded sp2 w' EmptyString H2 eq_refl).
    f_equal. f_equal. clear.
    induction w' as [|c w IH]; simpl; [reflexivity|now rewrite <- IH]. }
  reflexivity.
Qed.

Lemma requirement_ignores_space_around_commas_witness :
  satisfies (">=1.0" ++ Trial.nbsp ++ "," ++ "  " ++ "<2.0") "1.5.0"
  = satisfies (">=1.0" ++ "," ++ "<2.0") "1.5.0".
Proof.
  apply (@requirement_ignores_space_around_commas _ Release.parse Release.compare
           ">=1.0" "<2.0" Trial.nbsp "  " "1.5.0"); reflexivity.
Defined.


(** ** More on the construction of a [Variable] *)

Lemma REGEX_COMPILE_FLAGS_disjoint n n' f g :
  REGEX_COMPILE_FLAGS n = Some f -> REGEX_COMPILE_FLAGS n' = Some g ->
  n <> n' -> Z.land g f = 0.
Proof.
  unfold REGEX_COMPILE_FLAGS. intros Hf Hg Hne.
  repeat match type of Hf with
         | context [String.eqb n ?s] => destruct (String.eqb_spec n s); subst
         end; inversion Hf; subst;
    repeat match type of Hg with
           | context [String.eqb n' ?s] => destruct (String.eqb_spec n' s); subst
           end; inversion Hg; subst; try reflexivity; congruence.
Qed.

Lemma REGEX_COMPILE_FLAGS_nonzero n f :
  REGEX_COMPILE_FLAGS n = Some f -> f <> 0.
Proof.
  unfold REGEX_COMPILE_FLAGS.
  repeat match goal with
         | |- context [String.eqb n ?s] => destruct (String.eqb n s)
         end; intros H; inversion H; subst; discriminate.
Qed.

Lemma lor_land_same a f : Z.lor (Z.land a f) f = f.
Proof.
  apply Z.bits_inj'. intros k Hk.
  rewrite Z.lor_spec, Z.land_spec.
  destruct (Z.testbit a k), (Z.testbit f k); reflexivity.
Qed.

Lemma fold_flags_bits names :
  forall acc z,
    fold_flags names acc = Ok z ->
    forall n f, REGEX_COMPILE_FLAGS n = Some f ->
                (Z.land z f = f <-> Z.land acc f = f \/ In n names).
Proof.
  induction names as [|m names IH]; intros acc z H n f Hf; simpl in H.
  - inversion H; subst. simpl. tauto.
  - destruct (REGEX_COMPILE_FLAGS m) as [g|] eqn:Hg; [|discriminate].
    rewrite (IH _ _ H n f Hf). simpl.
    rewrite Z.land_lor_distr_l.
    destruct (String.eqb_spec m n) as [->|Hne].
    + rewrite Hf in Hg. inversion Hg; subst.
      rewrite Z.land_diag, lor_land_same. tauto.
    + assert (n <> m) as Hne' by congruence.
      rewrite (REGEX_COMPILE_FLAGS_disjoint Hf Hg Hne'), Z.lor_0_r. tauto.
Qed.

Lemma fold_flags_permutation names names' :
  Permutation names names' ->
  forall acc z, fold_flags names acc = Ok z -> fold_flags names' acc = Ok z.
Proof.
  induction 1 as [|x l l' _ IH|x y l|l l' l'' _ IH1 _ IH2]; intros acc z H.
  - exact H.
  - simpl in *. destruct (REGEX_COMPILE_FLAGS x); [apply IH; exact H|exact H].
  - simpl in *.
    destruct (REGEX_COMPILE_FLAGS y) as [g|]; [|discriminate].
    destruct (REGEX_COMPILE_FLAGS x) as [f|]; [|discriminate].
    rewrite <- Z.lor_assoc, (Z.lor_comm f g), Z.lor_assoc. exact H.
  - apply IH2. apply IH1. exact H.
Qed.

Section MoreVariableFacts.

Context {C : Collaborators}.

Lemma Variable_init_validated nm ty i v :
  Variable_init nm ty i = Ok v ->
  truthy (info_validation i) = true ->
  ty = "string"
  /\ fold_flags (get (info_validation_flags i) []) 0 = Ok (validation_flags v)
  /\ re_compile (get (info_validation i) EmptyString) (validation_flags v) = None
  /\ validate v = Some (get (info_validation i) EmptyString, validation_flags v).
Proof.
  unfold Variable_init. intros H Hv. rewrite Hv in H.
  destruct (_ && _ && negb _); [discriminate|].
  destruct (fold_flags _ 0) as [z|]; simpl in H; [|discriminate].
  unfold compile_validation in H.
  destruct (re_compile _ z) as [e|] eqn:Ec; simpl in H.
  { destruct e; discriminate. }
  destruct (String.eqb_spec ty "string"); simpl in H; [|discriminate].
  inversion H; subst; simpl. auto.
Qed.

Lemma Variable_init_prompt_user nm ty i v :
  Variable_init nm ty i = Ok v ->
  prompt_user v = if startswith "_" nm then false
                  else get (info_prompt_user i) true.
Proof.
  unfold Variable_init.
  destruct (_ && _ && negb _); [discriminate|].
  destruct (truthy (info_validation i)).
  - destruct (fold_flags _ 0) as [z|]; simpl; [|discriminate].
    destruct (compile_validation _ z) as [p|]; simpl; [|discriminate].
    destruct (negb _); [discriminate|].
    intros H; inversion H; subst; reflexivity.
  - intros H; inversion H; subst; reflexivity.
Qed.

Lemma construct_variables_raises pre d rest e :
  Forall (fun x => exists v, Variable_init (decl_name x) (decl_type x)
                                           (decl_info x) = Ok v) pre ->
  Variable_init (decl_name d) (decl_type d) (decl_info d) = Raise e ->
  construct_variables (pre ++ d :: rest) = Raise e.
Proof.
  intros Hpre Hd. induction pre as [|x pre IH]; simpl.
  - rewrite Hd. reflexivity.
  - inversion Hpre as [|? ? [v Hv] Hrest]; subst.
    rewrite Hv, (IH Hrest). reflexivity.
Qed.

Lemma construct_variables_some_raises decls d e :
  In d decls ->
  Variable_init (decl_name d) (decl_type d) (decl_info d) = Raise e ->
  exists e', construct_variables decls = Raise e'.
Proof.
  intros Hin Hd. induction decls as [|x decls IH]; [contradiction|].
  simpl. destruct (Variable_init (decl_name x) _ _) as [v|e0] eqn:Ex;
    [|exists e0; reflexivity].
  destruct Hin as [->|Hin]; [congruence|].
  destruct (IH Hin) as [e' He']. rewrite He'. exists e'. reflexivity.
Qed.

End MoreVariableFacts.

(** X6: a validation pattern on a variable whose type is not [string]
    never yields a variable: the constructor always raises, and when the
    choices, the flag names and the pattern are in order the error is the
    one about regex validation on non-string input. *)
Theorem validation_requires_string_type :
  forall (C : Collaborators) (nm ty : string) (i : info),
    truthy (info_validation i) = true -> ty <> "string" ->
    (exists e, Variable_init nm ty i = Raise e)
    /\ (forall z,
          choice_mismatch i = false ->
          fold_flags (get (info_validation_flags i) []) 0 = Ok z ->
          re_compile (get (info_validation i) EmptyString) z = None ->
          Variable_init nm ty i = Raise non_string_error).
Proof.
  intros C nm ty i Hv Hty. split.
  - destruct (Variable_init nm ty i) as [v|e] eqn:E; [|eauto].
    apply Variable_init_validated in E; [|exact Hv]. destruct E as [E _].
    contradiction.
  - intros z Hm Hf Hc. unfold Variable_init, choice_mismatch in *.
    rewrite Hm, Hv, Hf. simpl. unfold compile_validation. rewrite Hc. simpl.
    destruct (String.eqb_spec ty "string"); [contradiction|reflexivity].
Qed.

Lemma validation_requires_string_type_witness :
  @Variable_init Standin.collaborators "port" "int"
                 (with_validation "^[0-9]+$" ["ascii"])
  = Raise non_string_error.
Proof.
  apply (proj2 (@validation_requires_string_type Standin.collaborators
                  "port" "int" (with_validation "^[0-9]+$" ["ascii"])
                  eq_refl ltac:(discriminate)) re_ASCII);
    reflexivity.
Defined.

(** X7: in a constructed variable with a validation pattern, the flag set
    the pattern was compiled with has the bit of a flag of the table
    exactly when the name of that flag is among the declared flag names;
    the order and the repetition of the names do not matter. *)
Theorem validation_flags_are_the_named_ones :
  forall (C : Collaborators) (nm ty : string) (i : info) (v : variable),
    Variable_init nm ty i = Ok v ->
    truthy (info_validation i) = true ->
    validate v = Some (get (info_validation i) EmptyString, validation_flags v)
    /\ (forall n f, REGEX_COMPILE_FLAGS n = Some f ->
                    (Z.land (validation_flags v) f = f
                     <-> In n (get (info_validation_flags i) [])))
    /\ (forall names',
          Permutation (get (info_validation_flags i) []) names' ->
          fold_flags names' 0 = Ok (validation_flags v)).
Proof.
  intros C nm ty i v H Hv.
  destruct (Variable_init_validated _ _ _ H Hv) as (_ & Hf & _ & Hval).
  split; [exact Hval|]. split.
  - intros n f Hn. rewrite (fold_flags_bits _ _ Hf n Hn). rewrite Z.land_0_l.
    pose proof (REGEX_COMPILE_FLAGS_nonzero _ Hn). intuition congruence.
  - intros names' Hp. exact (fold_flags_permutation Hp _ Hf).
Qed.

Lemma validation_flags_are_the_named_ones_witness :
  exists v,
    @Variable_init Standin.collaborators "slug" "string"
                   (with_validation "^[a-z]+$" ["dotall"; "ignorecase"; "dotall"])
    = Ok v
    /\ Z.land (validation_flags v) re_IGNORECASE = re_IGNORECASE
    /\ Z.land (validation_flags v) re_VERBOSE <> re_VERBOSE.
Proof.
  eexists. split; [reflexivity|].
  destruct (@validation_flags_are_the_named_ones Standin.collaborators
              "slug" "string"
              (with_validation "^[a-z]+$" ["dotall"; "ignorecase"; "dotall"])
              _ eq_refl eq_refl) as (_ & Hbits & _).
  split.
  - apply (Hbits "ignorecase" re_IGNORECASE eq_refl). simpl. auto.
  - intros E. apply (Hbits "verbose" re_VERBOSE eq_refl) in E. simpl in E.
    intuition discriminate.
Defined.


(** ** More on the walk *)

Section MoreWalkFacts.

Context {B : Builtins} {C : Collaborators}.

Lemma asks_nothing_bind_ok {A A'} (m : M A) (k : A -> M A') :
  asks_nothing m ->
  (forall a w w1, m w = Ok (a, w1) -> asks_nothing (k a)) ->
  asks_nothing (bind m k).
Proof.
  intros Hm Hk w b w' H. bind_inv H as a w1 H1.
  destruct (Hm _ _ _ H1) as [e1 [-> N1]].
  destruct (Hk a _ _ H1 _ _ _ H) as [e2 [-> N2]].
  exists (e1 ++ e2)%list. rewrite logged_logged. split; [reflexivity|].
  rewrite existsb_app, N1, N2. reflexivity.
Qed.

Lemma asks_nothing_render_default c v : asks_nothing (render_default c v).
Proof.
  unfold render_default. destruct (default v);
    try apply asks_nothing_ret.
  apply asks_nothing_bind; [apply asks_nothing_render|].
  intros r. apply asks_nothing_ret.
Qed.

Lemma asks_nothing_process_unprompted ni vb v c :
  prompt_user v = false -> asks_nothing (process ni vb v c).
Proof.
  intros Hp. unfold process.
  apply asks_nothing_bind_ok; [apply asks_nothing_render_default|].
  intros v1 w w1 Hv1. apply render_default_ok in Hv1. destruct Hv1 as (E & _ & _).
  assert (prompt_user v1 = false) as Hp1 by (rewrite E; exact Hp).
  apply asks_nothing_bind.
  { unfold raw_value. rewrite Hp1, orb_true_r. apply asks_nothing_ret. }
  intros raw. apply asks_nothing_bind.
  { unfold lookup_deserializer.
    destruct (DESERIALIZERS (var_type v1));
      [apply asks_nothing_ret|apply asks_nothing_raise]. }
  intros f. apply asks_nothing_bind; [apply asks_nothing_lift|].
  intros stored. apply asks_nothing_bind.
  { destruct vb; [apply asks_nothing_echo|apply asks_nothing_ret]. }
  intros u. apply asks_nothing_ret.
Qed.

Lemma asks_nothing_step_unprompted ni vb v st :
  prompt_user v = false -> asks_nothing (step ni vb v st).
Proof.
  intros Hp. unfold step, skip_if_holds, do_if_fails.
  destruct (awaits_other v st); [apply asks_nothing_ret|].
  apply asks_nothing_bind.
  { destruct (negb _); [|apply asks_nothing_ret].
    apply asks_nothing_bind; [apply asks_nothing_render|].
    intros r. apply asks_nothing_ret. }
  intros [|]; [apply asks_nothing_ret|].
  apply asks_nothing_bind.
  { destruct (negb _); [|apply asks_nothing_ret].
    apply asks_nothing_bind; [apply asks_nothing_render|].
    intros r. apply asks_nothing_ret. }
  intros [|]; [apply asks_nothing_ret|].
  apply asks_nothing_bind;
    [apply asks_nothing_process_unprompted; exact Hp|].
  intros st'. apply asks_nothing_ret.
Qed.

Lemma next_target_after v c : next_target v c = target_after v c.
Proof.
  unfold next_target, target_after.
  destruct (ctx_get (name v) c) as [[| [|] | | | | | |]|];
    rewrite ?andb_false_r, ?andb_true_r;
    destruct (truthy (if_yes_skip_to v)), (truthy (if_no_skip_to v));
    reflexivity.
Qed.

Lemma DESERIALIZERS_unknown ty :
  ~ In ty supported_types -> DESERIALIZERS ty = None.
Proof.
  unfold DESERIALIZERS, supported_types. simpl. intros H.
  repeat match goal with
         | |- context [String.eqb ty ?s] =>
             destruct (String.eqb_spec ty s); [subst; exfalso; apply H; tauto|]
         end.
  reflexivity.
Qed.

(** The keys of the walk are declared names, in declared order. *)
Lemma walk_keys_subseq ni vb vars :
  forall st w st' w',
    NoDup (keys (ctx st) ++ map name vars) ->
    walk ni vb vars st w = Ok (st', w') ->
    exists kept, subseq kept (map name vars)
                 /\ keys (ctx st') = (keys (ctx st) ++ kept)%list.
Proof.
  induction vars as [|v vars IH]; intros st w st' w' Hnd H.
  - apply ret_ok in H. destruct H as [<- _]. exists []. split; [constructor|].
    now rewrite app_nil_r.
  - rewrite walk_cons in H.
    destruct (step ni vb v st w) as [[[o st1] w1]|e] eqn:Es; [|discriminate].
    simpl in H. apply step_ok in Es.
    assert (NoDup (keys (ctx st) ++ map name vars)) as Hnd'
        by (simpl in Hnd; apply NoDup_remove_1 in Hnd; exact Hnd).
    destruct Es as [(_ & -> & _)|[(_ & -> & _)|(_ & _ & w0 & Hp)]].
    + destruct (IH _ _ _ _ Hnd' H) as (kept & Hs & Hk).
      exists kept. split; [constructor; exact Hs|exact Hk].
    + destruct (IH (cleared (ctx st)) _ _ _ Hnd' H) as (kept & Hs & Hk).
      exists kept. split; [constructor; exact Hs|exact Hk].
    + apply process_ok in Hp.
      destruct Hp as (d & raw & f & stored & _ & _ & _ & _ & Hctx & _).
      assert (keys (ctx st1) = (keys (ctx st) ++ [name v])%list) as Hk1.
      { rewrite Hctx, keys_ctx_set.
        destruct (mem (name v) (keys (ctx st))) eqn:Em; [|reflexivity].
        exfalso. apply mem_In in Em. simpl in Hnd.
        apply NoDup_remove_2 in Hnd. apply Hnd.
        apply in_or_app. left. exact Em. }
      assert (NoDup (keys (ctx st1) ++ map name vars)) as Hnd1
          by (rewrite Hk1, <- app_assoc; exact Hnd).
      destruct (IH st1 w1 st' w' Hnd1 H) as (kept & Hs & Hk).
      exists (name v :: kept). split; [constructor; exact Hs|].
      rewrite Hk, Hk1, <- app_assoc. reflexivity.
Qed.

End MoreWalkFacts.

(** X9: after a variable has been processed the pending name is read off
    the stored value alone: [if_yes_skip_to] when the value is the boolean
    [True], [if_no_skip_to] when it is the boolean [False], nothing for any
    other value, whatever the type of the variable.  With [if_no_skip_to]
    and a stored [False] the walk jumps: the variables before the first one
    of that name are passed over. *)
Theorem skip_to_follows_stored_boolean :
  forall (B : Builtins) (C : Collaborators) (no_input verbose : bool)
         (V : variable) (st st1 : loop_state) (w w1 : world),
    step no_input verbose V st w = Ok ((processed, st1), w1) ->
    skip_to_variable_name st1 = target_after V (ctx st1)
    /\ forall target mid rest,
         if_no_skip_to V = Some target -> target <> EmptyString ->
         ctx_get (name V) (ctx st1) = Some (VBool false) ->
         ~ In target (map name mid) ->
         walk no_input verbose (V :: mid ++ rest) st w
         = walk no_input verbose (V :: rest) st w.
Proof.
  intros B C ni vb V st st1 w w1 Hstep.
  assert (skip_to_variable_name st1 = target_after V (ctx st1)) as Hn.
  { destruct (step_processed _ _ _ _ _ Hstep) as [w0 Hp].
    apply process_ok in Hp.
    destruct Hp as (d & raw & f & stored & _ & _ & _ & _ & _ & Hn).
    rewrite Hn. apply next_target_after. }
  split; [exact Hn|].
  intros target mid rest Hno Ht Hfalse Hmid.
  rewrite !(walk_cons _ _ V), Hstep. simpl snd.
  apply walk_awaiting with (t := target); auto.
  rewrite Hn. unfold target_after. rewrite Hfalse, Hno. simpl.
  destruct (String.eqb_spec target EmptyString); [contradiction|reflexivity].
Qed.

(** X10: reaching the pending name clears it even when the variable of
    that name is itself omitted by its [skip_if]: its round stores
    nothing and leaves nothing pending, and the variables declared after
    it are walked as from a loop with no jump under way. *)
Theorem omitted_target_still_ends_the_jump :
  forall (B : Builtins) (C : Collaborators) (no_input verbose : bool)
         (X : variable) (post : list variable) (st : loop_state) (w : world),
    skip_to_variable_name st = Some (name X) ->
    skip_if_fires X (ctx st) ->
    step no_input verbose X st w
    = Ok ((skipped_by_skip_if, cleared (ctx st)),
          logged w [Rendered (skip_if X)])
    /\ walk no_input verbose (X :: post) st w
       = walk no_input verbose post (cleared (ctx st))
              (logged w [Rendered (skip_if X)]).
Proof.
  intros B C ni vb X post st w Hp Hs.
  assert (step ni vb X st w
          = Ok ((skipped_by_skip_if, cleared (ctx st)),
                logged w [Rendered (skip_if X)])) as Hstep.
  { unfold step.
    assert (awaits_other X st = false) as ->.
    { unfold awaits_other. rewrite Hp. simpl. rewrite String.eqb_refl.
      apply andb_false_r. }
    unfold bind at 1. rewrite skip_if_holds_fires by exact Hs. reflexivity. }
  split; [exact Hstep|].
  rewrite walk_cons, Hstep. reflexivity.
Qed.

(** X11: with distinct declared names, whatever is skipped or jumped over,
    the keys of the returned context are declared names that keep their
    declared order, followed by those of the two copied keys that are not
    already among them. *)
Theorem context_keys_are_declared_names_in_order :
  forall (B : Builtins) (C : Collaborators) (j : json_object)
         (no_input verbose : bool) (w : world) (c : context) (w' : world),
    NoDup (declared_names j) ->
    load_context j no_input verbose w = Ok (c, w') ->
    exists kept,
      subseq kept (declared_names j)
      /\ keys c = (kept ++ appended_keys kept)%list.
Proof.
  intros B C j ni vb w c w' Hnd H.
  unfold load_context in H.
  bind_inv H as u w1 H1. bind_inv H as t w2 H2.
  apply lift_ok in H2. destruct H2 as [Ht _].
  bind_inv H as st w3 H3.
  unfold CookiecutterTemplate_init in Ht.
  destruct (match json_requires j with Some (_ :: _ as reqs) => _ | _ => Ok tt end);
    simpl in Ht; [|discriminate].
  destruct (construct_variables _) as [vars|] eqn:Ev; simpl in Ht; [|discriminate].
  inversion Ht; subst t; clear Ht. simpl in H3.
  apply construct_variables_fields in Ev. destruct Ev as [Hnames _].
  apply walk_keys_subseq in H3; [|simpl; rewrite Hnames; exact Hnd].
  destruct H3 as (kept & Hs & Hk). simpl in Hk. rewrite Hnames in Hs.
  exists kept. split; [exact Hs|].
  unfold finish in H. bind_inv H as u2 w4 H4.
  apply ret_ok in H. destruct H as [<- _].
  rewrite !keys_ctx_set, !Hk. unfold appended_keys. simpl.
  destruct (mem "_extensions" kept) eqn:E1; simpl.
  - rewrite app_nil_r. destruct (mem "_jinja2_env_vars" kept); reflexivity.
  - assert (mem "_jinja2_env_vars" (kept ++ ["_extensions"])
            = mem "_jinja2_env_vars" kept) as ->.
    { unfold mem. rewrite existsb_app. simpl. now rewrite !orb_false_r. }
    destruct (mem "_jinja2_env_vars" kept); simpl;
      [now rewrite app_nil_r|now rewrite <- app_assoc].
Qed.


(** ** Defaults, types and what aborts a run *)

Section DefaultFacts.

Context {B : Builtins} {C : Collaborators}.

(** A run of [process] that takes the default, step by step. *)
Lemma process_default_run ni vb v c w :
  ni || negb (prompt_user v) = true ->
  process ni vb v c w =
  match default v with
  | VStr text =>
      match template_render text c with
      | Ok r =>
          match DESERIALIZERS (var_type v) with
          | Some f =>
              match f (VStr r) with
              | Ok stored =>
                  Ok ({| ctx := ctx_set (name v) stored c;
                         skip_to_variable_name :=
                           next_target v (ctx_set (name v) stored c) |},
                      logged w (Rendered text
                                :: if vb then [Echoed (dashes terminal_width)]
                                   else []))
              | Raise e => Raise e
              end
          | None => Raise (KeyError (var_type v))
          end
      | Raise e => Raise e
      end
  | d =>
      match DESERIALIZERS (var_type v) with
      | Some f =>
          match f d with
          | Ok stored =>
              Ok ({| ctx := ctx_set (name v) stored c;
                     skip_to_variable_name :=
                       next_target v (ctx_set (name v) stored c) |},
                  logged w (if vb then [Echoed (dashes terminal_width)] else []))
          | Raise e => Raise e
          end
      | None => Raise (KeyError (var_type v))
      end
  end.
Proof.
  intros Hni.
  unfold process, render_default, raw_value, lookup_deserializer,
    jinja_render, click_echo, bind, ret, lift, raise, emit, logged.
  destruct (default v) as [|b|z|fl|text|l|d|u] eqn:Ed;
    cbn [prompt_user set_default default var_type name inputs trace];
    rewrite ?Hni, ?Ed.
  all: try (destruct (DESERIALIZERS (var_type v)) as [f|]; [|reflexivity];
            match goal with |- context [f ?d] => destruct (f d) end;
            [|reflexivity];
            destruct vb; cbn [inputs trace];
            rewrite ?app_nil_r; try reflexivity; destruct w; reflexivity).
  destruct (template_render text c) as [r|e]; [|reflexivity].
  cbn [prompt_user set_default default var_type name inputs trace].
  rewrite Hni.
  destruct (DESERIALIZERS (var_type v)) as [f|]; [|reflexivity].
  destruct (f (VStr r)); [|reflexivity].
  destruct vb; cbn [inputs trace]; rewrite <- ?app_assoc; reflexivity.
Qed.

(** Without a prompt the interactive round is the round of
    [no_input]. *)
Lemma step_unprompted_same vb v st w :
  prompt_user v = false ->
  step false vb v st w = step true vb v st w.
Proof.
  intros Hp. unfold step. destruct (awaits_other v st); [reflexivity|].
  apply bind_ext. intros s1 w1 _. destruct s1; [reflexivity|].
  apply bind_ext. intros s2 w2 _. destruct s2; [reflexivity|].
  unfold bind.
  rewrite (@process_default_run false vb v (ctx st) w2)
    by (rewrite Hp; reflexivity).
  rewrite (@process_default_run true vb v (ctx st) w2) by reflexivity.
  reflexivity.
Qed.

End DefaultFacts.

(** X8: a variable whose name starts with an underscore is constructed
    with [prompt_user] false whatever the declaration says (any other
    name keeps the declared [prompt_user], true when none is declared),
    and a variable with [prompt_user] false, whatever its name, is never
    prompted for: its round of the loop reads no input and logs no
    prompt, and in interactive mode it is the round of [no_input]. *)
Theorem private_variables_are_not_prompted :
  forall (B : Builtins) (C : Collaborators),
    (forall nm ty i v,
        Variable_init nm ty i = Ok v ->
        prompt_user v = if startswith "_" nm then false
                        else get (info_prompt_user i) true)
    /\ (forall v verbose st,
          prompt_user v = false ->
          (forall no_input, asks_nothing (step no_input verbose v st))
          /\ (forall w, step false verbose v st w = step true verbose v st w)).
Proof.
  intros B C. split.
  - intros nm ty i v H. exact (Variable_init_prompt_user _ _ _ H).
  - intros v vb st Hp. split.
    + intros ni. apply asks_nothing_step_unprompted. exact Hp.
    + intros w. apply step_unprompted_same. exact Hp.
Qed.

(** X12: a [boolean] or [yes_no] variable whose default is text takes the
    truth value of the rendered text when the default is used: every
    non-empty text, [False] included, is stored as [True], and only the
    empty text as [False]. *)
Theorem text_default_of_a_boolean_is_its_truthiness :
  forall (B : Builtins) (C : Collaborators) (no_input verbose : bool)
         (v : variable) (text r : string) (c : context) (w : world),
    var_type v = "boolean" \/ var_type v = "yes_no" ->
    default v = VStr text ->
    no_input || negb (prompt_user v) = true ->
    template_render text c = Ok r ->
    exists st' w',
      process no_input verbose v c w = Ok (st', w')
      /\ ctx st' = ctx_set (name v) (VBool (negb (String.eqb r EmptyString))) c.
Proof.
  intros B C ni vb v text r c w Hty Hd Hni Hr.
  rewrite (@process_default_run _ _ ni vb v c w Hni), Hd, Hr.
  destruct Hty as [-> | ->]; simpl; eexists; eexists; split; reflexivity.
Qed.

Lemma text_default_of_a_boolean_is_its_truthiness_witness :
  exists st' w',
    @process Standin.builtins Standin.collaborators true false
             (Standin.variable_of "open_source" "boolean" (VStr "False")
                                  EmptyString EmptyString None)
             [] (Standin.quiet [])
    = Ok (st', w')
    /\ ctx st' = [("open_source", VBool true)].
Proof.
  exact (@text_default_of_a_boolean_is_its_truthiness Standin.builtins
           Standin.collaborators true false
           (Standin.variable_of "open_source" "boolean" (VStr "False")
                                EmptyString EmptyString None)
           "False" "False" [] (Standin.quiet [])
           (or_introl eq_refl) eq_refl eq_refl eq_refl).
Defined.

(** X13: a variable without a default, when its default is used: type
    [string] stores the text [None], [boolean] and [yes_no] store [False],
    [json] stores [None], and [int], [float] and [uuid] abort the run with
    an error. *)
Theorem missing_default_by_type :
  forall (B : Builtins) (C : Collaborators) (no_input verbose : bool)
         (v : variable) (c : context) (w : world),
    default v = VNone ->
    no_input || negb (prompt_user v) = true ->
    let stores x :=
      exists st' w', process no_input verbose v c w = Ok (st', w')
                     /\ ctx st' = ctx_set (name v) x c in
    (var_type v = "string" -> stores (VStr "None"))
    /\ (var_type v = "boolean" \/ var_type v = "yes_no" -> stores (VBool false))
    /\ (var_type v = "json" -> stores VNone)
    /\ (var_type v = "int" \/ var_type v = "float" ->
        process no_input verbose v c w = Raise TypeError)
    /\ (var_type v = "uuid" ->
        process no_input verbose v c w = Raise AttributeError).
Proof.
  intros B C ni vb v c w Hd Hni stores. unfold stores.
  rewrite (@process_default_run _ _ ni vb v c w Hni), Hd.
  repeat split.
  - intros ->. simpl. eexists; eexists; split; reflexivity.
  - intros [-> | ->]; simpl; eexists; eexists; split; reflexivity.
  - intros ->. simpl. eexists; eexists; split; reflexivity.
  - intros [-> | ->]; reflexivity.
  - intros ->. reflexivity.
Qed.

Lemma missing_default_by_type_witness :
  @process Standin.builtins Standin.collaborators true false
           (Standin.variable_of "port" "int" VNone EmptyString EmptyString None)
           [] (Standin.quiet [])
  = Raise TypeError.
Proof.
  apply (proj1 (proj2 (proj2 (proj2
    (@missing_default_by_type Standin.builtins Standin.collaborators true false
       (Standin.variable_of "port" "int" VNone EmptyString EmptyString None)
       [] (Standin.quiet []) eq_refl eq_refl))))).
  left. reflexivity.
Defined.

(** X14: a type that is not one of the seven supported ones is not
    noticed by the constructor (without choices and validation it
    constructs like any other), but no round that processes such a
    variable succeeds; when the default is used the round raises the
    [KeyError] of the type, after the default has been rendered. *)
Theorem unknown_type_fails_only_when_processed :
  forall (B : Builtins) (C : Collaborators) (nm ty : string) (i : info),
    ~ In ty supported_types ->
    (truthy (info_validation i) = false -> choice_mismatch i = false ->
     exists v, Variable_init nm ty i = Ok v /\ var_type v = ty)
    /\ (forall v, var_type v = ty ->
          (forall no_input verbose c w st' w',
              process no_input verbose v c w <> Ok (st', w'))
          /\ (forall no_input verbose c w d,
                no_input || negb (prompt_user v) = true ->
                rendered_default v c = Ok d ->
                process no_input verbose v c w = Raise (KeyError ty))).
Proof.
  intros B C nm ty i Hty. split.
  - intros Hv Hm.
    destruct (@Variable_init_unvalidated C nm ty i Hv Hm) as [v Hvv].
    exists v. tauto.
  - intros v Ev. split.
    + intros ni vb c w st' w' H. apply process_ok in H.
      destruct H as (d & raw & f & stored & _ & _ & Hf & _).
      rewrite Ev, (DESERIALIZERS_unknown Hty) in Hf. discriminate.
    + intros ni vb c w d Hni Hd.
      rewrite (@process_default_run _ _ ni vb v c w Hni).
      unfold rendered_default in Hd.
      rewrite Ev, (DESERIALIZERS_unknown Hty).
      destruct (default v); try reflexivity.
      destruct (template_render s c); [reflexivity|discriminate].
Qed.

Lemma unknown_type_fails_only_when_processed_witness :
  @process Standin.builtins Standin.collaborators true false
           (Standin.variable_of "when" "date" (VStr "today")
                                EmptyString EmptyString None)
           [] (Standin.quiet [])
  = Raise (KeyError "date").
Proof.
  refine (proj2 (proj2 (@unknown_type_fails_only_when_processed
            Standin.builtins Standin.collaborators "when" "date" no_info _)
            (Standin.variable_of "when" "date" (VStr "today")
                                 EmptyString EmptyString None) eq_refl)
            true false [] (Standin.quiet []) (VStr "today") eq_refl eq_refl).
  simpl. intuition discriminate.
Defined.

(** X15: whatever text the uuid deserializer accepts, what it returns
    has one shape: the 32 lower-case hexadecimal digits of a number below
    2^128, without dashes, braces or prefix, and those digits read back as
    that number. *)
Theorem deserialize_uuid_is_canonical :
  forall (B : Builtins) (v w : value),
    deserialize_uuid v = Ok w ->
    exists n,
      0 <= n < 2 ^ 128
      /\ w = VStr (uuid_hex n)
      /\ String.length (uuid_hex n) = 32%nat
      /\ is_hex_lower (uuid_hex n) = true
      /\ hex_value (uuid_hex n) = n.
Proof.
  intros B v w H. unfold deserialize_uuid in H.
  destruct (click_UUID v) as [[n|]|e] eqn:E; simpl in H; try discriminate.
  inversion H; subst; clear H.
  assert (0 <= n < 2 ^ 128) as Hn.
  { destruct v; simpl in E; try discriminate.
    destruct (uuid_UUID s) as [m|[]] eqn:Es; try discriminate.
    inversion E; subst. exact (uuid_UUID_range _ Es). }
  exists n. split; [exact Hn|]. split; [reflexivity|].
  split; [apply hex_fixed_length|]. split; [apply hex_fixed_lower|].
  unfold uuid_hex. rewrite hex_fixed_value.
  change (16 ^ Z.of_nat 32) with (2 ^ 128). apply Z.mod_small. exact Hn.
Qed.

Lemma deserialize_uuid_is_canonical_witness :
  exists n,
    0 <= n < 2 ^ 128
    /\ VStr "12345678123456781234567812abcdef" = VStr (uuid_hex n)
    /\ String.length (uuid_hex n) = 32%nat
    /\ is_hex_lower (uuid_hex n) = true
    /\ hex_value (uuid_hex n) = n.
Proof.
  apply (@deserialize_uuid_is_canonical Standin.builtins
           (VStr "urn:uuid:12345678-1234-5678-1234-567812abcdef")).
  vm_compute. reflexivity.
Defined.

(** X16: an unmet version requirement aborts [load_context] with an
    [AssertionError] before any variable is constructed: the [cookiecutter]
    requirement is checked first, the [python] one when the first is absent,
    empty or met. *)
Theorem unmet_requirement_aborts :
  forall (B : Builtins) (C : Collaborators) (j : json_object)
         (reqs : list (string * string)) (no_input verbose : bool) (w : world),
    schema_validate j = None ->
    json_requires j = Some reqs ->
    (forall r,
        assoc "cookiecutter" reqs = Some r -> r <> EmptyString ->
        validate_requirement version_parse version_compare r cookiecutter_version
        = Ok false ->
        load_context j no_input verbose w = Raise AssertionError)
    /\ (forall r,
          assert_requirement (assoc "cookiecutter" reqs) cookiecutter_version
          = Ok tt ->
          assoc "python" reqs = Some r -> r <> EmptyString ->
          validate_requirement version_parse version_compare r python_version
          = Ok false ->
          load_context j no_input verbose w = Raise AssertionError).
Proof.
  intros B C j reqs ni vb w Hs Hr.
  unfold load_context, CookiecutterTemplate_init. rewrite Hs, Hr.
  split.
  - intros r Ha Hne Hv. destruct reqs as [|q reqs]; [discriminate|].
    unfold assert_requirement at 1. rewrite Ha. cbn [truthy get].
    destruct (String.eqb_spec r EmptyString); [contradiction|].
    cbn [negb]. rewrite Hv. reflexivity.
  - intros r Hc Ha Hne Hv. destruct reqs as [|q reqs]; [discriminate|].
    rewrite Hc. unfold assert_requirement. rewrite Ha. cbn [truthy get].
    destruct (String.eqb_spec r EmptyString); [contradiction|].
    cbn [negb]. rewrite Hv. reflexivity.
Qed.

(** X17: variables are all constructed before the walk starts: when the
    declaration of any variable is refused, [load_context] raises without
    returning a context, even if that variable would have been skipped;
    with a valid document and no requirements the error is the one of the
    first refused declaration. *)
Theorem refused_declaration_aborts_the_run :
  forall (B : Builtins) (C : Collaborators) (j : json_object)
         (pre rest : list variable_decl) (d : variable_decl) (e : error)
         (no_input verbose : bool) (w : world),
    doc_variables (json_template j) = (pre ++ d :: rest)%list ->
    Variable_init (decl_name d) (decl_type d) (decl_info d) = Raise e ->
    (exists e', load_context j no_input verbose w = Raise e')
    /\ (schema_validate j = None -> json_requires j = None ->
        Forall (fun x => exists v, Variable_init (decl_name x) (decl_type x)
                                                 (decl_info x) = Ok v) pre ->
        load_context j no_input verbose w = Raise e).
Proof.
  intros B C j pre rest d e ni vb w Hdoc Hd. split.
  - assert (exists e', construct_variables (doc_variables (json_template j))
                       = Raise e') as [e' He'].
    { apply construct_variables_some_raises with (d := d) (e := e); auto.
      rewrite Hdoc. apply in_or_app. right. left. reflexivity. }
    unfold load_context, CookiecutterTemplate_init.
    destruct (schema_validate j) as [e0|]; [exists e0; reflexivity|].
    unfold bind at 1. cbn [ret]. unfold bind at 1, lift.
    rewrite He'.
    destruct (match json_requires j with Some (_ :: _ as reqs) => _ | _ => Ok tt end)
      as [u|e1]; simpl; eauto.
  - intros Hs Hr Hpre.
    unfold load_context, CookiecutterTemplate_init.
    rewrite Hs, Hr, Hdoc, (construct_variables_raises _ _ Hpre Hd). reflexivity.
Qed.


(** ** The statements above on concrete variables and documents *)

Lemma private_variables_are_not_prompted_witness :
  (exists v,
      @Variable_init Standin.collaborators "_year" "string" Trial.insisting
      = Ok v
      /\ prompt_user v = false)
  /\ @step Standin.builtins Standin.collaborators false false
           Trial.silent initial (Standin.quiet [Typed (VStr "us")])
     = Ok ((processed,
            {| ctx := [("region", VStr "eu")];
               skip_to_variable_name := None |}),
           {| inputs := [Typed (VStr "us")]; trace := [Rendered "eu"] |}).
Proof.
  destruct (@private_variables_are_not_prompted Standin.builtins
              Standin.collaborators) as [Hc Hs].
  split.
  - eexists. split; [vm_compute; reflexivity|].
    exact (Hc "_year" "string" Trial.insisting _ eq_refl).
  - refine (eq_trans
              (proj2 (Hs Trial.silent false initial eq_refl)
                     (Standin.quiet [Typed (VStr "us")])) _).
    vm_compute. reflexivity.
Defined.

Lemma skip_to_follows_stored_boolean_witness :
  @walk Standin.builtins Standin.collaborators true false
        [Trial.no_docker; Demo.database; Demo.license_] initial (Standin.quiet [])
  = @walk Standin.builtins Standin.collaborators true false
          [Trial.no_docker; Demo.license_] initial (Standin.quiet []).
Proof.
  refine (proj2
    (@skip_to_follows_stored_boolean Standin.builtins Standin.collaborators
       true false Trial.no_docker initial
       {| ctx := [("use_docker", VBool false)];
          skip_to_variable_name := Some "license" |}
       (Standin.quiet []) (Standin.quiet []) _)
    "license" [Demo.database] [Demo.license_] eq_refl _ eq_refl _).
  - vm_compute. reflexivity.
  - discriminate.
  - simpl. intros [H|[]]. discriminate.
Defined.

Lemma omitted_target_still_ends_the_jump_witness :
  @walk Standin.builtins Standin.collaborators true false
        [Demo.guarded; Demo.license_] Trial.image_pending (Standin.quiet [])
  = @walk Standin.builtins Standin.collaborators true false
          [Demo.license_] (cleared (ctx Trial.image_pending))
          (logged (Standin.quiet []) [Rendered (skip_if Demo.guarded)]).
Proof.
  refine (proj2
    (@omitted_target_still_ends_the_jump Standin.builtins Standin.collaborators
       true false Demo.guarded [Demo.license_] Trial.image_pending
       (Standin.quiet []) eq_refl _)).
  split; [discriminate|reflexivity].
Defined.

Lemma context_keys_are_declared_names_in_order_witness :
  exists kept,
    subseq kept ["use_docker"; "database"; "license"]
    /\ ["use_docker"; "license"; "_extensions"; "_jinja2_env_vars"]
       = (kept ++ appended_keys kept)%list.
Proof.
  refine (@context_keys_are_declared_names_in_order Standin.builtins
            Standin.collaborators Trial.jumpy true false (Standin.quiet [])
            [("use_docker", VBool true); ("license", VStr "MIT");
             ("_extensions", VList [VStr "jinja2_time.TimeExtension"]);
             ("_jinja2_env_vars", VNone)] _ _ _).
  - repeat constructor; simpl; intuition discriminate.
  - vm_compute. reflexivity.
Defined.

Lemma unmet_requirement_aborts_witness :
  @load_context Standin.builtins Standin.collaborators
                (Trial.requiring (Some [("cookiecutter", ">=3.0")])
                   [Standin.declare "port" "int" (Trial.validated "x")])
                true false (Standin.quiet [])
  = Raise AssertionError.
Proof.
  refine (proj1
    (@unmet_requirement_aborts Standin.builtins Standin.collaborators
       (Trial.requiring (Some [("cookiecutter", ">=3.0")])
          [Standin.declare "port" "int" (Trial.validated "x")])
       [("cookiecutter", ">=3.0")] true false (Standin.quiet [])
       eq_refl eq_refl) ">=3.0" eq_refl _ _).
  - discriminate.
  - vm_compute. reflexivity.
Defined.

Lemma refused_declaration_aborts_the_run_witness :
  @load_context Standin.builtins Standin.collaborators
                (Trial.requiring None
                   [Standin.declare "project" "string" (Standin.defaulting (VStr "demo"));
                    Standin.declare "port" "int" (Trial.validated "x")])
                true false (Standin.quiet [])
  = Raise non_string_error.
Proof.
  refine (proj2
    (@refused_declaration_aborts_the_run Standin.builtins Standin.collaborators
       (Trial.requiring None
          [Standin.declare "project" "string" (Standin.defaulting (VStr "demo"));
           Standin.declare "port" "int" (Trial.validated "x")])
       [Standin.declare "project" "string" (Standin.defaulting (VStr "demo"))]
       [] (Standin.declare "port" "int" (Trial.validated "x"))
       non_string_error true false (Standin.quiet []) eq_refl _)
    eq_refl eq_refl _).
  - vm_compute. reflexivity.
  - repeat constructor. eexists. vm_compute. reflexivity.
Defined.


(** ** What [verbose] changes *)

Lemma alike_refl w : alike w w.
Proof. split; reflexivity. Qed.

Lemma coupled_ret {A} (a : A) : coupled (ret a) (ret a).
Proof. intros w w' H. simpl. auto. Qed.

Lemma coupled_raise {A} e : coupled (@raise A e) (raise e).
Proof. intros w w' H. reflexivity. Qed.

Lemma coupled_lift {A} (r : result A) : coupled (lift r) (lift r).
Proof. intros w w' H. unfold lift. destruct r; simpl; auto. Qed.

Lemma coupled_bind {A A'} (m m' : M A) (k k' : A -> M A') :
  coupled m m' -> (forall a, coupled (k a) (k' a)) ->
  coupled (bind m k) (bind m' k').
Proof.
  intros Hm Hk w w' H. unfold bind. specialize (Hm w w' H).
  destruct (m w) as [[a w1]|e], (m' w') as [[a' w1']|e']; simpl in Hm;
    try contradiction.
  - destruct Hm as [<- H1]. apply Hk. exact H1.
  - exact Hm.
Qed.

Lemma coupled_bind_ok {A A'} (m m' : M A) (k k' : A -> M A') :
  coupled m m' ->
  (forall a w w1, m w = Ok (a, w1) -> coupled (k a) (k' a)) ->
  coupled (bind m k) (bind m' k').
Proof.
  intros Hm Hk w w' H. unfold bind. specialize (Hm w w' H).
  destruct (m w) as [[a w1]|e] eqn:E, (m' w') as [[a' w1']|e']; simpl in Hm;
    try contradiction.
  - destruct Hm as [<- H1]. apply (Hk a w w1 E). exact H1.
  - exact Hm.
Qed.

Lemma coupled_emit e : coupled (emit e) (emit e).
Proof.
  intros w w' [Hi Ht]. unfold emit. simpl. split; [reflexivity|].
  split; simpl; [exact Hi|]. unfold unechoed in *.
  now rewrite !filter_app, Ht.
Qed.

Lemma coupled_echo_ret text : coupled (click_echo text) (ret tt).
Proof.
  intros w w' [Hi Ht]. unfold click_echo, emit. simpl. split; [reflexivity|].
  split; simpl; [exact Hi|]. unfold unechoed in *.
  rewrite filter_app, Ht. simpl. apply app_nil_r.
Qed.

Lemma coupled_click_prompt text d hide t :
  coupled (click_prompt text d hide t) (click_prompt text d hide t).
Proof.
  intros w w' [Hi Ht]. unfold click_prompt. rewrite <- Hi.
  destruct (read_answer t d (inputs w)) as [[x rest]|e]; simpl; [|reflexivity].
  split; [reflexivity|]. split; simpl; [reflexivity|]. unfold unechoed in *.
  now rewrite !filter_app, Ht.
Qed.

Section VerboseFacts.

Context {B : Builtins} {C : Collaborators}.

Lemma coupled_PROMPTS ty ask v d :
  PROMPTS ty = Some ask -> coupled (ask v d) (ask v d).
Proof.
  unfold PROMPTS.
  repeat match goal with
         | |- context [String.eqb ty ?s] => destruct (String.eqb ty s)
         end; intros H; inversion H; subst;
    try apply coupled_click_prompt.
  - unfold prompt_json. apply coupled_bind; [apply coupled_click_prompt|].
    intros y. destruct (py_eq y _); apply coupled_ret.
  - unfold prompt_yes_no. apply coupled_bind; [apply coupled_click_prompt|].
    intros y. destruct (py_eq y _); apply coupled_ret.
Qed.

Lemma coupled_prompt_choice v d :
  coupled (prompt_choice v d) (prompt_choice v d).
Proof.
  unfold prompt_choice. apply coupled_bind; [apply coupled_lift|].
  intros i. apply coupled_bind; [apply coupled_click_prompt|].
  intros y. destruct (ctx_get _ _); [apply coupled_ret|apply coupled_raise].
Qed.

Lemma coupled_prompt_loop ask v :
  (forall d, coupled (ask v d) (ask v d)) ->
  forall fuel, coupled (prompt_loop fuel ask v) (prompt_loop fuel ask v).
Proof.
  intros Hask. induction fuel as [|fuel IH]; [apply coupled_raise|].
  cbn [prompt_loop]. apply coupled_bind; [apply Hask|].
  intros x. destruct (validate v) as [p|]; [|apply coupled_ret].
  apply coupled_bind; [apply coupled_lift|].
  intros m. destruct m; [apply coupled_ret|].
  apply coupled_bind; [apply coupled_emit|]. intros _.
  apply coupled_bind.
  { destruct (truthy _); [apply coupled_emit|apply coupled_ret]. }
  intros _. exact IH.
Qed.

Lemma coupled_prompt_variable v :
  coupled (prompt_variable v true) (prompt_variable v false).
Proof.
  unfold prompt_variable.
  apply coupled_bind_ok.
  { destruct (choices v); [|apply coupled_ret].
    destruct (PROMPTS (var_type v)); [apply coupled_ret|apply coupled_raise]. }
  intros ask w0 w1 Hask.
  assert (forall d, coupled (ask v d) (ask v d)) as Hself.
  { intros d. destruct (choices v).
    - destruct (PROMPTS (var_type v)) as [p|] eqn:Ep; [|discriminate].
      apply ret_ok in Hask. destruct Hask as [<- _].
      exact (coupled_PROMPTS _ v d Ep).
    - apply ret_ok in Hask. destruct Hask as [<- _].
      apply coupled_prompt_choice. }
  apply coupled_bind.
  { simpl. destruct (truthy (description v));
      [apply coupled_echo_ret|apply coupled_ret]. }
  intros _ w w' Hw. destruct Hw as [Hi Ht]. rewrite <- Hi.
  apply coupled_prompt_loop; [exact Hself|]. split; assumption.
Qed.

Lemma coupled_jinja_render c text :
  coupled (jinja_render c text) (jinja_render c text).
Proof.
  unfold jinja_render. apply coupled_bind; [apply coupled_emit|].
  intros _. apply coupled_lift.
Qed.

Lemma coupled_process ni v c :
  coupled (process ni true v c) (process ni false v c).
Proof.
  unfold process. apply coupled_bind.
  { unfold render_default. destruct (default v); try apply coupled_ret.
    apply coupled_bind; [apply coupled_jinja_render|].
    intros r. apply coupled_ret. }
  intros v1. apply coupled_bind.
  { unfold raw_value. destruct (ni || negb (prompt_user v1));
      [apply coupled_ret|apply coupled_prompt_variable]. }
  intros raw. apply coupled_bind.
  { unfold lookup_deserializer. destruct (DESERIALIZERS (var_type v1));
      [apply coupled_ret|apply coupled_raise]. }
  intros f. apply coupled_bind; [apply coupled_lift|].
  intros stored. apply coupled_bind; [apply coupled_echo_ret|].
  intros _. apply coupled_ret.
Qed.

Lemma coupled_step ni v st :
  coupled (step ni true v st) (step ni false v st).
Proof.
  unfold step. destruct (awaits_other v st); [apply coupled_ret|].
  apply coupled_bind.
  { unfold skip_if_holds. destruct (negb _); [|apply coupled_ret].
    apply coupled_bind; [apply coupled_jinja_render|].
    intros r. apply coupled_ret. }
  intros [|]; [apply coupled_ret|].
  apply coupled_bind.
  { unfold do_if_fails. destruct (negb _); [|apply coupled_ret].
    apply coupled_bind; [apply coupled_jinja_render|].
    intros r. apply coupled_ret. }
  intros [|]; [apply coupled_ret|].
  apply coupled_bind; [apply coupled_process|].
  intros st'. apply coupled_ret.
Qed.

Lemma coupled_walk ni vars :
  forall st, coupled (walk ni true vars st) (walk ni false vars st).
Proof.
  induction vars as [|v vars IH]; intros st; [apply coupled_ret|].
  cbn [walk]. apply coupled_bind; [apply coupled_step|].
  intros r. apply IH.
Qed.

Lemma coupled_load_context j ni :
  coupled (load_context j ni true) (load_context j ni false).
Proof.
  unfold load_context. apply coupled_bind.
  { destruct (schema_validate j); [apply coupled_raise|apply coupled_ret]. }
  intros _. apply coupled_bind; [apply coupled_lift|].
  intros t. apply coupled_bind; [apply coupled_walk|].
  intros st. unfold finish. apply coupled_bind.
  { destruct (truthy _); [apply coupled_emit|apply coupled_ret]. }
  intros _. apply coupled_ret.
Qed.

End VerboseFacts.

(** X18: the [verbose] flag changes what is echoed and nothing else: from
    the same world, [load_context] with and without it raises the same
    error or returns the same context, having read the same input, with
    the same renders, prompts and warnings in the same order. *)
Theorem verbose_only_adds_echoes :
  forall (B : Builtins) (C : Collaborators) (j : json_object)
         (no_input : bool) (w : world),
    agree (load_context j no_input true w) (load_context j no_input false w).
Proof.
  intros B C j ni w. apply coupled_load_context. apply alike_refl.
Qed.

(** X19: the two copied keys always win: in every returned context
    [_extensions] and [_jinja2_env_vars] hold what the document gives
    under [extensions] and [jinja2_env_vars] ([None] when the key is
    missing), also when a variable of that name was declared and stored;
    every other key holds what the loop left under it. *)
Theorem copied_keys_override_variables :
  forall (B : Builtins) (C : Collaborators) (j : json_object)
         (no_input verbose : bool) (w : world) (c : context) (w' : world),
    load_context j no_input verbose w = Ok (c, w') ->
    ctx_get "_extensions" c
    = Some (match json_extensions j with Some x => x | None => VNone end)
    /\ ctx_get "_jinja2_env_vars" c
       = Some (match json_jinja2_env_vars j with Some x => x | None => VNone end)
    /\ exists template st w1,
         CookiecutterTemplate_init j = Ok template
         /\ walk no_input verbose (variables template) initial w = Ok (st, w1)
         /\ forall k, k <> "_extensions" -> k <> "_jinja2_env_vars" ->
                      ctx_get k c = ctx_get k (ctx st).
Proof.
  intros B C j ni vb w c w' H. unfold load_context in H.
  bind_inv H as u w1 H1. bind_inv H as t w2 H2.
  apply lift_ok in H2. destruct H2 as [Ht <-].
  assert (w1 = w) as ->.
  { destruct (schema_validate j); [discriminate|].
    apply ret_ok in H1. destruct H1 as [_ <-]. reflexivity. }
  bind_inv H as st w3 H3.
  unfold finish in H. bind_inv H as u2 w4 H4.
  apply ret_ok in H. destruct H as [<- _]. split; [|split].
  - rewrite ctx_get_set_other by discriminate. rewrite ctx_get_set_same.
    destruct (json_extensions j); reflexivity.
  - rewrite ctx_get_set_same. destruct (json_jinja2_env_vars j); reflexivity.
  - exists t, st, w3. split; [exact Ht|]. split; [exact H3|].
    intros k He Hj. rewrite !ctx_get_set_other by assumption. reflexivity.
Qed.

Lemma copied_keys_override_variables_witness :
  exists c w',
    @load_context Standin.builtins Standin.collaborators Trial.shadowing
                  true false (Standin.quiet [])
    = Ok (c, w')
    /\ c = [("_extensions", VList [VStr "jinja2_time.TimeExtension"]);
            ("project", VStr "demo");
            ("_jinja2_env_vars", VDict [("trim_blocks", VBool true)])]
    /\ ctx_get "_extensions" c
       = Some (VList [VStr "jinja2_time.TimeExtension"])
    /\ ctx_get "_jinja2_env_vars" c
       = Some (VDict [("trim_blocks", VBool true)]).
Proof.
  eexists. eexists. split; [vm_compute; reflexivity|]. split; [reflexivity|].
  destruct (@copied_keys_override_variables Standin.builtins
              Standin.collaborators Trial.shadowing true false
              (Standin.quiet []) _ _ eq_refl) as (He & Hj & _).
  split; [exact He|exact Hj].
Defined.

(** ** An empty line at every prompt *)

Section EnterFacts.

Context {B : Builtins} {C : Collaborators}.

Lemma click_prompt_enter text d hide t rest tr :
  d <> VNone ->
  click_prompt text d hide t {| inputs := Enter :: rest; trace := tr |}
  = Ok (d, {| inputs := rest;
              trace := (tr ++ [Prompted text d hide t])%list |}).
Proof. intros Hd. unfold click_prompt. simpl. destruct d; congruence. Qed.

Lemma PROMPTS_enter ty ask v d rest tr :
  PROMPTS ty = Some ask ->
  d <> VNone \/ ty = "yes_no" \/ ty = "json" ->
  exists tr',
    ask v d {| inputs := Enter :: rest; trace := tr |}
    = Ok (d, {| inputs := rest; trace := tr' |}).
Proof.
  unfold PROMPTS. intros H Hd.
  repeat match type of H with
         | context [String.eqb ty ?s] =>
             destruct (String.eqb_spec ty s);
             [inversion H; subst; clear H|]
         end; try discriminate.
  1-5: destruct Hd as [Hd|[Hd|Hd]]; try discriminate;
    eexists; apply click_prompt_enter; exact Hd.
  - eexists. unfold prompt_json, bind. rewrite click_prompt_enter by discriminate.
    reflexivity.
  - unfold prompt_yes_no, bind.
    rewrite click_prompt_enter by discriminate.
    destruct d as [| [|] | | | | | |]; eexists; reflexivity.
Qed.

Lemma prompt_variable_enter v vb rest tr :
  choices v = [] -> validate v = None ->
  In (var_type v) supported_types ->
  default v <> VNone \/ var_type v = "yes_no" \/ var_type v = "json" ->
  exists tr',
    prompt_variable v vb {| inputs := Enter :: rest; trace := tr |}
    = Ok (default v, {| inputs := rest; trace := tr' |}).
Proof.
  intros Hc Hv Hty Hd. unfold prompt_variable. rewrite Hc.
  destruct (PROMPTS (var_type v)) as [ask|] eqn:Ep.
  - unfold bind at 1. cbn [ret].
    assert (exists tr0,
              (if vb && truthy (description v)
               then click_echo (get (description v) EmptyString) else ret tt)
                {| inputs := Enter :: rest; trace := tr |}
              = Ok (tt, {| inputs := Enter :: rest; trace := tr0 |}))
      as [tr0 E0].
    { destruct (vb && truthy (description v)); eexists; reflexivity. }
    unfold bind at 1. rewrite E0. cbn [inputs].
    cbn [prompt_loop]. unfold bind at 1.
    destruct (PROMPTS_enter v rest tr0 Ep Hd) as [tr' E']. rewrite E'.
    rewrite Hv. eexists. reflexivity.
  - exfalso. unfold PROMPTS, supported_types in *. simpl in Hty.
    repeat match type of Ep with
           | context [String.eqb ?a ?s] =>
               destruct (String.eqb_spec a s); [discriminate|]
           end.
    intuition congruence.
Qed.

(** The part of [process] after the value has been obtained gives the
    same result and leaves the input alone. *)
Lemma process_tail_same (vb : bool) v c x (w w' : world) :
  inputs w = inputs w' ->
  same_outcome
    ((do deserialize <- lookup_deserializer (var_type v);
      do stored <- lift (deserialize x);
      do _ <- (if vb then click_echo (dashes terminal_width) else ret tt);
      ret {| ctx := ctx_set (name v) stored c;
             skip_to_variable_name :=
               next_target v (ctx_set (name v) stored c) |})%io w)
    ((do deserialize <- lookup_deserializer (var_type v);
      do stored <- lift (deserialize x);
      do _ <- (if vb then click_echo (dashes terminal_width) else ret tt);
      ret {| ctx := ctx_set (name v) stored c;
             skip_to_variable_name :=
               next_target v (ctx_set (name v) stored c) |})%io w').
Proof.
  intros Hi. unfold lookup_deserializer, bind, lift, ret, raise.
  destruct (DESERIALIZERS (var_type v)) as [f|]; [|reflexivity].
  destruct (f x); [|reflexivity].
  destruct vb; simpl; auto.
Qed.

Lemma render_default_run c v w :
  render_default c v w =
  match default v with
  | VStr text =>
      match template_render text c with
      | Ok r => Ok (set_default v (VStr r), logged w [Rendered text])
      | Raise e => Raise e
      end
  | _ => Ok (v, w)
  end.
Proof.
  unfold render_default. destruct (default v); try reflexivity.
  unfold bind. rewrite jinja_render_run.
  destruct (template_render s c); reflexivity.
Qed.

Lemma process_split ni vb v c w :
  process ni vb v c w =
  match render_default c v w with
  | Ok (v1, w1) =>
      (do value <- raw_value ni vb v1;
       do deserialize <- lookup_deserializer (var_type v1);
       do stored <- lift (deserialize value);
       do _ <- (if vb then click_echo (dashes terminal_width) else ret tt);
       ret {| ctx := ctx_set (name v1) stored c;
              skip_to_variable_name :=
                next_target v1 (ctx_set (name v1) stored c) |})%io w1
  | Raise e => Raise e
  end.
Proof. reflexivity. Qed.

End EnterFacts.

(** X20: an empty line at the prompt accepts the default exactly as
    [no_input] does: for a prompted variable of a supported type without
    choices and without validation, whose default is not [None] (or whose
    type is [yes_no] or [json]), processing it interactively on an empty
    line and processing it with [no_input] raise the same error or store
    the same value with the same name pending, the line being the only
    input read. *)
Theorem empty_line_accepts_the_default :
  forall (B : Builtins) (C : Collaborators) (verbose : bool) (v : variable)
         (c : context) (rest : list response) (tr : list event),
    prompt_user v = true ->
    choices v = [] -> validate v = None ->
    In (var_type v) supported_types ->
    default v <> VNone \/ var_type v = "yes_no" \/ var_type v = "json" ->
    same_outcome
      (process false verbose v c {| inputs := Enter :: rest; trace := tr |})
      (process true verbose v c {| inputs := rest; trace := tr |}).
Proof.
  intros B C vb v c rest tr Hp Hc Hv Hty Hd.
  assert (forall (v1 : variable) w1 w1',
             default v1 <> VNone \/ var_type v1 = "yes_no" \/ var_type v1 = "json" ->
             prompt_user v1 = true -> choices v1 = [] -> validate v1 = None ->
             In (var_type v1) supported_types ->
             inputs w1 = (Enter :: rest)%list -> inputs w1' = rest ->
             same_outcome
               ((do value <- raw_value false vb v1;
                 do deserialize <- lookup_deserializer (var_type v1);
                 do stored <- lift (deserialize value);
                 do _ <- (if vb then click_echo (dashes terminal_width) else ret tt);
                 ret {| ctx := ctx_set (name v1) stored c;
                        skip_to_variable_name :=
                          next_target v1 (ctx_set (name v1) stored c) |})%io w1)
               ((do value <- raw_value true vb v1;
                 do deserialize <- lookup_deserializer (var_type v1);
                 do stored <- lift (deserialize value);
                 do _ <- (if vb then click_echo (dashes terminal_width) else ret tt);
                 ret {| ctx := ctx_set (name v1) stored c;
                        skip_to_variable_name :=
                          next_target v1 (ctx_set (name v1) stored c) |})%io w1'))
    as Hrest.
  { intros v1 w1 w1' Hd1 Hp1 Hc1 Hv1 Hty1 Hi Hi'.
    unfold raw_value. rewrite Hp1. cbn [orb negb].
    destruct w1 as [ins1 tr1]. simpl in Hi. subst ins1.
    destruct (@prompt_variable_enter _ _ v1 vb rest tr1 Hc1 Hv1 Hty1 Hd1) as [tr' E'].
    unfold bind at 1. rewrite E'. unfold bind at 5. cbn [ret].
    apply process_tail_same. simpl. symmetry. exact Hi'. }
  rewrite !process_split, !render_default_run.
  destruct (default v) as [|b|z|fl|text|l|d|u] eqn:Ed;
    try (apply Hrest; auto; rewrite Ed; exact Hd).
  destruct (template_render text c) as [r|e]; [|reflexivity].
  apply Hrest; auto. left. simpl. discriminate.
Qed.

Lemma empty_line_accepts_the_default_witness :
  same_outcome
    (@process Standin.builtins Standin.collaborators false false
              Demo.database [] (Standin.quiet [Enter; Typed (VStr "next")]))
    (@process Standin.builtins Standin.collaborators true false
              Demo.database [] (Standin.quiet [Typed (VStr "next")])).
Proof.
  apply (@empty_line_accepts_the_default Standin.builtins
           Standin.collaborators false Demo.database []
           [Typed (VStr "next")] []).
  - reflexivity.
  - reflexivity.
  - reflexivity.
  - simpl. tauto.
  - left. discriminate.
Defined.
